(** * Pharmacy sales chatbot: conversation engine

    A shallow embedding of the conversation engine of [llm.py]
    (class [PharmacyChatbot]) together with the parts of
    [integration.py], [function_calls.py] and [prompt.py] it calls,
    followed by the properties of the state machine and of the
    two-tier slot filling.

    Modelling conventions.
    - Python [str] is [string]; the character predicates ([str.isdigit],
      [str.split], [str.lower], the regular expression classes) are
      the ASCII ones.
    - Python values that travel through [collected_info] are [pyval].
    - The engine object is the record [PharmacyChatbot]; methods are
      computations in the state-and-exception monad [M].
    - The directory service and the language model are external and
      are arguments of the entry points; [json.loads] and the text
      [str.format] gives for a value are section variables. *)

From Stdlib Require Import ZArith QArith Ascii String List Bool Lia.
From stdpp Require Import base option list gmap strings fin_maps.

Local Open Scope string_scope.
Local Open Scope Z_scope.

(** ** Python strings *)

Module Str.

Definition code (c : ascii) : N := N_of_ascii c.

(** [str.isdigit] on an ASCII character. *)
Definition isdigit_char (c : ascii) : bool :=
  (48 <=? code c)%N && (code c <=? 57)%N.

(** Characters [str.split] and [str.strip] treat as white space. *)
Definition isspace_char (c : ascii) : bool :=
  ((9 <=? code c)%N && (code c <=? 13)%N)
  || ((28 <=? code c)%N && (code c <=? 32)%N).

Definition isupper_char (c : ascii) : bool :=
  (65 <=? code c)%N && (code c <=? 90)%N.

Definition islower_char (c : ascii) : bool :=
  (97 <=? code c)%N && (code c <=? 122)%N.

Definition isalpha_char (c : ascii) : bool :=
  isupper_char c || islower_char c.

Definition lower_char (c : ascii) : ascii :=
  if isupper_char c then ascii_of_N (code c + 32) else c.

Definition chars (s : string) : list ascii := list_ascii_of_string s.
Definition of_chars (l : list ascii) : string := string_of_list_ascii l.

(** [s.lower()] *)
Fixpoint lower (s : string) : string :=
  match s with
  | EmptyString => EmptyString
  | String c r => String (lower_char c) (lower r)
  end.

(** [s.isdigit()]: non-empty and made of digits. *)
Definition isdigit (s : string) : bool :=
  match chars s with
  | [] => false
  | l => forallb isdigit_char l
  end.

(** [s.startswith(p)] *)
Definition startswith (p s : string) : bool := String.prefix p s.

(** [sub in s] *)
Fixpoint contains (sub s : string) : bool :=
  String.prefix sub s
  || match s with
     | EmptyString => false
     | String _ r => contains sub r
     end.

Fixpoint drop_while (p : ascii -> bool) (l : list ascii) : list ascii :=
  match l with
  | [] => []
  | c :: r => if p c then drop_while p r else l
  end.

(** [s.strip()] *)
Definition strip (s : string) : string :=
  of_chars (rev (drop_while isspace_char
                   (rev (drop_while isspace_char (chars s))))).

(** [s.endswith(p)] *)
Definition endswith (p s : string) : bool :=
  String.prefix (of_chars (rev (chars p))) (of_chars (rev (chars s))).

(** [s[n:]] and [s[:-n]] *)
Definition drop_left (n : nat) (s : string) : string :=
  of_chars (drop n (chars s)).
Definition drop_right (n : nat) (s : string) : string :=
  of_chars (rev (drop n (rev (chars s)))).

(** [s.split()]: the maximal runs of characters that are not white
    space. [cur] is the run being read, reversed. *)
Fixpoint split_go (cur : list ascii) (l : list ascii) : list string :=
  match l with
  | [] => match cur with [] => [] | _ => [of_chars (rev cur)] end
  | c :: r =>
      if isspace_char c
      then match cur with
           | [] => split_go [] r
           | _ => of_chars (rev cur) :: split_go [] r
           end
      else split_go (c :: cur) r
  end.

Definition split (s : string) : list string := split_go [] (chars s).

(** [re.findall(r"\d+", s)]: the maximal runs of digits. *)
Fixpoint digit_runs_go (cur : list ascii) (l : list ascii) : list string :=
  match l with
  | [] => match cur with [] => [] | _ => [of_chars (rev cur)] end
  | c :: r =>
      if isdigit_char c
      then digit_runs_go (c :: cur) r
      else match cur with
           | [] => digit_runs_go [] r
           | _ => of_chars (rev cur) :: digit_runs_go [] r
           end
  end.

Definition findall_digits (s : string) : list string :=
  digit_runs_go [] (chars s).

(** [int(s)] for a string of digits. *)
Definition digit_value (c : ascii) : Z := Z.of_N (code c) - 48.

Definition int_of_digits (s : string) : Z :=
  fold_left (fun acc c => 10 * acc + digit_value c) (chars s) 0.

End Str.

(** ** The regular expression of the e-mail field

    [re.findall] with the pattern
    [\b[A-Za-z0-9._%+-]+@[A-Za-z0-9.-]+\.[A-Z|a-z]{2,}\b]
    is modelled by a backtracking matcher for sequences of items: each
    repetition is greedy and gives characters back, longest first, when
    the rest of the pattern fails. *)

Module Regex.
Import Str.

Inductive item : Type :=
| Boundary                                  (* \b *)
| Lit (c : ascii)                           (* one character *)
| Rep (min : nat) (cls : ascii -> bool).    (* cls{min,} *)

Definition isalnum_char (c : ascii) : bool :=
  isalpha_char c || isdigit_char c.

Definition isword_char (c : ascii) : bool :=
  isalnum_char c || (code c =? 95)%N.

Definition isword_opt (o : option ascii) : bool :=
  match o with Some c => isword_char c | None => false end.

(** [\b] between the previous character and the next one. *)
Definition at_boundary (prev : option ascii) (l : list ascii) : bool :=
  xorb (isword_opt prev) (isword_opt (head l)).

(** [match_items its prev l] is the text matched by the items [its]
    at the front of [l], [prev] being the character before [l]. *)
Fixpoint match_items (its : list item) (prev : option ascii)
         (l : list ascii) {struct its} : option (list ascii) :=
  match its with
  | [] => Some []
  | Boundary :: its' =>
      if at_boundary prev l then match_items its' prev l else None
  | Lit c :: its' =>
      match l with
      | x :: r =>
          if Ascii.eqb x c
          then cons x <$> match_items its' (Some x) r
          else None
      | [] => None
      end
  | Rep min cls :: its' =>
      (fix rep (need : nat) (prev : option ascii) (l : list ascii)
           {struct l} : option (list ascii) :=
         let stop :=
           match need with
           | O => match_items its' prev l
           | S _ => None
           end in
         match l with
         | x :: r =>
             if cls x
             then match rep (Nat.pred need) (Some x) r with
                  | Some m => Some (x :: m)
                  | None => stop
                  end
             else stop
         | [] => stop
         end) min prev l
  end.

(** [re.findall]: leftmost matches, not overlapping. *)
Fixpoint findall_go (its : list item) (fuel : nat) (prev : option ascii)
         (l : list ascii) : list string :=
  match fuel with
  | O => []
  | S fuel' =>
      match match_items its prev l with
      | Some (c :: m) =>
          of_chars (c :: m)
          :: findall_go its fuel' (last (c :: m))
               (drop (length (c :: m)) l)
      | _ =>
          match l with
          | [] => []
          | x :: r => findall_go its fuel' (Some x) r
          end
      end
  end.

Definition findall (its : list item) (s : string) : list string :=
  findall_go its (S (String.length s)) None (chars s).

Definition in_chars (set : string) (c : ascii) : bool :=
  existsb (Ascii.eqb c) (chars set).

Definition email_local (c : ascii) : bool :=
  isalnum_char c || in_chars "._%+-" c.
Definition email_domain (c : ascii) : bool :=
  isalnum_char c || in_chars ".-" c.
Definition email_tld (c : ascii) : bool :=
  isalpha_char c || in_chars "|" c.

Definition email_pattern : list item :=
  [Boundary; Rep 1 email_local; Lit "@"; Rep 1 email_domain; Lit ".";
   Rep 2 email_tld; Boundary].

End Regex.

(** ** Python values *)

(** A float is observed only through its truth value and through
    comparisons with integers, which Python decides exactly. *)
Inductive pyfloat : Type :=
| FFinite (q : Q)
| FNan
| FPosInf
| FNegInf.

#[local] Set Warnings "-register-all".
Inductive pyval : Type :=
| VNone
| VBool (b : bool)
| VInt (z : Z)
| VFloat (f : pyfloat)
| VStr (s : string)
| VList (l : list pyval)
| VDict (d : gmap string pyval).

(** [bool(v)] *)
Definition truthy (v : pyval) : bool :=
  match v with
  | VNone => false
  | VBool b => b
  | VInt z => negb (z =? 0)
  | VFloat (FFinite q) => negb (Qeq_bool q 0)
  | VFloat _ => true
  | VStr s => negb (String.eqb s "")
  | VList l => match l with [] => false | _ => true end
  | VDict d => negb (bool_decide (d = ∅))
  end.

(** [x >= n] and [x <= n] for a float [x] and an integer [n]; every
    comparison with NaN is false. *)
Definition float_ge (f : pyfloat) (n : Z) : bool :=
  match f with
  | FFinite q => Qle_bool (inject_Z n) q
  | FPosInf => true
  | FNan | FNegInf => false
  end.

Definition float_le (f : pyfloat) (n : Z) : bool :=
  match f with
  | FFinite q => Qle_bool q (inject_Z n)
  | FNegInf => true
  | FNan | FPosInf => false
  end.

(** Exceptions the engine can meet. *)
Inductive exn : Type :=
| TypeError
| IndexError
| AttributeError
| JSONDecodeError
| APIError.

Inductive result (A : Type) : Type :=
| Ok (a : A)
| Raise (e : exn).
Arguments Ok {A} a.
Arguments Raise {A} e.

(** [v >= n] for an integer [n]: [bool] is a subclass of [int]; other
    types do not compare with an integer. *)
Definition py_ge (v : pyval) (n : Z) : result bool :=
  match v with
  | VBool b => Ok ((if b then 1 else 0) >=? n)
  | VInt z => Ok (z >=? n)
  | VFloat f => Ok (float_ge f n)
  | _ => Raise TypeError
  end.

(** ** prompt.py *)

Inductive ConversationState : Type :=
| GREETING
| COLLECTING_INFO
| DISCUSSING_SOLUTIONS
| OFFERING_FOLLOW_UP
| SCHEDULING
| CLOSING
| ERROR.

Global Instance ConversationState_eq_dec : EqDecision ConversationState.
Proof. solve_decision. Defined.

Module PromptTemplates.

Definition SYSTEM_PROMPT : string :=
  "You are a professional pharmacy sales representative for Pharmesol, a company that provides advanced pharmacy management solutions. You handle inbound calls from pharmacies who reach out via phone.

Your role is to:
1. Greet callers professionally and identify if they are existing customers or new leads
2. For existing customers: reference their pharmacy data and discuss how Pharmesol can help optimize their operations
3. For new leads: collect basic information conversationally and explain how Pharmesol can support their pharmacy
4. Highlight how Pharmesol can support high Rx volume pharmacies specifically
5. Offer follow-up actions like email or callback scheduling
6. Be helpful, professional, and focused on understanding their needs

Key information about Pharmesol:
- We specialize in pharmacy management software and automation
- We help pharmacies optimize operations, reduce costs, and improve patient care
- We offer solutions for inventory management, prescription processing, and analytics
- We have special programs for high-volume pharmacies (1000+ prescriptions)
- We provide 24/7 support and custom integrations

Always be conversational, professional, and focus on understanding their specific needs.".

Definition API_ERROR_MESSAGE : string :=
  "I apologize, but I'm having trouble accessing our system right now. Let me collect your information manually and we can follow up with you shortly.

Could you tell me about your pharmacy so I can help you get started?".

Definition CALLBACK_OFFER : string :=
  "I'd love to schedule a more detailed consultation to discuss your specific needs. We can go through your current processes and show you exactly how Pharmesol can help optimize your operations.

What would be a good time for a follow-up call? I'm available most weekdays between 9 AM and 5 PM.".

Definition GENERAL_CLOSING : string :=
  "Thank you for calling Pharmesol today. We appreciate your interest in our pharmacy management solutions.

If you have any questions or would like to follow up, please don't hesitate to call us back at 1-800-PHARMESOL.

Have a great day!".

Section Format.
(** [format_value v] is the text [str.format] puts for [v]. *)
Variable format_value : pyval -> string.

(** [format_greeting]: the caller record is passed as the three
    values of the dictionary built by [start_call]. *)
Definition format_greeting (pharmacy_data : option (pyval * pyval * pyval))
  : string :=
  match pharmacy_data with
  | Some (name, location, rx_volume) =>
      "Hello! Thank you for calling Pharmesol. I can see you're calling from "
      +:+ format_value name +:+ " in " +:+ format_value location
      +:+ ". How can I help you today?

I notice you're currently processing " +:+ format_value rx_volume
      +:+ " prescriptions. That's quite a volume! How are things going with your current pharmacy management system?"
  | None =>
      "Hello! Thank you for calling Pharmesol. My name is Alex, and I'm here to help you find the right pharmacy management solutions.

I don't have your pharmacy in our system yet. Could you tell me a bit about your pharmacy and what brings you to call us today?"
  end.

Definition format_callback_offer : string := CALLBACK_OFFER.

Definition format_successful_closing
  (action_taken expected_outcome : string) (pharmacy_name : pyval)
  : string :=
  "Perfect! I've " +:+ action_taken +:+ ". You should "
  +:+ expected_outcome +:+ ".

Thank you for calling Pharmesol today. We're excited about the opportunity to help "
  +:+ format_value pharmacy_name +:+ " optimize your pharmacy operations.

Is there anything else I can help you with today?".
End Format.

End PromptTemplates.

Module ResponseTemplates.

Definition get_collecting_info_response (field : string) : string :=
  if String.eqb field "pharmacy_name" then
    "What's the name of your pharmacy?"
  else if String.eqb field "location" then
    "Where is your pharmacy located?"
  else if String.eqb field "rx_volume" then
    "How many prescriptions do you typically process each month?"
  else if String.eqb field "contact_person" then
    "Who should I speak with about pharmacy management solutions?"
  else if String.eqb field "email" then
    "What's the best email address to send you information?"
  else "Could you provide that information?".

Definition HIGH_VOLUME_BENEFITS : string :=
  "For high-volume pharmacies like yours, we offer:
• Advanced automation that can save 20+ hours per week
• Real-time inventory management with predictive ordering
• Custom workflow optimization
• Priority support and dedicated account management
• Volume-based pricing that scales with your business".

Definition MEDIUM_VOLUME_BENEFITS : string :=
  "For pharmacies of your size, we provide:
• Streamlined prescription processing
• Automated inventory tracking
• Comprehensive reporting and analytics
• Integration with major pharmacy systems
• 24/7 technical support".

Definition LOW_VOLUME_BENEFITS : string :=
  "We can help you:
• Automate routine tasks
• Improve inventory management
• Enhance patient care coordination
• Reduce operational costs
• Scale as your business grows".

(** The comparison raises [TypeError] on a value that is not a
    number. *)
Definition get_solution_benefits (rx_volume : pyval) : result string :=
  match py_ge rx_volume 1000 with
  | Raise e => Raise e
  | Ok true => Ok HIGH_VOLUME_BENEFITS
  | Ok false =>
      match py_ge rx_volume 500 with
      | Raise e => Raise e
      | Ok true => Ok MEDIUM_VOLUME_BENEFITS
      | Ok false => Ok LOW_VOLUME_BENEFITS
      end
  end.

Definition get_follow_up_options : string :=
  "I'd be happy to help you get started. We can:

1. Send you detailed information via email
2. Schedule a consultation call to discuss your specific needs
3. Arrange a demo of our system
4. Connect you with one of our pharmacy specialists

What would work best for you?".

End ResponseTemplates.

(** ** integration.py *)

Record PharmacyData : Type := {
  pd_id : string;
  pd_name : pyval;
  pd_phone : pyval;
  pd_location : pyval;
  pd_rx_volume : pyval;
  pd_contact_person : pyval;
  pd_email : pyval;
  pd_notes : pyval
}.

Module PharmacyAPI.

(** [_clean_phone_number]: ["".join(filter(str.isdigit, phone))] *)
Fixpoint _clean_phone_number (phone : string) : string :=
  match phone with
  | EmptyString => EmptyString
  | String c rest =>
      if Str.isdigit_char c
      then String c (_clean_phone_number rest)
      else _clean_phone_number rest
  end.

(** What [get_pharmacy_by_phone] does for the engine: a record, no
    record, or an exception. *)
Inductive lookup_outcome : Type :=
| Found (p : PharmacyData)
| NotFound
| LookupRaises (e : exn).

End PharmacyAPI.

(** ** function_calls.py *)

Record EmailRequest : Type := {
  to_email : pyval;
  subject : string;
  body : string;
  er_pharmacy_name : pyval;
  er_contact_person : pyval
}.

Record CallbackRequest : Type := {
  phone_number : pyval;
  preferred_time : string;
  cr_pharmacy_name : pyval;
  cr_contact_person : pyval;
  notes : string
}.

(** The dictionaries appended to the two logs. *)
Record email_data : Type := {
  ed_id : nat;
  ed_request : EmailRequest;
  ed_sent_at : string;
  ed_status : string
}.

Record callback_data : Type := {
  cd_id : nat;
  cd_request : CallbackRequest;
  cd_scheduled_at : string;
  cd_status : string
}.

Record FollowUpActions : Type := {
  sent_emails : list email_data;
  scheduled_callbacks : list callback_data
}.

Module Actions.
Section Format.
Variable format_value : pyval -> string.
(** [datetime.now().isoformat()] *)
Variable now : string.

Definition send_email (email_request : EmailRequest)
           (a : FollowUpActions) : FollowUpActions :=
  {| sent_emails :=
       sent_emails a
       ++ [{| ed_id := length (sent_emails a) + 1;
              ed_request := email_request;
              ed_sent_at := now;
              ed_status := "sent" |}];
     scheduled_callbacks := scheduled_callbacks a |}.

Definition schedule_callback (callback_request : CallbackRequest)
           (a : FollowUpActions) : FollowUpActions :=
  {| sent_emails := sent_emails a;
     scheduled_callbacks :=
       scheduled_callbacks a
       ++ [{| cd_id := length (scheduled_callbacks a) + 1;
              cd_request := callback_request;
              cd_scheduled_at := now;
              cd_status := "scheduled" |}] |}.

Definition send_welcome_email (pharmacy_data : PharmacyData)
           (a : FollowUpActions) : FollowUpActions :=
  let subject :=
    "Welcome to Pharmesol - Supporting "
    +:+ format_value (pd_name pharmacy_data) in
  let body :=
    "
Dear " +:+ format_value (pd_contact_person pharmacy_data) +:+ ",

Thank you for your interest in Pharmesol! We're excited to help "
    +:+ format_value (pd_name pharmacy_data)
    +:+ " optimize your pharmacy operations.

Based on your current Rx volume of "
    +:+ format_value (pd_rx_volume pharmacy_data)
    +:+ " prescriptions, we can offer you:

• Advanced inventory management solutions
• Automated prescription processing
• Real-time analytics and reporting
• 24/7 technical support
• Custom integration with your existing systems

Our team will be in touch within 24 hours to discuss how we can best serve your pharmacy.

Best regards,
The Pharmesol Team
        " in
  send_email
    {| to_email :=
         if truthy (pd_email pharmacy_data)
         then pd_email pharmacy_data
         else VStr "contact@pharmacy.com";
       subject := subject;
       body := Str.strip body;
       er_pharmacy_name := pd_name pharmacy_data;
       er_contact_person := pd_contact_person pharmacy_data |} a.

Definition schedule_consultation (pharmacy_data : PharmacyData)
           (preferred_time : string) (a : FollowUpActions)
  : FollowUpActions :=
  schedule_callback
    {| phone_number := pd_phone pharmacy_data;
       preferred_time := preferred_time;
       cr_pharmacy_name := pd_name pharmacy_data;
       cr_contact_person := pd_contact_person pharmacy_data;
       notes :=
         "Consultation call for " +:+ format_value (pd_name pharmacy_data)
         +:+ " with Rx volume of "
         +:+ format_value (pd_rx_volume pharmacy_data) |} a.

Definition clear_history (a : FollowUpActions) : FollowUpActions :=
  {| sent_emails := []; scheduled_callbacks := [] |}.
End Format.
End Actions.

(** ** llm.py: the engine state *)

Inductive role : Type := system | user | assistant.

Definition message : Type := (role * string)%type.

(** The requests the engine sends to the language model. The
    extraction prompt is a fixed template around the field and the
    user's message, so the request is kept as this pair. *)
Inductive llm_request : Type :=
| ProbeRequest
| ExtractionRequest (field user_message : string)
| GenerationRequest (messages : list message).

(** The call raises, or the first choice carries a text. *)
Inductive llm_reply : Type :=
| LlmRaises
| LlmContent (content : string).

(** What surrounds the engine while it handles one message. *)
Record World : Type := {
  llm : llm_request -> llm_reply;
  now : string
}.

Record PharmacyChatbot : Type := {
  ai_available : bool;
  ai_extraction_failures : nat;
  follow_up_actions : FollowUpActions;
  current_state : ConversationState;
  conversation_history : list message;
  pharmacy_data : option PharmacyData;
  collected_info : gmap string pyval;
  current_info_field : nat;
  (* every request sent through [self.client], oldest first *)
  llm_requests : list llm_request
}.

Definition info_collection_fields : list string :=
  ["pharmacy_name"; "location"; "rx_volume"; "contact_person"; "email"].

Definition set_ai_available (b : bool) (s : PharmacyChatbot) :=
  {| ai_available := b;
     ai_extraction_failures := ai_extraction_failures s;
     follow_up_actions := follow_up_actions s;
     current_state := current_state s;
     conversation_history := conversation_history s;
     pharmacy_data := pharmacy_data s;
     collected_info := collected_info s;
     current_info_field := current_info_field s;
     llm_requests := llm_requests s |}.

Definition set_ai_extraction_failures (n : nat) (s : PharmacyChatbot) :=
  {| ai_available := ai_available s;
     ai_extraction_failures := n;
     follow_up_actions := follow_up_actions s;
     current_state := current_state s;
     conversation_history := conversation_history s;
     pharmacy_data := pharmacy_data s;
     collected_info := collected_info s;
     current_info_field := current_info_field s;
     llm_requests := llm_requests s |}.

Definition set_follow_up_actions (a : FollowUpActions) (s : PharmacyChatbot) :=
  {| ai_available := ai_available s;
     ai_extraction_failures := ai_extraction_failures s;
     follow_up_actions := a;
     current_state := current_state s;
     conversation_history := conversation_history s;
     pharmacy_data := pharmacy_data s;
     collected_info := collected_info s;
     current_info_field := current_info_field s;
     llm_requests := llm_requests s |}.

Definition set_current_state (c : ConversationState) (s : PharmacyChatbot) :=
  {| ai_available := ai_available s;
     ai_extraction_failures := ai_extraction_failures s;
     follow_up_actions := follow_up_actions s;
     current_state := c;
     conversation_history := conversation_history s;
     pharmacy_data := pharmacy_data s;
     collected_info := collected_info s;
     current_info_field := current_info_field s;
     llm_requests := llm_requests s |}.

Definition set_conversation_history (h : list message) (s : PharmacyChatbot) :=
  {| ai_available := ai_available s;
     ai_extraction_failures := ai_extraction_failures s;
     follow_up_actions := follow_up_actions s;
     current_state := current_state s;
     conversation_history := h;
     pharmacy_data := pharmacy_data s;
     collected_info := collected_info s;
     current_info_field := current_info_field s;
     llm_requests := llm_requests s |}.

Definition set_pharmacy_data (p : option PharmacyData) (s : PharmacyChatbot) :=
  {| ai_available := ai_available s;
     ai_extraction_failures := ai_extraction_failures s;
     follow_up_actions := follow_up_actions s;
     current_state := current_state s;
     conversation_history := conversation_history s;
     pharmacy_data := p;
     collected_info := collected_info s;
     current_info_field := current_info_field s;
     llm_requests := llm_requests s |}.

Definition set_collected_info (m : gmap string pyval) (s : PharmacyChatbot) :=
  {| ai_available := ai_available s;
     ai_extraction_failures := ai_extraction_failures s;
     follow_up_actions := follow_up_actions s;
     current_state := current_state s;
     conversation_history := conversation_history s;
     pharmacy_data := pharmacy_data s;
     collected_info := m;
     current_info_field := current_info_field s;
     llm_requests := llm_requests s |}.

Definition set_current_info_field (n : nat) (s : PharmacyChatbot) :=
  {| ai_available := ai_available s;
     ai_extraction_failures := ai_extraction_failures s;
     follow_up_actions := follow_up_actions s;
     current_state := current_state s;
     conversation_history := conversation_history s;
     pharmacy_data := pharmacy_data s;
     collected_info := collected_info s;
     current_info_field := n;
     llm_requests := llm_requests s |}.

Definition set_llm_requests (l : list llm_request) (s : PharmacyChatbot) :=
  {| ai_available := ai_available s;
     ai_extraction_failures := ai_extraction_failures s;
     follow_up_actions := follow_up_actions s;
     current_state := current_state s;
     conversation_history := conversation_history s;
     pharmacy_data := pharmacy_data s;
     collected_info := collected_info s;
     current_info_field := current_info_field s;
     llm_requests := l |}.

(** ** The state-and-exception monad of the methods *)

Definition M (A : Type) : Type := PharmacyChatbot -> result A * PharmacyChatbot.

Definition ret {A} (a : A) : M A := fun s => (Ok a, s).

Definition raise {A} (e : exn) : M A := fun s => (Raise e, s).

Definition bind {A B} (m : M A) (k : A -> M B) : M B :=
  fun s =>
    match m s with
    | (Ok a, s') => k a s'
    | (Raise e, s') => (Raise e, s')
    end.

Definition get : M PharmacyChatbot := fun s => (Ok s, s).

Definition modify (f : PharmacyChatbot -> PharmacyChatbot) : M unit :=
  fun s => (Ok tt, f s).

Definition lift {A} (r : result A) : M A := fun s => (r, s).

(** [try: body except Exception: handler] *)
Definition try_except {A} (body : M A) (handler : exn -> M A) : M A :=
  fun s =>
    match body s with
    | (Ok a, s') => (Ok a, s')
    | (Raise e, s') => handler e s'
    end.

Declare Scope engine_scope.
Delimit Scope engine_scope with engine.
Notation "x <- m ;; k" := (bind m (fun x => k))
  (at level 100, m at next level, right associativity) : engine_scope.
Notation "m ;; k" := (bind m (fun _ => k))
  (at level 100, right associativity) : engine_scope.

(** ** llm.py: the manual tier's heuristics *)

(** [field in d and d[field]] *)
Definition lookup_truthy (d : gmap string pyval) (field : string) : bool :=
  match d !! field with
  | Some v => truthy v
  | None => false
  end.

(** The loop [for i, word in enumerate(words)] that stops at the first
    word satisfying [p] and yields [words[i - 1] + " " + word], or
    [word] alone when [i = 0]. *)
Fixpoint adjacent_word (p : string -> bool) (prev : option string)
         (words : list string) : option string :=
  match words with
  | [] => None
  | word :: rest =>
      if p word
      then Some match prev with
                | Some before => before +:+ " " +:+ word
                | None => word
                end
      else adjacent_word p (Some word) rest
  end.

Definition contains_any (keywords : list string) (text : string) : bool :=
  existsb (fun k => Str.contains k text) keywords.

Definition health_keywords : list string :=
  ["natural"; "health"; "care"; "medical"; "wellness"; "supplements";
   "products"].
Definition city_keywords : list string :=
  ["city"; "town"; "street"; "avenue"; "road"].
Definition title_keywords : list string :=
  ["manager"; "owner"; "director"; "pharmacist"].

Definition extract_pharmacy_name (user_message : string) : option pyval :=
  let by_keyword :=
    if Str.contains "pharmacy" (Str.lower user_message)
    then adjacent_word (fun word => Str.contains "pharmacy" (Str.lower word))
           None (Str.split user_message)
    else None in
  match by_keyword with
  | Some name => Some (VStr name)
  | None =>
      let words := Str.split user_message in
      if (length words <=? 3)%nat then Some (VStr (Str.strip user_message))
      else if existsb
                (fun word =>
                   existsb (String.eqb (Str.lower word)) health_keywords)
                words
      then Some (VStr (Str.strip user_message))
      else None
  end.

(** The branches for [location] and [contact_person] differ only in
    the field and the keywords. *)
Definition extract_short_or_adjacent (keywords : list string)
           (user_message : string) : option pyval :=
  let words := Str.split user_message in
  if (length words <=? 3)%nat then Some (VStr (Str.strip user_message))
  else if contains_any keywords (Str.lower user_message)
  then VStr <$> adjacent_word
                  (fun word => contains_any keywords (Str.lower word))
                  None words
  else None.

Definition extract_rx_volume (user_message : string) : option pyval :=
  match Str.findall_digits user_message with
  | first :: _ => Some (VInt (Str.int_of_digits first))
  | [] => None
  end.

Definition extract_email (user_message : string) : option pyval :=
  match Regex.findall Regex.email_pattern user_message with
  | first :: _ => Some (VStr first)
  | [] => None
  end.

(** The value the manual tier stores under [field] for this message;
    [None] when [info_extracted] stays [False]. *)
Definition manual_extract (field user_message : string) : option pyval :=
  if String.eqb field "pharmacy_name" then extract_pharmacy_name user_message
  else if String.eqb field "location" then
    extract_short_or_adjacent city_keywords user_message
  else if String.eqb field "rx_volume" then extract_rx_volume user_message
  else if String.eqb field "contact_person" then
    extract_short_or_adjacent title_keywords user_message
  else if String.eqb field "email" then extract_email user_message
  else None.

(** ** llm.py: the methods of [PharmacyChatbot] *)

Definition required_fields : list string :=
  ["pharmacy_name"; "location"; "rx_volume"; "contact_person"; "email"].

(** The two scans of [required_fields], as functions of the
    dictionary they read. *)
Definition complete_info (info : gmap string pyval) : bool :=
  forallb (lookup_truthy info) required_fields.

Definition next_missing_field (info : gmap string pyval) : string :=
  match List.find (fun field => negb (lookup_truthy info field))
          required_fields with
  | Some field => field
  | None => "pharmacy_name"
  end.

(** [info.get("rx_volume", 0)] *)
Definition get_rx_volume (info : gmap string pyval) : pyval :=
  default (VInt 0) (info !! "rx_volume").

Definition _has_complete_info (s : PharmacyChatbot) : bool :=
  complete_info (collected_info s).

Definition _get_next_missing_field (s : PharmacyChatbot) : string :=
  next_missing_field (collected_info s).

Definition rx_volume_or_0 (s : PharmacyChatbot) : pyval :=
  get_rx_volume (collected_info s).

Definition _get_email_address (s : PharmacyChatbot) : pyval :=
  if lookup_truthy (collected_info s) "email"
  then default VNone (collected_info s !! "email")
  else match pharmacy_data s with
       | Some p => if truthy (pd_email p) then pd_email p else VNone
       | None => VNone
       end.

Definition _get_pharmacy_name (s : PharmacyChatbot) : pyval :=
  if lookup_truthy (collected_info s) "pharmacy_name"
  then default VNone (collected_info s !! "pharmacy_name")
  else match pharmacy_data s with
       | Some p => pd_name p
       | None => VStr "your pharmacy"
       end.

Definition is_none (v : pyval) : bool :=
  match v with VNone => true | _ => false end.

(** The check of an AI answer for [rx_volume]: a string of digits is
    turned into a number, and the value must be a number above zero.
    Returns the (possibly updated) dictionary and [valid_extraction]. *)
Definition check_rx_volume (extracted_info : gmap string pyval)
  : gmap string pyval * bool :=
  match extracted_info !! "rx_volume" with
  | None => (extracted_info, true)
  | Some value =>
      let '(extracted_info, value) :=
        match value with
        | VStr text =>
            if Str.isdigit text
            then (<["rx_volume" := VInt (Str.int_of_digits text)]> extracted_info,
                  VInt (Str.int_of_digits text))
            else (extracted_info, value)
        | _ => (extracted_info, value)
        end in
      let valid :=
        match value with
        | VInt z => negb (z <=? 0)
        | VBool b => b
        | VFloat f => negb (float_le f 0)
        | _ => false
        end in
      (extracted_info, valid)
  end.

Definition TECHNICAL_DIFFICULTIES : string :=
  "I apologize, but I'm experiencing some technical difficulties. Could you please try again?".

Definition FOLLOW_UP_REPEAT : string :=
  "I can send you detailed information via email or schedule a consultation call. Which would you prefer?".

Section Engine.
Variable json_loads : string -> option pyval.
Variable format_value : pyval -> string.
Variable w : World.

Local Open Scope engine_scope.

(** [self.client.chat.completions.create(...)]: the request is
    logged, and the call returns the content or raises. *)
Definition client_create (req : llm_request) : M string :=
  modify (fun s => set_llm_requests (llm_requests s ++ [req]) s) ;;
  match llm w req with
  | LlmContent content => ret content
  | LlmRaises => raise APIError
  end.

(** [l[i]] *)
Definition index (l : list string) (i : nat) : M string :=
  match l !! i with
  | Some x => ret x
  | None => raise IndexError
  end.

Definition _extract_pharmacy_info_for_field (user_message field : string)
  : M (gmap string pyval) :=
  s <- get ;;
  if negb (ai_available s) then ret ∅
  else
    try_except
      (content <- client_create (ExtractionRequest field user_message) ;;
       let content := Str.strip content in
       if String.eqb content "" then ret ∅
       else
         let content :=
           if Str.startswith "```json" content
           then Str.drop_left 7 content else content in
         let content :=
           if Str.endswith "```" content
           then Str.drop_right 3 content else content in
         let content := Str.strip content in
         match json_loads content with
         | None => raise JSONDecodeError
         | Some (VDict result) =>
             ret (filter (fun kv => is_none kv.2 = false) result)
         | Some _ => raise AttributeError
         end)
      (fun _ => ret ∅).

Definition _handle_manual_info_collection (user_message : string)
  : M string :=
  s <- get ;;
  if (length info_collection_fields <=? current_info_field s)%nat then
    modify (set_current_state DISCUSSING_SOLUTIONS) ;;
    lift (ResponseTemplates.get_solution_benefits (rx_volume_or_0 s))
  else
    field <- index info_collection_fields (current_info_field s) ;;
    let extracted := manual_extract field user_message in
    match extracted with
    | Some value =>
        modify (fun s =>
                  set_current_info_field (current_info_field s + 1)
                    (set_collected_info
                       (<[field := value]> (collected_info s)) s))
    | None => ret tt
    end ;;
    s <- get ;;
    if _has_complete_info s then
      modify (set_current_state DISCUSSING_SOLUTIONS) ;;
      lift (ResponseTemplates.get_solution_benefits (rx_volume_or_0 s))
    else
      match extracted with
      | Some _ =>
          next_field <- index info_collection_fields (current_info_field s) ;;
          ret (ResponseTemplates.get_collecting_info_response next_field)
      | None =>
          ret (ResponseTemplates.get_collecting_info_response field)
      end.

Definition count_extraction_failure : M unit :=
  modify (fun s =>
            set_ai_extraction_failures (ai_extraction_failures s + 1) s).

(** The AI tier of [_handle_info_collection]: [Some reply] when the
    method returns from inside it, [None] when control falls through
    to the manual tier. *)
Definition ai_tier (user_message current_field : string)
  : M (option string) :=
  s <- get ;;
  if ai_available s && (ai_extraction_failures s <? 3)%nat then
    extracted_info <-
      _extract_pharmacy_info_for_field user_message current_field ;;
    if negb (bool_decide (extracted_info = ∅))
       && lookup_truthy extracted_info current_field
    then
      let '(extracted_info, valid_extraction) :=
        if String.eqb current_field "rx_volume"
        then check_rx_volume extracted_info
        else (extracted_info, true) in
      if valid_extraction then
        modify (fun s =>
                  set_collected_info
                    (extracted_info ∪ collected_info s) s) ;;
        s <- get ;;
        if _has_complete_info s then
          modify (set_current_state DISCUSSING_SOLUTIONS) ;;
          reply <- lift (ResponseTemplates.get_solution_benefits
                           (rx_volume_or_0 s)) ;;
          ret (Some reply)
        else
          ret (Some (ResponseTemplates.get_collecting_info_response
                       (_get_next_missing_field s)))
      else
        count_extraction_failure ;; ret None
    else
      count_extraction_failure ;; ret None
  else ret None.

Definition _handle_info_collection (user_message : string) : M string :=
  try_except
    (s <- get ;;
     let current_field := _get_next_missing_field s in
     returned <- ai_tier user_message current_field ;;
     match returned with
     | Some reply => ret reply
     | None => _handle_manual_info_collection user_message
     end)
    (fun _ => _handle_manual_info_collection user_message).

Definition _generate_ai_response (user_message : string) : M string :=
  s <- get ;;
  if negb (ai_available s) then
    ret "I'm currently in fallback mode. Let me help you with your pharmacy management needs."
  else
    try_except
      (let history := conversation_history s in
       let messages :=
         ([(system, PromptTemplates.SYSTEM_PROMPT)]
          ++ drop (length history - 10) history
          ++ [(user, user_message)])%list in
       client_create (GenerationRequest messages))
      (fun _ =>
         ret "I apologize, but I'm having trouble generating a response right now. Could you please try again?").

Definition _handle_solution_discussion (user_message : string) : M string :=
  if contains_any ["yes"; "interested"; "more"; "information"; "details"]
       (Str.lower user_message)
  then
    modify (set_current_state OFFERING_FOLLOW_UP) ;;
    ret ResponseTemplates.get_follow_up_options
  else
    s <- get ;;
    if ai_available s then _generate_ai_response user_message
    else
      ret "I'd be happy to help you get started. We can send you detailed information or schedule a consultation call. What would work best for you?".

Definition _handle_follow_up_offer (user_message : string) : M string :=
  s <- get ;;
  if Str.contains "email" (Str.lower user_message) then
    let email := _get_email_address s in
    if truthy email then
      let pharmacy_name := _get_pharmacy_name s in
      modify (fun s =>
                set_follow_up_actions
                  (Actions.send_welcome_email format_value (now w)
                     {| pd_id := "new";
                        pd_name := pharmacy_name;
                        pd_phone := VStr "";
                        pd_location := VStr "";
                        pd_rx_volume := rx_volume_or_0 s;
                        pd_contact_person :=
                          default (VStr "")
                            (collected_info s !! "contact_person");
                        pd_email := email;
                        pd_notes := VNone |}
                     (follow_up_actions s)) s) ;;
      modify (set_current_state CLOSING) ;;
      ret (PromptTemplates.format_successful_closing format_value
             "sent you detailed information via email"
             "receive the email within the next few minutes"
             pharmacy_name)
    else
      ret "I'd be happy to send you information. What's your email address?"
  else if Str.contains "call" (Str.lower user_message)
          || Str.contains "consultation" (Str.lower user_message)
  then
    modify (set_current_state SCHEDULING) ;;
    ret PromptTemplates.format_callback_offer
  else ret FOLLOW_UP_REPEAT.

Definition time_keywords : list string :=
  ["tomorrow"; "next week"; "monday"; "tuesday"; "wednesday"; "thursday";
   "friday"; "morning"; "afternoon"; "evening"].

Definition _handle_scheduling (user_message : string) : M string :=
  s <- get ;;
  let preferred_time :=
    match List.find (fun keyword =>
                       Str.contains keyword (Str.lower user_message))
            time_keywords with
    | Some keyword => keyword +:+ " at 2 PM"
    | None => "tomorrow at 2 PM"
    end in
  let pharmacy_name := _get_pharmacy_name s in
  let phone :=
    match pharmacy_data s with
    | Some p => pd_phone p
    | None => VStr ""
    end in
  modify (fun s =>
            set_follow_up_actions
              (Actions.schedule_consultation format_value (now w)
                 {| pd_id := "new";
                    pd_name := pharmacy_name;
                    pd_phone := phone;
                    pd_location := VStr "";
                    pd_rx_volume := rx_volume_or_0 s;
                    pd_contact_person :=
                      default (VStr "")
                        (collected_info s !! "contact_person");
                    pd_email := VStr "";
                    pd_notes := VNone |}
                 preferred_time
                 (follow_up_actions s)) s) ;;
  modify (set_current_state CLOSING) ;;
  ret (PromptTemplates.format_successful_closing format_value
         "scheduled a consultation call for you"
         "receive a confirmation email with the details"
         pharmacy_name).

Definition _handle_closing (user_message : string) : M string :=
  if contains_any ["no"; "nothing"; "goodbye"; "bye"; "thanks"]
       (Str.lower user_message)
  then ret PromptTemplates.GENERAL_CLOSING
  else ret "Is there anything else I can help you with today?".

Definition _handle_error_recovery (user_message : string) : M string :=
  try_except
    (modify (set_ai_available false) ;;
     modify (set_current_state COLLECTING_INFO) ;;
     ret "I'm back online now. Let me help you with your pharmacy management needs. Could you tell me about your pharmacy?")
    (fun _ =>
       ret "I'm experiencing technical difficulties. Please try calling back later.").

Definition append_history (m : message) : M unit :=
  modify (fun s =>
            set_conversation_history (conversation_history s ++ [m]) s).

(** The routing of [process_message], before the reply is recorded. *)
Definition dispatch (user_message : string) : M string :=
  s <- get ;;
  match current_state s with
  | COLLECTING_INFO => _handle_info_collection user_message
  | DISCUSSING_SOLUTIONS => _handle_solution_discussion user_message
  | OFFERING_FOLLOW_UP => _handle_follow_up_offer user_message
  | SCHEDULING => _handle_scheduling user_message
  | CLOSING => _handle_closing user_message
  | ERROR => _handle_error_recovery user_message
  | GREETING =>
      if ai_available s then _generate_ai_response user_message
      else
        ret "I'm here to help you with pharmacy management solutions. How can I assist you today?"
  end.

Definition process_message (user_message : string) : M string :=
  try_except
    (append_history (user, user_message) ;;
     response <- dispatch user_message ;;
     append_history (assistant, response) ;;
     ret response)
    (fun _ => ret TECHNICAL_DIFFICULTIES).

Definition start_call
           (get_pharmacy_by_phone : string -> PharmacyAPI.lookup_outcome)
           (phone_number : string) : M string :=
  try_except
    (found <-
       match get_pharmacy_by_phone phone_number with
       | PharmacyAPI.Found p => ret (Some p)
       | PharmacyAPI.NotFound => ret None
       | PharmacyAPI.LookupRaises e => raise e
       end ;;
     modify (set_pharmacy_data found) ;;
     greeting <-
       match found with
       | Some p =>
           modify (set_current_state DISCUSSING_SOLUTIONS) ;;
           ret (PromptTemplates.format_greeting format_value
                  (Some (pd_name p, pd_location p, pd_rx_volume p)))
       | None =>
           modify (set_current_state COLLECTING_INFO) ;;
           modify (set_current_info_field 0) ;;
           ret (PromptTemplates.format_greeting format_value None)
       end ;;
     append_history
       (system, "Call started from phone number: " +:+ phone_number) ;;
     append_history (assistant, greeting) ;;
     ret greeting)
    (fun _ =>
       modify (set_current_state ERROR) ;;
       ret PromptTemplates.API_ERROR_MESSAGE).

Definition reset_conversation (s : PharmacyChatbot) : PharmacyChatbot :=
  {| ai_available := ai_available s;
     ai_extraction_failures := ai_extraction_failures s;
     follow_up_actions := Actions.clear_history (follow_up_actions s);
     current_state := GREETING;
     conversation_history := [];
     pharmacy_data := None;
     collected_info := ∅;
     current_info_field := 0;
     llm_requests := llm_requests s |}.

(** [__init__]: [api_key] is the argument, [env_key] the value of
    the environment variable; the AI tier is enabled when a key is
    there and the probe request succeeds. *)
Definition __init__ (api_key env_key : option string) : PharmacyChatbot :=
  let key :=
    match api_key with
    | Some k => if String.eqb k "" then env_key else Some k
    | None => env_key
    end in
  let has_key :=
    match key with
    | Some k => negb (String.eqb k "")
    | None => false
    end in
  let probe := has_key && match llm w ProbeRequest with
                          | LlmContent _ => true
                          | LlmRaises => false
                          end in
  {| ai_available := probe;
     ai_extraction_failures := 0;
     follow_up_actions := {| sent_emails := []; scheduled_callbacks := [] |};
     current_state := GREETING;
     conversation_history := [];
     pharmacy_data := None;
     collected_info := ∅;
     current_info_field := 0;
     llm_requests := if has_key then [ProbeRequest] else [] |}.

End Engine.

(** ** Notions used by the statements *)

(** The values [get_solution_benefits] can compare with a number. *)
Definition is_number (v : pyval) : bool :=
  match v with
  | VBool _ | VInt _ | VFloat _ => true
  | _ => false
  end.

Definition numeric_rx_volume (info : gmap string pyval) : bool :=
  is_number (get_rx_volume info).

(** A dictionary that binds no key but [field]: what the extraction
    prompt asks the model for. *)
Definition single_key (field : string) (d : gmap string pyval) : Prop :=
  forall k, is_Some (d !! k) -> k = field.

Definition is_extraction_request (req : llm_request) : bool :=
  match req with
  | ExtractionRequest _ _ => true
  | _ => false
  end.

(** The extraction requests among the requests sent so far. *)
Definition extraction_requests (s : PharmacyChatbot) : list llm_request :=
  List.filter is_extraction_request (llm_requests s).

(** An e-mail address is known, in [collected_info] or in the caller
    record. *)
Definition email_known (s : PharmacyChatbot) : Prop :=
  lookup_truthy (collected_info s) "email" = true
  \/ exists p, pharmacy_data s = Some p /\ truthy (pd_email p) = true.

(** The manual tier is the one that runs: the AI tier is not
    available or has failed three times. *)
Definition manual_only (s : PharmacyChatbot) : Prop :=
  ai_available s = false \/ (3 <= ai_extraction_failures s)%nat.

(** An engine between calls: nothing collected, cursor on the first
    field. [__init__] and [reset_conversation] both give one. *)
Definition fresh_engine (s : PharmacyChatbot) : Prop :=
  collected_info s = ∅ /\ current_info_field s = 0%nat.

Section Calls.
Variable json_loads : string -> option pyval.
Variable format_value : pyval -> string.

(** The engine after one message. *)
Definition after_message (w : World) (user_message : string)
           (s : PharmacyChatbot) : PharmacyChatbot :=
  snd (process_message json_loads format_value w user_message s).

Definition reply_to (w : World) (user_message : string)
           (s : PharmacyChatbot) : result string :=
  fst (process_message json_loads format_value w user_message s).

(** The engine after a sequence of messages, each with the world it
    is handled in. *)
Fixpoint after_messages (steps : list (World * string))
         (s : PharmacyChatbot) : PharmacyChatbot :=
  match steps with
  | [] => s
  | (w, user_message) :: rest =>
      after_messages rest (after_message w user_message s)
  end.

(** The states of one call: an engine that holds no collected
    information (a new one, or one that was reset) answers
    [start_call] and then any number of messages. *)
Inductive one_call : PharmacyChatbot -> Prop :=
| call_started (s0 : PharmacyChatbot)
               (get_pharmacy_by_phone : string -> PharmacyAPI.lookup_outcome)
               (phone_number : string) :
    fresh_engine s0 ->
    one_call
      (snd (start_call format_value get_pharmacy_by_phone phone_number s0))
| call_message (w : World) (user_message : string) (s : PharmacyChatbot) :
    one_call s -> one_call (after_message w user_message s).

(** What [_extract_pharmacy_info_for_field] returns when the AI tier
    is available. *)
Definition ai_answer (w : World) (user_message field : string)
  : gmap string pyval :=
  match llm w (ExtractionRequest field user_message) with
  | LlmRaises => ∅
  | LlmContent content =>
      let content := Str.strip content in
      if String.eqb content "" then ∅
      else
        let content :=
          if Str.startswith "```json" content
          then Str.drop_left 7 content else content in
        let content :=
          if Str.endswith "```" content
          then Str.drop_right 3 content else content in
        match json_loads (Str.strip content) with
        | Some (VDict result) =>
            filter (fun kv => is_none kv.2 = false) result
        | _ => ∅
        end
  end.
End Calls.

(** While the engine collects, or waits in [ERROR], the information is
    incomplete and the cursor is on a field; a call never goes back to
    [GREETING]. *)
Definition collecting_invariant (s : PharmacyChatbot) : Prop :=
  current_state s <> GREETING
  /\ (current_state s = COLLECTING_INFO \/ current_state s = ERROR ->
      _has_complete_info s = false
      /\ (current_info_field s < length info_collection_fields)%nat).

(** The four states after information collection. *)
Definition past_collection (c : ConversationState) : Prop :=
  c = DISCUSSING_SOLUTIONS \/ c = OFFERING_FOLLOW_UP
  \/ c = SCHEDULING \/ c = CLOSING.

Definition with_user_message (user_message : string) (s : PharmacyChatbot)
  : PharmacyChatbot :=
  set_conversation_history
    (conversation_history s ++ [(user, user_message)]) s.

Definition with_reply (reply : string) (s : PharmacyChatbot)
  : PharmacyChatbot :=
  set_conversation_history
    (conversation_history s ++ [(assistant, reply)]) s.

(** The dictionary the AI tier stores for an answer [d] to a request
    for [field]; [None] when the answer is rejected. *)
Definition accepted_answer (field : string) (d : gmap string pyval)
  : option (gmap string pyval) :=
  if negb (bool_decide (d = ∅)) && lookup_truthy d field then
    let '(d', valid) :=
      if String.eqb field "rx_volume" then check_rx_volume d else (d, true) in
    if valid then Some d' else None
  else None.

(** ** Sample surroundings for the examples *)

Definition sample_format (v : pyval) : string :=
  match v with
  | VStr text => text
  | _ => "?"
  end.

(** A language model that is down, and one that always answers
    [content]. *)
Definition llm_down : World :=
  {| llm := fun _ => LlmRaises; now := "2025-01-01T09:00:00" |}.

Definition llm_says (content : string) : World :=
  {| llm := fun _ => LlmContent content; now := "2025-01-01T09:00:00" |}.

(** A stand-in for [json.loads] on the three answers the examples
    use. *)
Definition sample_json_loads (content : string) : option pyval :=
  if String.eqb content "NAME" then
    Some (VDict {["pharmacy_name" := VStr "Alpha Pharmacy"]})
  else if String.eqb content "NULL" then
    Some (VDict {["pharmacy_name" := VNone]})
  else if String.eqb content "EXTRA" then
    Some (VDict (<["pharmacy_name" := VStr "Alpha Pharmacy"]>
                   (<["location" := VStr "Orlando"]>
                      (<["rx_volume" := VStr "plenty"]>
                         (<["contact_person" := VStr "John"]>
                            {["email" := VStr "john@alpha.com"]})))))
  else None.

Definition directory_miss (_ : string) : PharmacyAPI.lookup_outcome :=
  PharmacyAPI.NotFound.

(** A new lead's call on an engine without API key. *)
Definition manual_call : PharmacyChatbot :=
  snd (start_call sample_format directory_miss "555-999-9999"
         (__init__ llm_down None None)).

(** A new lead's call on an engine with an API key and a model that
    answers the probe. *)
Definition ai_call (w : World) : PharmacyChatbot :=
  snd (start_call sample_format directory_miss "555-999-9999"
         (__init__ w (Some "key") None)).

Definition say (w : World) (user_message : string) (s : PharmacyChatbot)
  : PharmacyChatbot :=
  after_message sample_json_loads sample_format w user_message s.

(** The outcome of one message in [COLLECTING_INFO]: the reply and the
    next state, before the reply is added to the history. *)
Definition collecting_outcome (reply : result string) (s s' : PharmacyChatbot)
  : Prop :=
  numeric_rx_volume (collected_info s') = true
  /\ (current_state s' = DISCUSSING_SOLUTIONS
      /\ reply = ResponseTemplates.get_solution_benefits (rx_volume_or_0 s')
      /\ (exists text, reply = Ok text)
      /\ (_has_complete_info s' = true
          \/ (5 <= current_info_field s')%nat)
      \/ current_state s' = current_state s
         /\ _has_complete_info s' = false
         /\ (exists text, reply = Ok text)).

(** Five short answers complete the information of [manual_call]. *)
Definition five_answers : PharmacyChatbot :=
  say llm_down "john@alpha.com"
    (say llm_down "John Smith"
       (say llm_down "We process 1500 prescriptions"
          (say llm_down "Orlando"
             (say llm_down "Alpha Pharmacy" manual_call)))).

(** Three answers the model gives no value for. *)
Definition three_failures : PharmacyChatbot :=
  say (llm_says "NULL") "well, it depends on the season you know"
    (say (llm_says "NULL") "why do you need to know that right now"
       (say (llm_says "NULL") "hello there, I have a question for you"
          (ai_call (llm_says "NULL")))).

(** An existing customer who has asked for more information. *)
Definition customer_record : PharmacyData :=
  {| pd_id := "1";
     pd_name := VStr "Test Pharmacy";
     pd_phone := VStr "555-123-4567";
     pd_location := VStr "Test City";
     pd_rx_volume := VInt 1500;
     pd_contact_person := VStr "John Doe";
     pd_email := VStr "john@testpharmacy.com";
     pd_notes := VNone |}.

Definition customer_offered : PharmacyChatbot :=
  say llm_down "Yes, I would like more information"
    (snd (start_call sample_format
            (fun _ => PharmacyAPI.Found customer_record) "555-123-4567"
            (__init__ llm_down None None))).

(** Four answers of a call, the first one empty. *)
Definition blank_name_call : PharmacyChatbot :=
  say llm_down "John Smith"
    (say llm_down "500"
       (say llm_down "Orlando"
          (say llm_down "" manual_call))).

(** The engine of [blank_name_call] after the fifth answer, a lookup
    that raises, and one message in [ERROR]. *)
Definition recovered_call : PharmacyChatbot :=
  say llm_down "hello"
    (snd (start_call sample_format
            (fun _ => PharmacyAPI.LookupRaises APIError) "555-999-9999"
            (say llm_down "john@alpha.com" blank_name_call))).

(** The call in which the model has given the name. *)
Definition name_by_ai : PharmacyChatbot :=
  say (llm_says "NAME") "We are Alpha Pharmacy of Orlando, Florida"
    (ai_call (llm_says "NAME")).

(** ** The life of an engine *)

(** What can happen to an engine between its creation and its end. *)
Inductive event : Type :=
| Message (w : World) (user_message : string)
| StartCall (get_pharmacy_by_phone : string -> PharmacyAPI.lookup_outcome)
            (phone_number : string)
| Reset.

Section Events.
Variable json_loads : string -> option pyval.
Variable format_value : pyval -> string.

Definition after_event (e : event) (s : PharmacyChatbot) : PharmacyChatbot :=
  match e with
  | Message w user_message =>
      after_message json_loads format_value w user_message s
  | StartCall get_pharmacy_by_phone phone_number =>
      snd (start_call format_value get_pharmacy_by_phone phone_number s)
  | Reset => reset_conversation s
  end.

Fixpoint after_events (events : list event) (s : PharmacyChatbot)
  : PharmacyChatbot :=
  match events with
  | [] => s
  | e :: rest => after_events rest (after_event e s)
  end.
End Events.

(** The ids of the records of both logs are their positions, counted
    from 1. *)
Definition ids_in_order (a : FollowUpActions) : Prop :=
  (forall i record, sent_emails a !! i = Some record ->
                    ed_id record = (i + 1)%nat)
  /\ (forall i record, scheduled_callbacks a !! i = Some record ->
                       cd_id record = (i + 1)%nat).

(** Every e-mail of the log has a truthy address. *)
Definition all_addressed (a : FollowUpActions) : Prop :=
  forall i record, sent_emails a !! i = Some record ->
                   truthy (to_email (ed_request record)) = true.

(** ** integration.py: the requests of [PharmacyAPI] *)

Module PharmacyAPIRequests.

(** Exceptions met in the code after an exchange. *)
Inductive error : Type :=
| ValueError
| TypeError
| OverflowError
| AttributeError.

Inductive outcome (A : Type) : Type :=
| Return (a : A)
| Throw (e : error).
Arguments Return {A} a.
Arguments Throw {A} e.

(** One exchange with the service ([session.get], [post] or [put],
    then [raise_for_status] and [response.json()]): the decoded body,
    or the [except] clause its exception reaches. *)
Inductive http_outcome : Type :=
| Timeout
| ConnectionError
| RequestException
| OtherException
| Json (payload : pyval).

(** The outcomes that lead to another attempt. *)
Definition retryable (o : http_outcome) : bool :=
  match o with
  | Timeout | ConnectionError | RequestException => true
  | OtherException | Json _ => false
  end.

Definition max_retries : nat := 3.
Definition retry_delay : nat := 1.

(** The loop shared by the request methods. [exchange attempt] is the
    exchange made at that attempt, [body] the rest of the [try] block
    and [failed] the value returned when nothing was obtained. The
    second component lists the arguments of [time.sleep]. *)
Fixpoint attempts {A : Type} (exchange : nat -> http_outcome)
         (body : pyval -> outcome A) (failed : A)
         (attempt remaining : nat) : A * list nat :=
  match remaining with
  | O => (failed, [])
  | S remaining' =>
      match exchange attempt with
      | Json payload =>
          match body payload with
          | Return a => (a, [])
          | Throw _ => (failed, [])
          end
      | OtherException => (failed, [])
      | Timeout | ConnectionError | RequestException =>
          let slept :=
            if (attempt <? max_retries - 1)%nat
            then [(retry_delay * (attempt + 1))%nat] else [] in
          let '(a, later) :=
            attempts exchange body failed (attempt + 1) remaining' in
          (a, (slept ++ later)%list)
      end
  end.

Definition with_retries {A : Type} (exchange : nat -> http_outcome)
           (body : pyval -> outcome A) (failed : A) : A * list nat :=
  attempts exchange body failed 0 max_retries.

(** A request method gives up: it sleeps 1 second after a first and 2
    seconds after a second failed attempt, never looks at a fourth
    exchange, and returns [failed] after three failed attempts. *)
Definition gives_up {A : Type} (run : (nat -> http_outcome) -> A * list nat)
           (failed : A) (exchange : nat -> http_outcome) : Prop :=
  snd (run exchange)
  = (if retryable (exchange 0%nat)
     then if retryable (exchange 1%nat) then [1%nat; 2%nat] else [1%nat]
     else [])
  /\ run (fun attempt =>
            if (attempt <? 3)%nat then exchange attempt else OtherException)
     = run exchange
  /\ (if retryable (exchange 0%nat) && retryable (exchange 1%nat)
         && retryable (exchange 2%nat)
      then fst (run exchange) = failed else True).

Section Requests.
(** [str(v)] *)
Variable py_str : pyval -> string.
(** [int(text)] for a string; [None] when it raises [ValueError]. *)
Variable int_of_str : string -> option Z.
(** The keys of a dictionary in the order Python iterates them. *)
Variable dict_keys : gmap string pyval -> list string.

(** [int(v)] *)
Definition py_int (v : pyval) : outcome Z :=
  match v with
  | VInt z => Return z
  | VBool b => Return (if b then 1 else 0)
  | VFloat (FFinite q) => Return (Z.quot (Qnum q) (Zpos (Qden q)))
  | VFloat FNan => Throw ValueError
  | VFloat _ => Throw OverflowError
  | VStr text =>
      match int_of_str text with
      | Some z => Return z
      | None => Throw ValueError
      end
  | VNone | VList _ | VDict _ => Throw TypeError
  end.

(** [_parse_pharmacy_data] *)
Definition _parse_pharmacy_data (data : pyval) : outcome PharmacyData :=
  match data with
  | VDict d =>
      match py_int (default (VInt 0) (d !! "rx_volume")) with
      | Return rx_volume =>
          Return {| pd_id := py_str (default (VStr "") (d !! "id"));
                    pd_name := default (VStr "") (d !! "name");
                    pd_phone := default (VStr "") (d !! "phone");
                    pd_location := default (VStr "") (d !! "location");
                    pd_rx_volume := VInt rx_volume;
                    pd_contact_person :=
                      default (VStr "") (d !! "contact_person");
                    pd_email := default VNone (d !! "email");
                    pd_notes := default VNone (d !! "notes") |}
      | Throw ValueError | Throw TypeError =>
          Return {| pd_id := py_str (default (VStr "") (d !! "id"));
                    pd_name :=
                      default (VStr "Unknown Pharmacy") (d !! "name");
                    pd_phone := default (VStr "") (d !! "phone");
                    pd_location :=
                      default (VStr "Unknown Location") (d !! "location");
                    pd_rx_volume := VInt 0;
                    pd_contact_person :=
                      default (VStr "Unknown Contact")
                        (d !! "contact_person");
                    pd_email := default VNone (d !! "email");
                    pd_notes := default VNone (d !! "notes") |}
      | Throw e => Throw e
      end
  | _ => Throw AttributeError
  end.

(** ["".join(filter(str.isdigit, items))] for a list: every item has
    to be a string, and the strings made of digits are kept. *)
Fixpoint join_digit_strings (items : list pyval) : outcome string :=
  match items with
  | [] => Return ""
  | VStr text :: rest =>
      match join_digit_strings rest with
      | Return joined =>
          Return (if Str.isdigit text then text +:+ joined else joined)
      | Throw e => Throw e
      end
  | _ :: _ => Throw TypeError
  end.

(** [_clean_phone_number] on the value found in a record. *)
Definition clean_phone_value (phone : pyval) : outcome string :=
  match phone with
  | VStr text => Return (PharmacyAPI._clean_phone_number text)
  | VList items => join_digit_strings items
  | VDict d =>
      Return (String.concat "" (List.filter Str.isdigit (dict_keys d)))
  | VNone | VBool _ | VInt _ | VFloat _ => Throw TypeError
  end.

(** The scan of the records for the cleaned number. *)
Fixpoint first_match (cleaned_phone : string) (pharmacies : list pyval)
  : outcome (option PharmacyData) :=
  match pharmacies with
  | [] => Return None
  | VDict d :: rest =>
      match clean_phone_value (default (VStr "") (d !! "phone")) with
      | Return cleaned =>
          if String.eqb cleaned cleaned_phone
          then match _parse_pharmacy_data (VDict d) with
               | Return p => Return (Some p)
               | Throw e => Throw e
               end
          else first_match cleaned_phone rest
      | Throw e => Throw e
      end
  | _ :: _ => Throw AttributeError
  end.

(** [for pharmacy in pharmacies] over the decoded body: a dictionary
    gives its keys and a string its characters, which have no [get]. *)
Definition scan (cleaned_phone : string) (pharmacies : pyval)
  : outcome (option PharmacyData) :=
  match pharmacies with
  | VList records => first_match cleaned_phone records
  | VDict d =>
      match dict_keys d with
      | [] => Return None
      | _ :: _ => Throw AttributeError
      end
  | VStr text =>
      if String.eqb text "" then Return None else Throw AttributeError
  | VNone | VBool _ | VInt _ | VFloat _ => Throw TypeError
  end.

Definition get_pharmacy_by_phone (exchange : nat -> http_outcome)
           (phone_number : string) : option PharmacyData * list nat :=
  with_retries exchange
    (scan (PharmacyAPI._clean_phone_number phone_number)) None.

(** [[self._parse_pharmacy_data(pharmacy) for pharmacy in pharmacies]] *)
Fixpoint parse_each (pharmacies : list pyval) : outcome (list PharmacyData) :=
  match pharmacies with
  | [] => Return []
  | pharmacy :: rest =>
      match _parse_pharmacy_data pharmacy with
      | Return p =>
          match parse_each rest with
          | Return parsed => Return (p :: parsed)
          | Throw e => Throw e
          end
      | Throw e => Throw e
      end
  end.

Definition parse_all (pharmacies : pyval) : outcome (list PharmacyData) :=
  match pharmacies with
  | VList records => parse_each records
  | VDict d =>
      match dict_keys d with
      | [] => Return []
      | _ :: _ => Throw AttributeError
      end
  | VStr text =>
      if String.eqb text "" then Return [] else Throw AttributeError
  | VNone | VBool _ | VInt _ | VFloat _ => Throw TypeError
  end.

Definition get_all_pharmacies (exchange : nat -> http_outcome)
  : list PharmacyData * list nat :=
  with_retries exchange parse_all [].

(** [create_pharmacy] and [update_pharmacy]: [post] and [put] are the
    exchanges for the data sent, [put] also for the id in the URL. *)
Definition create_pharmacy (post : pyval -> nat -> http_outcome)
           (pharmacy_data : pyval) : option PharmacyData * list nat :=
  with_retries (post pharmacy_data)
    (fun created_pharmacy =>
       match _parse_pharmacy_data created_pharmacy with
       | Return p => Return (Some p)
       | Throw e => Throw e
       end) None.

Definition update_pharmacy (put : string -> pyval -> nat -> http_outcome)
           (pharmacy_id : string) (updates : pyval)
  : option PharmacyData * list nat :=
  with_retries (put pharmacy_id updates)
    (fun updated_pharmacy =>
       match _parse_pharmacy_data updated_pharmacy with
       | Return p => Return (Some p)
       | Throw e => Throw e
       end) None.

(** [[p for p in all_pharmacies if p.rx_volume >= threshold]] *)
Fixpoint at_least (threshold : Z) (all_pharmacies : list PharmacyData)
  : result (list PharmacyData) :=
  match all_pharmacies with
  | [] => Ok []
  | pharmacy :: rest =>
      match py_ge (pd_rx_volume pharmacy) threshold with
      | Ok keep =>
          match at_least threshold rest with
          | Ok kept => Ok (if keep then pharmacy :: kept else kept)
          | Raise e => Raise e
          end
      | Raise e => Raise e
      end
  end.

Definition get_high_volume_pharmacies (exchange : nat -> http_outcome)
           (threshold : Z) : list PharmacyData :=
  match at_least threshold (fst (get_all_pharmacies exchange)) with
  | Ok kept => kept
  | Raise _ => []
  end.

(** The lookup as the engine sees it. *)
Definition lookup (exchange : nat -> http_outcome) (phone_number : string)
  : PharmacyAPI.lookup_outcome :=
  match fst (get_pharmacy_by_phone exchange phone_number) with
  | Some p => PharmacyAPI.Found p
  | None => PharmacyAPI.NotFound
  end.

End Requests.
End PharmacyAPIRequests.

(** ** Sample lives, calls and directories for the examples *)

(** A call, a reset and another call. *)
Definition two_calls : list event :=
  [Message (llm_says "NAME") "Alpha Pharmacy";
   Reset;
   StartCall directory_miss "555-999-9999";
   Message (llm_says "NAME") "We are Alpha Pharmacy of Orlando, Florida"].

(** A call whose lookup raised, on an engine with an API key. *)
Definition failed_lookup_call : PharmacyChatbot :=
  snd (start_call sample_format
         (fun _ => PharmacyAPI.LookupRaises APIError) "555-999-9999"
         (__init__ (llm_says "NAME") (Some "key") None)).

(** The customer of [customer_offered] after asking for a call, and
    after asking for the e-mail. *)
Definition customer_scheduling : PharmacyChatbot :=
  say llm_down "a consultation call would be best" customer_offered.

Definition customer_closing : PharmacyChatbot :=
  say llm_down "Please send me an email" customer_offered.

(** A customer whose record has no e-mail address. *)
Definition customer_without_email : PharmacyChatbot :=
  say llm_down "Yes, I would like more information"
    (snd (start_call sample_format
            (fun _ =>
               PharmacyAPI.Found
                 {| pd_id := "2";
                    pd_name := VStr "Quiet Pharmacy";
                    pd_phone := VStr "555-000-0000";
                    pd_location := VStr "Test City";
                    pd_rx_volume := VInt 300;
                    pd_contact_person := VStr "Jane Doe";
                    pd_email := VNone;
                    pd_notes := VNone |}) "555-000-0000"
            (__init__ llm_down None None))).

(** An engine with an API key, before any call. *)
Definition idle_ai_engine : PharmacyChatbot :=
  __init__ (llm_says "NAME") (Some "key") None.

(** A stand-in for [json.loads] on an answer for the volume. *)
Definition volume_json_loads (content : string) : option pyval :=
  if String.eqb content "VOLUME"
  then Some (VDict {["rx_volume" := VStr "1500"]})
  else None.

(** A directory of two records, served at the second attempt. *)
Definition first_record : gmap string pyval :=
  <["id" := VStr "1"]>
    (<["name" := VStr "Alpha Pharmacy"]>
       {["phone" := VStr "(555) 999-0000"]}).

Definition second_record : gmap string pyval :=
  <["id" := VStr "2"]>
    (<["name" := VStr "Test Pharmacy"]>
       (<["phone" := VStr "1-555-123-4567"]>
          {["rx_volume" := VInt 1500]})).

Definition slow_directory (attempt : nat)
  : PharmacyAPIRequests.http_outcome :=
  match attempt with
  | O => PharmacyAPIRequests.Timeout
  | _ => PharmacyAPIRequests.Json
           (VList [VDict first_record; VDict second_record])
  end.

Definition second_parsed : PharmacyData :=
  {| pd_id := "2";
     pd_name := VStr "Test Pharmacy";
     pd_phone := VStr "1-555-123-4567";
     pd_location := VStr "";
     pd_rx_volume := VInt 1500;
     pd_contact_person := VStr "";
     pd_email := VNone;
     pd_notes := VNone |}.

(** A directory whose first record has no phone, and one with an
    entry that is not a record. *)
Definition phoneless_record : gmap string pyval :=
  {["name" := VStr "Ghost Pharmacy"]}.

Definition phoneless_directory (attempt : nat)
  : PharmacyAPIRequests.http_outcome :=
  PharmacyAPIRequests.Json (VList [VDict phoneless_record; VDict first_record]).

Definition ghost_parsed : PharmacyData :=
  {| pd_id := "";
     pd_name := VStr "Ghost Pharmacy";
     pd_phone := VStr "";
     pd_location := VStr "";
     pd_rx_volume := VInt 0;
     pd_contact_person := VStr "";
     pd_email := VNone;
     pd_notes := VNone |}.

Definition broken_directory (attempt : nat)
  : PharmacyAPIRequests.http_outcome :=
  PharmacyAPIRequests.Json (VList [VDict first_record; VStr "oops"]).

Definition no_int (text : string) : option Z := None.

Definition sorted_keys (d : gmap string pyval) : list string :=
  (map_to_list d).*1.

(** * Properties *)

(** ** The string heuristics on sample messages *)

Example findall_email_1 :
  Regex.findall Regex.email_pattern "My email is john@pharmacy.com"
  = ["john@pharmacy.com"].
Proof. reflexivity. Qed.

Example findall_email_2 :
  Regex.findall Regex.email_pattern "a@b.co.uk, x@y.z and j.d+t@ph-x.org."
  = ["a@b.co.uk"; "j.d+t@ph-x.org"].
Proof. reflexivity. Qed.

Example findall_email_3 :
  Regex.findall Regex.email_pattern "john@ or @pharmacy.com" = [].
Proof. reflexivity. Qed.

Example findall_digits_1 :
  Str.findall_digits "We process 1500 prescriptions, 20 a day"
  = ["1500"; "20"].
Proof. reflexivity. Qed.

Example split_1 : Str.split "  New   York City " = ["New"; "York"; "City"].
Proof. reflexivity. Qed.

Example strip_1 : Str.strip "  New   York City " = "New   York City".
Proof. reflexivity. Qed.

Example manual_volume :
  manual_extract "rx_volume" "We process 1500 prescriptions"
  = Some (VInt 1500).
Proof. reflexivity. Qed.

Example manual_name :
  manual_extract "pharmacy_name" "My pharmacy is called Test Pharmacy"
  = Some (VStr "My pharmacy").
Proof. reflexivity. Qed.

Example manual_location :
  manual_extract "location" "We're located in New York City"
  = Some (VStr "York City").
Proof. reflexivity. Qed.

Example manual_contact_none :
  manual_extract "contact_person" "please ask someone else about it" = None.
Proof. reflexivity. Qed.

(** ** Phone-number normalisation *)





Example clean_phone_parentheses :
  PharmacyAPI._clean_phone_number "(555) 123-4567" = "5551234567".
Proof. reflexivity. Qed.

Example clean_phone_letters :
  PharmacyAPI._clean_phone_number "abc-def-ghij" = "".
Proof. reflexivity. Qed.
(** ** Running the methods *)

Arguments dispatch : simpl never.
Arguments _handle_info_collection : simpl never.
Arguments _handle_manual_info_collection : simpl never.
Arguments ai_tier : simpl never.
Arguments _extract_pharmacy_info_for_field : simpl never.
Arguments manual_extract : simpl never.
Arguments complete_info : simpl never.
Arguments next_missing_field : simpl never.
Arguments get_rx_volume : simpl never.
Arguments ResponseTemplates.get_solution_benefits : simpl never.
Arguments ResponseTemplates.get_collecting_info_response : simpl never.
Arguments Str.contains : simpl never.
Arguments Str.lower : simpl never.
Arguments Nat.leb : simpl never.
Arguments Nat.ltb : simpl never.

Ltac unfold_monad :=
  unfold index, append_history, count_extraction_failure, client_create in *;
  unfold try_except, bind, ret, raise, get, modify, lift in *.

(** ** Call start *)

(** C2. For every phone number: a directory hit puts the engine in
    [DISCUSSING_SOLUTIONS]; a miss puts it in [COLLECTING_INFO] with
    the field cursor at 0; an exception raised by the lookup puts it in
    [ERROR] and the fixed apology is returned. *)
Theorem start_call_transitions
        (format_value : pyval -> string)
        (get_pharmacy_by_phone : string -> PharmacyAPI.lookup_outcome)
        (phone_number : string) (s : PharmacyChatbot) :
  let '(reply, s') :=
    start_call format_value get_pharmacy_by_phone phone_number s in
  match get_pharmacy_by_phone phone_number with
  | PharmacyAPI.Found p =>
      current_state s' = DISCUSSING_SOLUTIONS /\ pharmacy_data s' = Some p
  | PharmacyAPI.NotFound =>
      current_state s' = COLLECTING_INFO /\ current_info_field s' = 0%nat
  | PharmacyAPI.LookupRaises _ =>
      current_state s' = ERROR
      /\ reply = Ok PromptTemplates.API_ERROR_MESSAGE
  end.
Proof.
  unfold start_call. unfold_monad.
  destruct (get_pharmacy_by_phone phone_number); cbn; auto.
Qed.

(** ** The message boundary *)

Ltac split_eq E :=
  cbv zeta in E;
  repeat match type of E with
    | context [llm ?w ?req] => destruct (llm w req) eqn:?
    | context [if ?c then _ else _] => destruct c eqn:?
    | context [match ?x with _ => _ end] => destruct x eqn:?
    end;
  inversion E; subst; clear E.

Ltac arith_facts :=
  repeat match goal with
    | H : (_ <=? _)%nat = true |- _ => apply Nat.leb_le in H
    | H : (_ <=? _)%nat = false |- _ => apply Nat.leb_gt in H
    | H : (_ <? _)%nat = true |- _ => apply Nat.ltb_lt in H
    | H : (_ <? _)%nat = false |- _ => apply Nat.ltb_ge in H
    | H : info_collection_fields !! _ = None |- _ =>
        apply lookup_ge_None in H;
        change (length info_collection_fields) with 5%nat in H
    | H : info_collection_fields !! _ = Some _ |- _ =>
        let L := fresh "Hlt" in
        pose proof (lookup_lt_Some _ _ _ H) as L;
        change (length info_collection_fields) with 5%nat in L;
        revert H
    end; intros.

Section Runs.
Variable json_loads : string -> option pyval.
Variable format_value : pyval -> string.
Variable w : World.

Lemma process_message_eq (user_message : string) (s : PharmacyChatbot) :
  process_message json_loads format_value w user_message s
  = match dispatch json_loads format_value w user_message
            (with_user_message user_message s) with
    | (Ok reply, s') => (Ok reply, with_reply reply s')
    | (Raise _, s') => (Ok TECHNICAL_DIFFICULTIES, s')
    end.
Proof.
  unfold process_message, with_user_message, with_reply. unfold_monad.
  cbn. destruct (dispatch _ _ _ _ _) as [[reply|e] s']; reflexivity.
Qed.

Lemma extract_eq (user_message field : string) (s : PharmacyChatbot) :
  ai_available s = true ->
  _extract_pharmacy_info_for_field json_loads w user_message field s
  = (Ok (ai_answer json_loads w user_message field),
     set_llm_requests
       (llm_requests s ++ [ExtractionRequest field user_message]) s).
Proof.
  intros Hai. unfold _extract_pharmacy_info_for_field, ai_answer.
  unfold_monad. rewrite Hai. cbn.
  destruct (llm w _) as [|content]; [reflexivity|]. cbn.
  destruct (String.eqb (Str.strip content) ""); [reflexivity|].
  destruct (json_loads _) as [[]|]; reflexivity.
Qed.

Lemma manual_eq (user_message : string) (s : PharmacyChatbot) :
  _handle_manual_info_collection user_message s
  = if (5 <=? current_info_field s)%nat then
      (ResponseTemplates.get_solution_benefits (rx_volume_or_0 s),
       set_current_state DISCUSSING_SOLUTIONS s)
    else
      match info_collection_fields !! current_info_field s with
      | None => (Raise IndexError, s)
      | Some field =>
          match manual_extract field user_message with
          | Some value =>
              let s1 :=
                set_current_info_field (current_info_field s + 1)
                  (set_collected_info
                     (<[field := value]> (collected_info s)) s) in
              if _has_complete_info s1 then
                (ResponseTemplates.get_solution_benefits (rx_volume_or_0 s1),
                 set_current_state DISCUSSING_SOLUTIONS s1)
              else
                (match info_collection_fields
                       !! (current_info_field s + 1)%nat with
                 | Some next_field =>
                     Ok (ResponseTemplates.get_collecting_info_response
                           next_field)
                 | None => Raise IndexError
                 end, s1)
          | None =>
              if _has_complete_info s then
                (ResponseTemplates.get_solution_benefits (rx_volume_or_0 s),
                 set_current_state DISCUSSING_SOLUTIONS s)
              else
                (Ok (ResponseTemplates.get_collecting_info_response field),
                 s)
          end
      end.
Proof.
  unfold _handle_manual_info_collection, _has_complete_info, rx_volume_or_0.
  unfold_monad.
  change (length info_collection_fields) with 5%nat. cbn.
  destruct (5 <=? current_info_field s)%nat; [reflexivity|].
  destruct (info_collection_fields !! current_info_field s) as [field|];
    [|reflexivity].
  cbn. destruct (manual_extract field user_message) as [value|]; cbn.
  - destruct (complete_info _); [reflexivity|].
    destruct (info_collection_fields !! _); reflexivity.
  - destruct (complete_info _); reflexivity.
Qed.

Lemma ai_tier_eq (user_message field : string) (s : PharmacyChatbot) :
  ai_tier json_loads w user_message field s
  = if ai_available s && (ai_extraction_failures s <? 3)%nat then
      let s0 :=
        set_llm_requests
          (llm_requests s ++ [ExtractionRequest field user_message]) s in
      match accepted_answer field
              (ai_answer json_loads w user_message field) with
      | Some d =>
          let s1 := set_collected_info (d ∪ collected_info s) s0 in
          if _has_complete_info s1 then
            (match ResponseTemplates.get_solution_benefits
                     (rx_volume_or_0 s1) with
             | Ok reply => Ok (Some reply)
             | Raise e => Raise e
             end, set_current_state DISCUSSING_SOLUTIONS s1)
          else
            (Ok (Some (ResponseTemplates.get_collecting_info_response
                         (_get_next_missing_field s1))), s1)
      | None =>
          (Ok None,
           set_ai_extraction_failures (ai_extraction_failures s + 1) s0)
      end
    else (Ok None, s).
Proof.
  unfold ai_tier. unfold bind at 1. unfold get at 1.
  destruct (ai_available s) eqn:Hai; [|reflexivity]. cbn [andb].
  destruct (ai_extraction_failures s <? 3)%nat; [|reflexivity].
  unfold bind at 1. rewrite (extract_eq _ _ _ Hai).
  unfold accepted_answer, _has_complete_info, rx_volume_or_0,
    _get_next_missing_field.
  destruct (negb _ && lookup_truthy _ field); [|reflexivity].
  destruct (if String.eqb field "rx_volume" then _ else _) as [d valid].
  destruct valid; [|reflexivity].
  unfold_monad. cbn.
  destruct (complete_info _); [|reflexivity].
  destruct (ResponseTemplates.get_solution_benefits _); reflexivity.
Qed.

Lemma handle_info_collection_eq (user_message : string)
      (s : PharmacyChatbot) :
  _handle_info_collection json_loads w user_message s
  = match ai_tier json_loads w user_message (_get_next_missing_field s) s
    with
    | (Ok (Some reply), s1) => (Ok reply, s1)
    | (Ok None, s1) =>
        match _handle_manual_info_collection user_message s1 with
        | (Ok reply, s2) => (Ok reply, s2)
        | (Raise _, s2) => _handle_manual_info_collection user_message s2
        end
    | (Raise _, s1) => _handle_manual_info_collection user_message s1
    end.
Proof.
  unfold _handle_info_collection. unfold_monad. cbn.
  destruct (ai_tier _ _ _ _ _) as [[[reply|]|e] s1]; reflexivity.
Qed.

(** *** What the manual tier changes *)

Ltac run_manual r s' :=
  destruct (_handle_manual_info_collection _ _) as [r s'] eqn:?E;
  rewrite manual_eq in E; split_eq E; arith_facts; cbn in *.

Lemma manual_frame (user_message : string) (s : PharmacyChatbot) :
  let s' := snd (_handle_manual_info_collection user_message s) in
  ai_available s' = ai_available s
  /\ ai_extraction_failures s' = ai_extraction_failures s
  /\ llm_requests s' = llm_requests s
  /\ follow_up_actions s' = follow_up_actions s
  /\ conversation_history s' = conversation_history s
  /\ pharmacy_data s' = pharmacy_data s.
Proof. run_manual r s'; auto 10. Qed.

(** The manual tier moves the state to [DISCUSSING_SOLUTIONS] or
    leaves it; when it leaves it, the information is incomplete and,
    unless [IndexError] was raised, the cursor is on a field. *)
Lemma manual_post (user_message : string) (s : PharmacyChatbot) :
  let '(r, s') := _handle_manual_info_collection user_message s in
  (current_info_field s <= current_info_field s'
   <= current_info_field s + 1)%nat
  /\ (current_state s' = DISCUSSING_SOLUTIONS
      \/ current_state s' = current_state s
         /\ _has_complete_info s' = false
         /\ (current_info_field s < 5)%nat
         /\ ((exists reply, r = Ok reply)
                /\ (current_info_field s' < 5)%nat
             \/ r = Raise IndexError /\ current_info_field s' = 5%nat)).
Proof.
  run_manual r s'; (split; [lia|]); auto;
    right; repeat split; auto; try lia;
    solve [left; split; [eauto|lia] | right; split; [auto|lia]].
Qed.

(** *** What the AI tier changes *)

Ltac run_ai_tier r s1 :=
  destruct (ai_tier _ _ _ _ _) as [r s1] eqn:?E;
  rewrite ai_tier_eq in E; split_eq E; arith_facts; cbn in *.

Lemma ai_tier_post (user_message field : string) (s : PharmacyChatbot) :
  let '(r, s1) := ai_tier json_loads w user_message field s in
  current_info_field s1 = current_info_field s
  /\ ai_available s1 = ai_available s
  /\ follow_up_actions s1 = follow_up_actions s
  /\ conversation_history s1 = conversation_history s
  /\ pharmacy_data s1 = pharmacy_data s
  /\ (ai_extraction_failures s <= ai_extraction_failures s1)%nat
  /\ match r with
     | Ok (Some _) =>
         current_state s1 = DISCUSSING_SOLUTIONS
         \/ current_state s1 = current_state s
            /\ _has_complete_info s1 = false
     | Ok None =>
         current_state s1 = current_state s
         /\ collected_info s1 = collected_info s
     | Raise _ => current_state s1 = DISCUSSING_SOLUTIONS
     end.
Proof.
  run_ai_tier r s1; repeat split; auto; lia.
Qed.

(** *** The handler of [COLLECTING_INFO] *)

Lemma info_collection_post (user_message : string) (s : PharmacyChatbot) :
  (current_info_field s < 5)%nat ->
  let '(r, s') := _handle_info_collection json_loads w user_message s in
  current_state s' = DISCUSSING_SOLUTIONS
  \/ current_state s' = current_state s
     /\ _has_complete_info s' = false
     /\ (current_info_field s' < 5)%nat
     /\ exists reply, r = Ok reply.
Proof.
  intros Hcur. rewrite handle_info_collection_eq.
  pose proof (ai_tier_post user_message (_get_next_missing_field s) s) as Hai.
  destruct (ai_tier _ _ _ _ _) as [[[reply|]|e] s1].
  - destruct Hai as (Hc & _ & _ & _ & _ & _ & [Hd|[Hst Hinc]]); auto.
    right. repeat split; eauto; lia.
  - destruct Hai as (Hc & _ & _ & _ & _ & _ & Hst & Hinfo).
    pose proof (manual_post user_message s1) as Hm.
    destruct (_handle_manual_info_collection user_message s1)
      as [[reply|e] s2].
    + destruct Hm as (_ & [Hd|(Hst2 & Hinc & _ & [[_ Hlt]|[Hr _]])]);
        auto; [|discriminate].
      right. repeat split; eauto; congruence.
    + destruct Hm as (_ & [Hd|(Hst2 & Hinc & _ & [[[? Hr] _]|[_ Hfive]])]);
        [| discriminate |].
      * pose proof (manual_post user_message s2) as Hm2.
        destruct (_handle_manual_info_collection user_message s2)
          as [r3 s3].
        destruct Hm2 as (_ & [Hd3|(Hst3 & _)]); auto. left. congruence.
      * pose proof (manual_post user_message s2) as Hm2.
        destruct (_handle_manual_info_collection user_message s2)
          as [r3 s3].
        destruct Hm2 as (_ & [Hd3|(_ & _ & Hlt & _)]); auto. lia.
  - destruct Hai as (_ & _ & _ & _ & _ & _ & Hd).
    pose proof (manual_post user_message s1) as Hm.
    destruct (_handle_manual_info_collection user_message s1) as [r2 s2].
    destruct Hm as (_ & [Hd2|(Hst2 & _)]); auto. left. congruence.
Qed.

(** *** The other handlers *)

Lemma extraction_requests_generation (s : PharmacyChatbot)
      (messages : list message) :
  List.filter is_extraction_request
    (llm_requests s ++ [GenerationRequest messages])
  = extraction_requests s.
Proof.
  unfold extraction_requests. rewrite List.filter_app. cbn.
  apply app_nil_r.
Qed.

Lemma dispatch_past_collection (user_message : string)
      (s : PharmacyChatbot) :
  current_state s <> COLLECTING_INFO ->
  let '(r, s') := dispatch json_loads format_value w user_message s in
  (exists reply, r = Ok reply)
  /\ collected_info s' = collected_info s
  /\ current_info_field s' = current_info_field s
  /\ ai_extraction_failures s' = ai_extraction_failures s
  /\ extraction_requests s' = extraction_requests s
  /\ conversation_history s' = conversation_history s
  /\ pharmacy_data s' = pharmacy_data s
  /\ match current_state s with
     | GREETING => current_state s' = GREETING
     | ERROR => current_state s' = COLLECTING_INFO
                /\ ai_available s' = false
     | DISCUSSING_SOLUTIONS =>
         current_state s' = DISCUSSING_SOLUTIONS
         \/ current_state s' = OFFERING_FOLLOW_UP
     | OFFERING_FOLLOW_UP =>
         current_state s' = OFFERING_FOLLOW_UP
         \/ current_state s' = CLOSING
         \/ current_state s' = SCHEDULING
     | SCHEDULING | CLOSING => current_state s' = CLOSING
     | COLLECTING_INFO => True
     end.
Proof.
  intros Hst.
  destruct (dispatch _ _ _ _ _) as [r s'] eqn:E.
  unfold dispatch, _handle_solution_discussion, _handle_follow_up_offer,
    _handle_scheduling, _handle_closing, _handle_error_recovery,
    _generate_ai_response in E.
  unfold_monad. cbn in E.
  destruct (current_state s) eqn:Hc; try congruence; clear Hst;
    split_eq E; cbn;
    rewrite ?extraction_requests_generation;
    repeat split; eauto.
Qed.

Lemma dispatch_collecting (user_message : string) (s : PharmacyChatbot) :
  current_state s = COLLECTING_INFO ->
  dispatch json_loads format_value w user_message s
  = _handle_info_collection json_loads w user_message s.
Proof.
  intros Hst. unfold dispatch. unfold_monad. rewrite Hst. reflexivity.
Qed.

(** With the AI tier out of use, the handler is the manual tier, run
    a second time when the first run raises. *)
Lemma info_collection_manual_only (user_message : string)
      (s : PharmacyChatbot) :
  manual_only s ->
  _handle_info_collection json_loads w user_message s
  = match _handle_manual_info_collection user_message s with
    | (Ok reply, s2) => (Ok reply, s2)
    | (Raise _, s2) => _handle_manual_info_collection user_message s2
    end.
Proof.
  intros Hm. rewrite handle_info_collection_eq, ai_tier_eq.
  assert (ai_available s && (ai_extraction_failures s <? 3)%nat = false)
    as ->; [|reflexivity].
  destruct Hm as [->|Hf]; [reflexivity|].
  apply andb_false_intro2, Nat.ltb_ge, Hf.
Qed.

(** *** The invariant of a call *)

Lemma invariant_step (user_message : string) (s : PharmacyChatbot) :
  collecting_invariant s ->
  collecting_invariant
    (after_message json_loads format_value w user_message s).
Proof.
  intros [Hng Hcol]. unfold after_message, collecting_invariant.
  rewrite process_message_eq.
  destruct (decide (current_state s = COLLECTING_INFO)) as [Hst|Hst].
  - destruct Hcol as [_ Hcur]; [auto|]. change (length _) with 5%nat in *.
    rewrite dispatch_collecting by exact Hst.
    pose proof (info_collection_post user_message
                  (with_user_message user_message s) Hcur) as Hp.
    destruct (_handle_info_collection _ _ _ _) as [[reply|e] s'];
      cbn in *;
      (destruct Hp as [Hd|(Hs & Hinc & Hlt & _)];
       [ rewrite Hd; split; [discriminate|intros [?|?]; discriminate]
       | rewrite Hs, Hst; split; [discriminate|auto] ]).
  - pose proof (dispatch_past_collection user_message
                  (with_user_message user_message s) Hst) as Hp.
    destruct (dispatch _ _ _ _ _) as [[reply|e] s'];
      destruct Hp as (_ & Hinfo & Hcur & _ & _ & _ & _ & Hnext);
      unfold _has_complete_info in *; cbn in *; rewrite Hinfo, Hcur;
      destruct (current_state s) eqn:Hc; intuition congruence.
Qed.

(** Once the information is complete and the state is past the
    collection, both stay so. *)
Lemma settled_step (user_message : string) (s : PharmacyChatbot) :
  _has_complete_info s = true ->
  past_collection (current_state s) ->
  let s' := after_message json_loads format_value w user_message s in
  _has_complete_info s' = true /\ past_collection (current_state s').
Proof.
  intros Hall Hpast. unfold after_message. rewrite process_message_eq.
  assert (current_state s <> COLLECTING_INFO) as Hst
      by (destruct Hpast as [?|[?|[?|?]]]; congruence).
  pose proof (dispatch_past_collection user_message
                (with_user_message user_message s) Hst) as Hp.
  destruct (dispatch _ _ _ _ _) as [[reply|e] s'];
    destruct Hp as (_ & Hinfo & _ & _ & _ & _ & _ & Hnext);
    unfold _has_complete_info in *; cbn in *; rewrite Hinfo;
    (split; [exact Hall|]); unfold past_collection in *;
    destruct (current_state s); intuition congruence.
Qed.
End Runs.

Ltac run_manual r s' :=
  destruct (_handle_manual_info_collection _ _) as [r s'] eqn:?E;
  rewrite manual_eq in E; split_eq E; arith_facts; cbn in *.

Ltac run_ai_tier r s1 :=
  destruct (ai_tier _ _ _ _ _) as [r s1] eqn:?E;
  rewrite ai_tier_eq in E; split_eq E; arith_facts; cbn in *.

(** ** The message boundary never lets an exception through *)


(** A handler that raises: the model answers with five keys, one of
    them a volume that is not a number; the completeness check passes
    and the benefits message cannot be chosen. *)
Example handler_raises :
  fst (dispatch sample_json_loads sample_format (llm_says "EXTRA")
         "we would like to hear about your products please"
         (with_user_message
            "we would like to hear about your products please"
            (ai_call (llm_says "EXTRA"))))
  = Raise TypeError
  /\ reply_to sample_json_loads sample_format (llm_says "EXTRA")
       "we would like to hear about your products please"
       (ai_call (llm_says "EXTRA"))
     = Ok TECHNICAL_DIFFICULTIES.
Proof. split; vm_compute; reflexivity. Qed.

(** ** One call *)

Lemma fresh_init (w : World) (api_key env_key : option string) :
  fresh_engine (__init__ w api_key env_key).
Proof. split; reflexivity. Qed.

Lemma fresh_reset (s : PharmacyChatbot) : fresh_engine (reset_conversation s).
Proof. split; reflexivity. Qed.

Lemma invariant_start (format_value : pyval -> string) (s0 : PharmacyChatbot)
      (get_pharmacy_by_phone : string -> PharmacyAPI.lookup_outcome)
      (phone_number : string) :
  fresh_engine s0 ->
  collecting_invariant
    (snd (start_call format_value get_pharmacy_by_phone phone_number s0)).
Proof.
  intros [Hinfo Hcur]. unfold start_call, collecting_invariant. unfold_monad.
  destruct (get_pharmacy_by_phone phone_number); cbn;
    unfold _has_complete_info; cbn; rewrite ?Hinfo, ?Hcur;
    (split; [discriminate|]);
    first [ intros [?|?]; discriminate
          | intros _; split; [reflexivity|cbn; lia] ].
Qed.

Lemma one_call_invariant
      (json_loads : string -> option pyval) (format_value : pyval -> string)
      (s : PharmacyChatbot) :
  one_call json_loads format_value s -> collecting_invariant s.
Proof.
  induction 1 as [s0 lookup phone Hfresh | w user_message s _ IH].
  - apply invariant_start, Hfresh.
  - apply invariant_step, IH.
Qed.

Lemma settled_steps
      (json_loads : string -> option pyval) (format_value : pyval -> string)
      (steps : list (World * string)) (s : PharmacyChatbot) :
  _has_complete_info s = true ->
  past_collection (current_state s) ->
  _has_complete_info (after_messages json_loads format_value steps s) = true
  /\ past_collection
       (current_state (after_messages json_loads format_value steps s)).
Proof.
  revert s. induction steps as [|[w user_message] rest IH]; intros s Hall Hpast.
  - split; assumption.
  - cbn [after_messages].
    destruct (settled_step json_loads format_value w user_message s Hall Hpast)
      as [Hall' Hpast'].
    apply IH; assumption.
Qed.

(** C5. Within one call, once all five fields are present and truthy,
    the state is not [COLLECTING_INFO] and no later message sets it
    back to [COLLECTING_INFO]; the information stays complete. *)
Theorem complete_info_never_recollects
        (json_loads : string -> option pyval) (format_value : pyval -> string)
        (s : PharmacyChatbot) (steps : list (World * string)) :
  one_call json_loads format_value s ->
  _has_complete_info s = true ->
  current_state (after_messages json_loads format_value steps s)
  <> COLLECTING_INFO
  /\ _has_complete_info (after_messages json_loads format_value steps s)
     = true.
Proof.
  intros Hcall Hall.
  destruct (one_call_invariant _ _ _ Hcall) as [Hng Hcol].
  assert (past_collection (current_state s)) as Hpast.
  { unfold past_collection.
    destruct (current_state s) eqn:Hc; auto; try congruence;
      destruct Hcol as [Hinc _]; auto; congruence. }
  destruct (settled_steps json_loads format_value steps s Hall Hpast)
    as [Hall' Hpast'].
  split; [|exact Hall'].
  destruct Hpast' as [H|[H|[H|H]]]; rewrite H; discriminate.
Qed.

Lemma five_answers_one_call :
  one_call sample_json_loads sample_format five_answers.
Proof.
  repeat apply call_message. apply call_started. split; reflexivity.
Defined.

Lemma complete_info_never_recollects_witness :
  current_state
    (after_messages sample_json_loads sample_format
       [(llm_down, "yes, more details please"); (llm_down, "email");
        (llm_down, "collecting info again?")] five_answers)
  <> COLLECTING_INFO
  /\ _has_complete_info
       (after_messages sample_json_loads sample_format
          [(llm_down, "yes, more details please"); (llm_down, "email");
           (llm_down, "collecting info again?")] five_answers)
     = true.
Proof.
  apply (complete_info_never_recollects sample_json_loads sample_format
           five_answers).
  - exact five_answers_one_call.
  - vm_compute. reflexivity.
Defined.

(** ** Three failures switch the AI tier off *)

Lemma ai_off_step
      (json_loads : string -> option pyval) (format_value : pyval -> string)
      (w : World) (user_message : string) (s : PharmacyChatbot) :
  (3 <= ai_extraction_failures s)%nat ->
  let s' := after_message json_loads format_value w user_message s in
  (3 <= ai_extraction_failures s')%nat
  /\ extraction_requests s' = extraction_requests s.
Proof.
  intros Hf. unfold after_message. rewrite process_message_eq.
  destruct (decide (current_state s = COLLECTING_INFO)) as [Hst|Hst].
  - rewrite dispatch_collecting by exact Hst.
    rewrite info_collection_manual_only by (right; exact Hf).
    pose proof (manual_frame user_message
                  (with_user_message user_message s)) as Hm.
    destruct (_handle_manual_info_collection user_message
                (with_user_message user_message s)) as [[reply|e] s1].
    + cbn in *. destruct Hm as (_ & Hfail & Hreq & _).
      unfold extraction_requests. cbn. rewrite Hfail, Hreq. auto.
    + pose proof (manual_frame user_message s1) as Hm2.
      destruct (_handle_manual_info_collection user_message s1)
        as [[reply|e2] s2];
        cbn in *; destruct Hm as (_ & Hfail & Hreq & _);
        destruct Hm2 as (_ & Hfail2 & Hreq2 & _);
        unfold extraction_requests; cbn; rewrite ?Hfail2, ?Hreq2, Hfail, Hreq;
        auto.
  - pose proof (dispatch_past_collection json_loads format_value w
                  user_message (with_user_message user_message s) Hst) as Hp.
    destruct (dispatch _ _ _ _ _) as [[reply|e] s'];
      destruct Hp as (_ & _ & _ & Hfail & Hreq & _);
      cbn in *; unfold extraction_requests in *; cbn in *;
      rewrite Hfail, Hreq; auto.
Qed.

(** C3. Once the failure counter of a call has reached 3, no message
    of the rest of the call sends an extraction request to the
    language model: the requests of that kind sent so far stay the
    same, and the counter stays at 3 or above. *)
Theorem ai_tier_off_after_three_failures
        (json_loads : string -> option pyval) (format_value : pyval -> string)
        (steps : list (World * string)) (s : PharmacyChatbot) :
  (3 <= ai_extraction_failures s)%nat ->
  extraction_requests (after_messages json_loads format_value steps s)
  = extraction_requests s
  /\ (3 <= ai_extraction_failures
            (after_messages json_loads format_value steps s))%nat.
Proof.
  revert s. induction steps as [|[w user_message] rest IH]; intros s Hf.
  - split; [reflexivity|exact Hf].
  - cbn [after_messages].
    destruct (ai_off_step json_loads format_value w user_message s Hf)
      as [Hf' Hreq].
    destruct (IH _ Hf') as [Hreq' Hf''].
    split; [congruence|exact Hf''].
Qed.

Example three_failures_counted :
  ai_extraction_failures three_failures = 3%nat
  /\ ai_available three_failures = true
  /\ current_state three_failures = COLLECTING_INFO
  /\ length (extraction_requests three_failures) = 3%nat.
Proof. vm_compute. auto. Qed.

Lemma ai_tier_off_after_three_failures_witness :
  extraction_requests
    (after_messages sample_json_loads sample_format
       [(llm_says "NAME", "Alpha Pharmacy"); (llm_says "NAME", "Orlando")]
       three_failures)
  = extraction_requests three_failures
  /\ (3 <= ai_extraction_failures
            (after_messages sample_json_loads sample_format
               [(llm_says "NAME", "Alpha Pharmacy");
                (llm_says "NAME", "Orlando")]
               three_failures))%nat.
Proof.
  apply (ai_tier_off_after_three_failures sample_json_loads sample_format).
  vm_compute. lia.
Defined.

(** ** The follow-up offer *)

Lemma email_known_truthy (s : PharmacyChatbot) :
  email_known s -> truthy (_get_email_address s) = true.
Proof.
  unfold email_known, _get_email_address, lookup_truthy.
  intros [Hinfo|(p & Hp & Hemail)].
  - rewrite Hinfo. destruct (collected_info s !! "email"); [exact Hinfo|].
    discriminate.
  - destruct (match collected_info s !! "email" with
              | Some v => truthy v | None => false end) eqn:Hinfo.
    + destruct (collected_info s !! "email"); [exact Hinfo|discriminate].
    + rewrite Hp, Hemail. exact Hemail.
Qed.

(** C6. In [OFFERING_FOLLOW_UP]: a message containing "email", when an
    e-mail address is known, appends exactly one record to the e-mail
    log, addressed to the known address, and moves the state to
    [CLOSING]; a message with neither "email" nor "call" nor
    "consultation" leaves the state and the logs as they are and
    repeats the offer. *)
Theorem follow_up_offer_email_or_repeat
        (json_loads : string -> option pyval) (format_value : pyval -> string)
        (w : World) (user_message : string) (s : PharmacyChatbot) :
  current_state s = OFFERING_FOLLOW_UP ->
  let s' := after_message json_loads format_value w user_message s in
  (Str.contains "email" (Str.lower user_message) = true ->
   email_known s ->
   (exists record,
       sent_emails (follow_up_actions s')
       = (sent_emails (follow_up_actions s) ++ [record])%list
       /\ to_email (ed_request record) = _get_email_address s)
   /\ scheduled_callbacks (follow_up_actions s')
      = scheduled_callbacks (follow_up_actions s)
   /\ current_state s' = CLOSING)
  /\ (Str.contains "email" (Str.lower user_message) = false ->
      Str.contains "call" (Str.lower user_message) = false ->
      Str.contains "consultation" (Str.lower user_message) = false ->
      current_state s' = OFFERING_FOLLOW_UP
      /\ follow_up_actions s' = follow_up_actions s
      /\ reply_to json_loads format_value w user_message s
         = Ok FOLLOW_UP_REPEAT).
Proof.
  intros Hst. unfold after_message, reply_to. rewrite process_message_eq.
  unfold dispatch, _handle_follow_up_offer. unfold_monad. cbn.
  rewrite Hst.
  replace (_get_email_address (with_user_message user_message s))
    with (_get_email_address s) by reflexivity.
  split.
  - intros Hemail Hknown. rewrite Hemail.
    pose proof (email_known_truthy s Hknown) as Htruthy.
    rewrite Htruthy. cbn. rewrite Htruthy. repeat split; eauto.
  - intros Hemail Hcall Hcons. rewrite Hemail, Hcall, Hcons. cbn. auto.
Qed.

Lemma follow_up_offer_email_or_repeat_witness :
  ((exists record,
       sent_emails
         (follow_up_actions
            (say llm_down "Please send me information via email"
               customer_offered))
       = (sent_emails (follow_up_actions customer_offered) ++ [record])%list
       /\ to_email (ed_request record) = VStr "john@testpharmacy.com")
   /\ scheduled_callbacks
        (follow_up_actions
           (say llm_down "Please send me information via email"
              customer_offered))
      = scheduled_callbacks (follow_up_actions customer_offered)
   /\ current_state
        (say llm_down "Please send me information via email"
           customer_offered) = CLOSING)
  /\ (current_state (say llm_down "What does it cost?" customer_offered)
      = OFFERING_FOLLOW_UP
      /\ follow_up_actions (say llm_down "What does it cost?" customer_offered)
         = follow_up_actions customer_offered
      /\ reply_to sample_json_loads sample_format llm_down
           "What does it cost?" customer_offered
         = Ok FOLLOW_UP_REPEAT).
Proof.
  split.
  - apply (follow_up_offer_email_or_repeat sample_json_loads sample_format
             llm_down "Please send me information via email"
             customer_offered).
    + reflexivity.
    + reflexivity.
    + right. exists customer_record. split; reflexivity.
  - apply (follow_up_offer_email_or_repeat sample_json_loads sample_format
             llm_down "What does it cost?" customer_offered);
      reflexivity.
Defined.

(** ** The field cursor of the manual tier *)



Example manual_repeats_question :
  manual_extract "pharmacy_name" "I am not sure what you mean by that" = None
  /\ reply_to sample_json_loads sample_format llm_down
       "I am not sure what you mean by that" manual_call
     = Ok "What's the name of your pharmacy?"
  /\ current_info_field
       (say llm_down "I am not sure what you mean by that" manual_call)
     = 0%nat.
Proof. vm_compute. auto. Qed.

(** The same through [process_message], with the AI tier out of use:
    the handler may run the manual tier a second time, which never
    moves the cursor back. *)
Lemma manual_only_message_cursor
      (json_loads : string -> option pyval) (format_value : pyval -> string)
      (w : World) (user_message : string) (s : PharmacyChatbot) :
  one_call json_loads format_value s ->
  current_state s = COLLECTING_INFO ->
  manual_only s ->
  exists field,
    info_collection_fields !! current_info_field s = Some field
    /\ let s' := after_message json_loads format_value w user_message s in
       ((current_info_field s < current_info_field s')%nat
        <-> is_Some (manual_extract field user_message))
       /\ (manual_extract field user_message = None ->
           current_info_field s' = current_info_field s
           /\ collected_info s' = collected_info s
           /\ current_state s' = COLLECTING_INFO
           /\ reply_to json_loads format_value w user_message s
              = Ok (ResponseTemplates.get_collecting_info_response field)).
Proof.
  intros Hcall Hst Hman.
  destruct (one_call_invariant _ _ _ Hcall) as [_ Hcol].
  destruct Hcol as [Hinc Hlt]; [auto|].
  destruct (lookup_lt_is_Some_2 _ _ Hlt) as [field Hfield].
  change (length info_collection_fields) with 5%nat in Hlt.
  exists field. split; [exact Hfield|].
  unfold after_message, reply_to. rewrite process_message_eq.
  rewrite dispatch_collecting by exact Hst.
  rewrite info_collection_manual_only by exact Hman.
  rewrite manual_eq. cbn.
  destruct (5 <=? current_info_field s)%nat eqn:Hge;
    [apply Nat.leb_le in Hge; lia|].
  rewrite Hfield.
  destruct (manual_extract field user_message) as [value|] eqn:Hext.
  - split; [|discriminate]. split; [eauto|intros _].
    destruct (_has_complete_info (set_current_info_field _ _)).
    + destruct (ResponseTemplates.get_solution_benefits _); cbn; [lia|].
      match goal with
      | |- context [_handle_manual_info_collection user_message ?s1] =>
          pose proof (manual_post user_message s1) as Hp;
          destruct (_handle_manual_info_collection user_message s1)
            as [[reply|e2] s2]
      end; cbn in *; destruct Hp as [Hmono _]; clear - Hmono; lia.
    + destruct (info_collection_fields !! (_ + 1)%nat); cbn; [lia|].
      match goal with
      | |- context [_handle_manual_info_collection user_message ?s1] =>
          pose proof (manual_post user_message s1) as Hp;
          destruct (_handle_manual_info_collection user_message s1)
            as [[reply|e2] s2]
      end; cbn in *; destruct Hp as [Hmono _]; clear - Hmono; lia.
  - unfold _has_complete_info in *. cbn. rewrite Hinc. cbn.
    split; [|auto]. split; [lia|]. intros [v Hv]. discriminate.
Qed.

(** While the AI tier is in use, every message in [COLLECTING_INFO]
    sends one extraction request. *)
Lemma ai_tier_sends_request
      (json_loads : string -> option pyval) (format_value : pyval -> string)
      (w : World) (user_message : string) (s : PharmacyChatbot) :
  current_state s = COLLECTING_INFO ->
  ai_available s = true ->
  (ai_extraction_failures s < 3)%nat ->
  extraction_requests
    (after_message json_loads format_value w user_message s)
  = (extraction_requests s
     ++ [ExtractionRequest (_get_next_missing_field s) user_message])%list.
Proof.
  intros Hst Hon Hfew. unfold after_message. rewrite process_message_eq.
  rewrite dispatch_collecting by exact Hst.
  rewrite handle_info_collection_eq, ai_tier_eq. cbn.
  rewrite Hon. apply Nat.ltb_lt in Hfew. rewrite Hfew. cbn.
  change (_get_next_missing_field (with_user_message user_message s))
    with (_get_next_missing_field s).
  set (sent := (llm_requests s
                ++ [ExtractionRequest (_get_next_missing_field s)
                      user_message])%list).
  assert (List.filter is_extraction_request sent
          = (extraction_requests s
             ++ [ExtractionRequest (_get_next_missing_field s)
                   user_message])%list) as Hlog.
  { unfold sent, extraction_requests. rewrite List.filter_app. reflexivity. }
  assert (forall s1 : PharmacyChatbot,
             llm_requests s1 = sent ->
             llm_requests
               (snd (_handle_manual_info_collection user_message s1))
             = sent) as Hmanual.
  { intros s1 Hs1. pose proof (manual_frame user_message s1) as Hf.
    cbn in Hf. destruct Hf as (_ & _ & Hreq & _). congruence. }
  unfold extraction_requests at 1.
  destruct (accepted_answer _ _) as [d|].
  - destruct (_has_complete_info _).
    + destruct (ResponseTemplates.get_solution_benefits _); cbn.
      * exact Hlog.
      * match goal with
        | |- context [_handle_manual_info_collection user_message ?s1] =>
            pose proof (Hmanual s1 eq_refl) as Hm;
            destruct (_handle_manual_info_collection user_message s1)
              as [[reply|e2] s2]
        end; cbn in *; rewrite Hm; exact Hlog.
    + cbn. exact Hlog.
  - match goal with
    | |- context [_handle_manual_info_collection user_message ?s1] =>
        pose proof (Hmanual s1 eq_refl) as Hm;
        destruct (_handle_manual_info_collection user_message s1)
          as [[reply|e2] s2]
    end; cbn in *.
    + rewrite Hm. exact Hlog.
    + pose proof (Hmanual s2 Hm) as Hm2.
      destruct (_handle_manual_info_collection user_message s2)
        as [[reply|e3] s3]; cbn in *; rewrite Hm2; exact Hlog.
Qed.


(** ** Falsy values *)

Lemma complete_info_falsy (info : gmap string pyval) (field : string)
      (value : pyval) :
  In field required_fields ->
  info !! field = Some value ->
  truthy value = false ->
  complete_info info = false.
Proof.
  intros Hin Hlook Hfalsy. unfold complete_info.
  destruct (forallb (lookup_truthy info) required_fields) eqn:Hall;
    [|reflexivity].
  rewrite forallb_forall in Hall. specialize (Hall field Hin).
  unfold lookup_truthy in Hall. rewrite Hlook in Hall. congruence.
Qed.

Lemma field_under_cursor (n : nat) (field : string) :
  info_collection_fields !! n = Some field ->
  In field required_fields
  /\ (n = 0%nat /\ field = "pharmacy_name"
      \/ n = 1%nat /\ field = "location"
      \/ n = 2%nat /\ field = "rx_volume"
      \/ n = 3%nat /\ field = "contact_person"
      \/ n = 4%nat /\ field = "email").
Proof.
  destruct n as [|[|[|[|[|n]]]]]; cbn; intros H; inversion H; subst;
    cbn; intuition auto.
Qed.

(** One message handled by the manual tier alone, with the cursor on
    a field and a value that does not complete the information and
    leaves a next field to ask for. *)
Lemma manual_only_stores
      (json_loads : string -> option pyval) (format_value : pyval -> string)
      (w : World) (user_message field : string) (value : pyval)
      (s : PharmacyChatbot) :
  current_state s = COLLECTING_INFO ->
  manual_only s ->
  info_collection_fields !! current_info_field s = Some field ->
  manual_extract field user_message = Some value ->
  complete_info (<[field := value]> (collected_info s)) = false ->
  (current_info_field s < 4)%nat ->
  let s' := after_message json_loads format_value w user_message s in
  collected_info s' = <[field := value]> (collected_info s)
  /\ current_info_field s' = (current_info_field s + 1)%nat
  /\ current_state s' = COLLECTING_INFO.
Proof.
  intros Hst Hman Hfield Hext Hinc Hlt.
  unfold after_message. rewrite process_message_eq.
  rewrite dispatch_collecting by exact Hst.
  rewrite info_collection_manual_only by exact Hman.
  rewrite manual_eq. cbn.
  destruct (5 <=? current_info_field s)%nat eqn:Hge;
    [apply Nat.leb_le in Hge; lia|].
  rewrite Hfield, Hext. unfold _has_complete_info. cbn. rewrite Hinc.
  destruct (info_collection_fields !! (current_info_field s + 1)%nat)
    as [next|] eqn:Hnext.
  - cbn. auto.
  - apply lookup_ge_None in Hnext. cbn in Hnext. lia.
Qed.

(** C7. In manual-tier collection a falsy value counts as extracted:
    the empty message with the cursor on [pharmacy_name], [location]
    or [contact_person] stores the empty string and advances the
    cursor; a message whose first run of digits is "0" stores
    [rx_volume = 0] and advances the cursor; a field holding such a
    value never passes the completeness check; and with the cursor
    past the last field a message in [COLLECTING_INFO] moves the state
    to [DISCUSSING_SOLUTIONS] whether or not the information is
    complete. *)
Theorem falsy_values_count_as_extracted
        (json_loads : string -> option pyval) (format_value : pyval -> string)
        (w : World) (s : PharmacyChatbot) :
  current_state s = COLLECTING_INFO ->
  manual_only s ->
  (forall field,
      info_collection_fields !! current_info_field s = Some field ->
      field = "pharmacy_name" \/ field = "location"
      \/ field = "contact_person" ->
      let s' := after_message json_loads format_value w "" s in
      collected_info s' = <[field := VStr ""]> (collected_info s)
      /\ current_info_field s' = (current_info_field s + 1)%nat)
  /\ (forall user_message rest,
         info_collection_fields !! current_info_field s = Some "rx_volume" ->
         Str.findall_digits user_message = "0" :: rest ->
         let s' := after_message json_loads format_value w user_message s in
         collected_info s' = <["rx_volume" := VInt 0]> (collected_info s)
         /\ current_info_field s' = (current_info_field s + 1)%nat)
  /\ (forall field value,
         In field required_fields ->
         collected_info s !! field = Some value ->
         value = VStr "" \/ value = VInt 0 ->
         _has_complete_info s = false)
  /\ (forall user_message,
         (length info_collection_fields <= current_info_field s)%nat ->
         current_state
           (after_message json_loads format_value w user_message s)
         = DISCUSSING_SOLUTIONS).
Proof.
  intros Hst Hman. split; [|split; [|split]].
  - intros field Hfield Hkind.
    destruct (field_under_cursor _ _ Hfield) as [Hin Hpos].
    assert (collected_info
              (after_message json_loads format_value w "" s)
            = <[field := VStr ""]> (collected_info s)
            /\ current_info_field
                 (after_message json_loads format_value w "" s)
               = (current_info_field s + 1)%nat
            /\ current_state (after_message json_loads format_value w "" s)
               = COLLECTING_INFO) as (Hinfo & Hcur & _); [|split; assumption].
    apply manual_only_stores; auto.
    + destruct Hkind as [-> | [-> | ->]]; reflexivity.
    + apply (complete_info_falsy _ field (VStr "")); auto.
      apply lookup_insert_eq.
    + destruct Hkind as [-> | [-> | ->]];
        destruct Hpos as [[? ?]|[[? ?]|[[? ?]|[[? ?]|[? ?]]]]];
        try discriminate; lia.
  - intros user_message rest Hfield Hdigits.
    destruct (field_under_cursor _ _ Hfield) as [Hin Hpos].
    assert (collected_info
              (after_message json_loads format_value w user_message s)
            = <["rx_volume" := VInt 0]> (collected_info s)
            /\ current_info_field
                 (after_message json_loads format_value w user_message s)
               = (current_info_field s + 1)%nat
            /\ current_state
                 (after_message json_loads format_value w user_message s)
               = COLLECTING_INFO) as (Hinfo & Hcur & _); [|split; assumption].
    apply manual_only_stores; auto.
    + unfold manual_extract. cbn. unfold extract_rx_volume. rewrite Hdigits.
      reflexivity.
    + apply (complete_info_falsy _ "rx_volume" (VInt 0)); auto.
      apply lookup_insert_eq.
    + destruct Hpos as [[? ?]|[[? ?]|[[? ?]|[[? ?]|[? ?]]]]];
        try discriminate; lia.
  - intros field value Hin Hlook Hval.
    apply (complete_info_falsy _ field value Hin Hlook).
    destruct Hval as [-> | ->]; reflexivity.
  - intros user_message Hge. change (length _) with 5%nat in Hge.
    unfold after_message. rewrite process_message_eq.
    rewrite dispatch_collecting by exact Hst.
    rewrite info_collection_manual_only by exact Hman.
    rewrite manual_eq. cbn.
    apply Nat.leb_le in Hge. rewrite Hge.
    destruct (ResponseTemplates.get_solution_benefits _); cbn;
      [reflexivity|].
    rewrite manual_eq. cbn. rewrite Hge.
    destruct (ResponseTemplates.get_solution_benefits _); reflexivity.
Qed.

(** ** The AI tier and the cursor *)

Lemma accepted_answer_truthy (field : string) (d0 d : gmap string pyval) :
  accepted_answer field d0 = Some d -> lookup_truthy d field = true.
Proof.
  unfold accepted_answer.
  destruct (negb (bool_decide (d0 = ∅))); cbn [andb]; [|discriminate].
  destruct (lookup_truthy d0 field) eqn:Htruthy; [|discriminate].
  destruct (String.eqb field "rx_volume") eqn:Hrx.
  - apply String.eqb_eq in Hrx. subst field.
    unfold check_rx_volume. unfold lookup_truthy in *.
    destruct (d0 !! "rx_volume") as [value|] eqn:Hlook; [|discriminate].
    destruct value as [| b | z | f | text | l | m];
      try (intros H; inversion H; subst; rewrite Hlook; exact Htruthy);
      try discriminate.
    + destruct b; [|discriminate].
      intros H. inversion H. subst. rewrite Hlook. reflexivity.
    + destruct (negb (z <=? 0)); [|discriminate].
      intros H. inversion H. subst. rewrite Hlook. exact Htruthy.
    + destruct (negb (float_le f 0)); [|discriminate].
      intros H. inversion H. subst. rewrite Hlook. exact Htruthy.
    + destruct (Str.isdigit text); [|discriminate].
      destruct (negb (Str.int_of_digits text <=? 0)) eqn:Hpos;
        [|discriminate].
      intros H. inversion H. subst. rewrite lookup_insert_eq. cbn.
      apply negb_true_iff in Hpos. apply Z.leb_gt in Hpos.
      apply negb_true_iff, Z.eqb_neq. lia.
  - intros H. inversion H. subst. exact Htruthy.
Qed.

Lemma lookup_truthy_union_l (d info : gmap string pyval) (field : string) :
  lookup_truthy d field = true ->
  lookup_truthy (d ∪ info) field = true.
Proof.
  unfold lookup_truthy. intros H.
  destruct (d !! field) as [value|] eqn:Hlook; [|discriminate].
  rewrite (lookup_union_Some_l d info field value Hlook). exact H.
Qed.

(** C8. When the AI tier accepts an answer, [collected_info] is
    updated with the answer, the field asked for is filled, and
    [current_info_field] is what it was; the manual tier, when it
    extracts a value for the field under the cursor, stores it
    whatever was stored there before. *)
Theorem ai_success_keeps_cursor_manual_overwrites
        (json_loads : string -> option pyval) (format_value : pyval -> string)
        (w : World) (user_message : string) (s : PharmacyChatbot) :
  current_state s = COLLECTING_INFO ->
  (forall reply s1,
      ai_tier json_loads w user_message (_get_next_missing_field s)
        (with_user_message user_message s) = (Ok (Some reply), s1) ->
      process_message json_loads format_value w user_message s
      = (Ok reply, with_reply reply s1)
      /\ current_info_field s1 = current_info_field s
      /\ lookup_truthy (collected_info s1) (_get_next_missing_field s) = true
      /\ exists d,
          accepted_answer (_get_next_missing_field s)
            (ai_answer json_loads w user_message (_get_next_missing_field s))
          = Some d
          /\ collected_info s1 = d ∪ collected_info s)
  /\ (forall field value,
         info_collection_fields !! current_info_field s = Some field ->
         manual_extract field user_message = Some value ->
         let s' := snd (_handle_manual_info_collection user_message s) in
         collected_info s' = <[field := value]> (collected_info s)
         /\ collected_info s' !! field = Some value
         /\ current_info_field s' = (current_info_field s + 1)%nat).
Proof.
  intros Hst. split.
  - intros reply s1 Hai. split.
    + rewrite process_message_eq.
      rewrite dispatch_collecting by exact Hst.
      rewrite handle_info_collection_eq.
      change (_get_next_missing_field (with_user_message user_message s))
        with (_get_next_missing_field s).
      rewrite Hai. reflexivity.
    + rewrite ai_tier_eq in Hai. cbv zeta in Hai.
      destruct (ai_available _ && _); [|discriminate].
      destruct (accepted_answer _ _) as [d|] eqn:Hacc; [|discriminate].
      pose proof (accepted_answer_truthy _ _ _ Hacc) as Htruthy.
      destruct (_has_complete_info _).
      * destruct (ResponseTemplates.get_solution_benefits _);
          [|discriminate].
        inversion Hai; subst. cbn. split; [reflexivity|].
        split; [apply lookup_truthy_union_l, Htruthy|eauto].
      * inversion Hai; subst. cbn. split; [reflexivity|].
        split; [apply lookup_truthy_union_l, Htruthy|eauto].
  - intros field value Hfield Hext. rewrite manual_eq.
    pose proof (lookup_lt_Some _ _ _ Hfield) as Hlt. cbn in Hlt.
    destruct (5 <=? current_info_field s)%nat eqn:Hge;
      [apply Nat.leb_le in Hge; lia|].
    rewrite Hfield, Hext. cbv zeta.
    destruct (_has_complete_info _); cbn;
      (split; [reflexivity|split; [apply lookup_insert_eq|reflexivity]]).
Qed.

(** ** Leaving [COLLECTING_INFO] *)

Lemma benefits_of_number (v : pyval) :
  is_number v = true ->
  exists text, ResponseTemplates.get_solution_benefits v = Ok text.
Proof.
  unfold ResponseTemplates.get_solution_benefits.
  destruct v; try discriminate; intros _; cbn;
    repeat match goal with
      | |- context [if ?c then _ else _] => destruct c
      end; eauto.
Qed.

Lemma accepted_answer_number (field : string) (d0 d : gmap string pyval) :
  accepted_answer field d0 = Some d ->
  (forall k, is_Some (d !! k) -> is_Some (d0 !! k))
  /\ (field = "rx_volume" -> is_number (get_rx_volume d) = true).
Proof.
  unfold accepted_answer.
  destruct (negb (bool_decide (d0 = ∅))); cbn [andb]; [|discriminate].
  destruct (lookup_truthy d0 field) eqn:Htruthy; [|discriminate].
  destruct (String.eqb field "rx_volume") eqn:Hrx.
  - apply String.eqb_eq in Hrx. subst field.
    unfold check_rx_volume, get_rx_volume. unfold lookup_truthy in *.
    destruct (d0 !! "rx_volume") as [value|] eqn:Hlook; [|discriminate].
    destruct value as [| b | z | f | text | l | m]; try discriminate.
    + destruct b; [|discriminate].
      intros H. inversion H. subst. rewrite Hlook. auto.
    + destruct (negb (z <=? 0)); [|discriminate].
      intros H. inversion H. subst. rewrite Hlook. auto.
    + destruct (negb (float_le f 0)); [|discriminate].
      intros H. inversion H. subst. rewrite Hlook. auto.
    + destruct (Str.isdigit text); [|discriminate].
      destruct (negb (Str.int_of_digits text <=? 0)); [|discriminate].
      intros H. inversion H. subst. rewrite lookup_insert_eq.
      split; [|reflexivity]. intros k.
      destruct (decide ("rx_volume" = k)) as [<-|Hne].
      * intros _. rewrite Hlook. eauto.
      * rewrite lookup_insert_ne by exact Hne. auto.
  - intros H. inversion H. subst. split; [auto|].
    intros ->. discriminate.
Qed.

Lemma accepted_answer_keeps_number (field : string)
      (d0 d info : gmap string pyval) :
  single_key field d0 ->
  accepted_answer field d0 = Some d ->
  numeric_rx_volume info = true ->
  numeric_rx_volume (d ∪ info) = true.
Proof.
  intros Hsingle Hacc Hnum.
  destruct (accepted_answer_number _ _ _ Hacc) as [Hkeys Hrx].
  unfold numeric_rx_volume, get_rx_volume in *.
  destruct (d !! "rx_volume") as [value|] eqn:Hlook.
  - rewrite (lookup_union_Some_l d info _ _ Hlook).
    assert (field = "rx_volume") as Hfield.
    { symmetry. apply Hsingle, Hkeys. rewrite Hlook. eauto. }
    exact (Hrx Hfield).
  - rewrite (lookup_union_r d info _ Hlook). exact Hnum.
Qed.

Lemma manual_extract_keeps_number (n : nat) (field user_message : string)
      (value : pyval) (info : gmap string pyval) :
  info_collection_fields !! n = Some field ->
  manual_extract field user_message = Some value ->
  numeric_rx_volume info = true ->
  numeric_rx_volume (<[field := value]> info) = true.
Proof.
  intros Hfield Hext Hnum.
  unfold numeric_rx_volume, get_rx_volume in *.
  destruct (field_under_cursor _ _ Hfield)
    as [_ [[_ ->]|[[_ ->]|[[_ ->]|[[_ ->]|[_ ->]]]]]];
    try (rewrite lookup_insert_ne by discriminate; exact Hnum).
  rewrite lookup_insert_eq.
  unfold manual_extract in Hext. cbn in Hext. unfold extract_rx_volume in Hext.
  destruct (Str.findall_digits user_message); inversion Hext. reflexivity.
Qed.

Lemma manual_exhausted (user_message : string) (s : PharmacyChatbot) :
  (5 <= current_info_field s)%nat ->
  _handle_manual_info_collection user_message s
  = (ResponseTemplates.get_solution_benefits (rx_volume_or_0 s),
     set_current_state DISCUSSING_SOLUTIONS s).
Proof.
  intros Hge. rewrite manual_eq. apply Nat.leb_le in Hge. rewrite Hge.
  reflexivity.
Qed.

Lemma manual_outcome (user_message : string) (s : PharmacyChatbot) :
  numeric_rx_volume (collected_info s) = true ->
  let '(r, s') := _handle_manual_info_collection user_message s in
  collecting_outcome r s s'
  \/ r = Raise IndexError
     /\ (5 <= current_info_field s')%nat
     /\ current_state s' = current_state s
     /\ _has_complete_info s' = false
     /\ numeric_rx_volume (collected_info s') = true.
Proof.
  intros Hnum. unfold collecting_outcome. rewrite manual_eq.
  destruct (5 <=? current_info_field s)%nat eqn:Hge.
  { apply Nat.leb_le in Hge. left. cbn. split; [exact Hnum|]. left.
    repeat split; auto. apply benefits_of_number, Hnum. }
  destruct (info_collection_fields !! current_info_field s) as [field|]
    eqn:Hfield.
  2:{ apply Nat.leb_gt in Hge. apply lookup_ge_None in Hfield.
      cbn in Hfield. lia. }
  destruct (manual_extract field user_message) as [value|] eqn:Hext; cbv zeta.
  - pose proof (manual_extract_keeps_number _ _ _ _ _ Hfield Hext Hnum)
      as Hnum'.
    destruct (_has_complete_info (set_current_info_field _ _)) eqn:Hall.
    + left. cbn. split; [exact Hnum'|]. left.
      repeat split; auto. apply benefits_of_number, Hnum'.
    + destruct (info_collection_fields !! (current_info_field s + 1)%nat)
        as [next|] eqn:Hnext.
      * left. cbn. split; [exact Hnum'|]. right. repeat split; eauto.
      * right. apply lookup_ge_None in Hnext. cbn in Hnext. cbn.
        repeat split; auto.
  - destruct (_has_complete_info s) eqn:Hall.
    + left. cbn. split; [exact Hnum|]. left.
      repeat split; auto. apply benefits_of_number, Hnum.
    + left. split; [exact Hnum|]. right. repeat split; eauto.
Qed.

Lemma ai_tier_outcome
      (json_loads : string -> option pyval) (w : World)
      (user_message field : string) (s : PharmacyChatbot) :
  numeric_rx_volume (collected_info s) = true ->
  manual_only s
  \/ single_key field (ai_answer json_loads w user_message field) ->
  let '(r, s1) := ai_tier json_loads w user_message field s in
  match r with
  | Ok (Some reply) => collecting_outcome (Ok reply) s s1
  | Ok None =>
      current_state s1 = current_state s
      /\ collected_info s1 = collected_info s
  | Raise _ => False
  end.
Proof.
  intros Hnum Hcontract. rewrite ai_tier_eq. cbv zeta.
  destruct (ai_available s && _) eqn:Hcond; [|cbn; auto].
  apply andb_true_iff in Hcond as [Hon Hfew]. apply Nat.ltb_lt in Hfew.
  assert (single_key field (ai_answer json_loads w user_message field))
    as Hsingle.
  { destruct Hcontract as [[Hoff|Hmany]|Hsingle];
      [congruence|lia|exact Hsingle]. }
  destruct (accepted_answer _ _) as [d|] eqn:Hacc; [|cbn; auto].
  pose proof (accepted_answer_keeps_number _ _ _ _ Hsingle Hacc Hnum)
    as Hnum'.
  destruct (_has_complete_info (set_collected_info _ _)) eqn:Hall.
  - destruct (benefits_of_number _ Hnum') as [text Htext].
    unfold rx_volume_or_0. cbn. rewrite Htext.
    unfold collecting_outcome. cbn. split; [exact Hnum'|]. left.
    unfold rx_volume_or_0. cbn. rewrite Htext. repeat split; eauto.
  - unfold collecting_outcome. cbn. split; [exact Hnum'|]. right.
    repeat split; eauto.
Qed.

Lemma info_collection_outcome
      (json_loads : string -> option pyval) (w : World)
      (user_message : string) (s : PharmacyChatbot) :
  numeric_rx_volume (collected_info s) = true ->
  manual_only s
  \/ single_key (_get_next_missing_field s)
       (ai_answer json_loads w user_message (_get_next_missing_field s)) ->
  let '(r, s') := _handle_info_collection json_loads w user_message s in
  collecting_outcome r s s'.
Proof.
  intros Hnum Hsingle. rewrite handle_info_collection_eq.
  pose proof (ai_tier_outcome json_loads w user_message _ s Hnum Hsingle)
    as Hai.
  destruct (ai_tier _ _ _ _ _) as [[[reply|]|e] s1]; [exact Hai| |tauto].
  destruct Hai as [Hst Hinfo].
  assert (numeric_rx_volume (collected_info s1) = true) as Hnum1
      by (rewrite Hinfo; exact Hnum).
  pose proof (manual_outcome user_message s1 Hnum1) as Hm.
  destruct (_handle_manual_info_collection user_message s1) as [r2 s2].
  unfold collecting_outcome in *.
  destruct Hm as [Hout|(-> & Hge & Hst2 & Hinc & Hnum2)].
  - destruct Hout
      as [Hn [(Hd & Hr & [text ->] & Hwhy)|(Hsame & Hinc & [text ->])]];
      cbn; (split; [exact Hn|]).
    + left. repeat split; eauto.
    + right. repeat split; eauto. congruence.
  - rewrite (manual_exhausted _ _ Hge).
    destruct (benefits_of_number _ Hnum2) as [text Htext].
    cbn. split; [exact Hnum2|]. left.
    repeat split; eauto.
Qed.

(** C1, as the code has it. While the state is [COLLECTING_INFO], the
    stored [rx_volume] (if any) is a number, and the AI tier is out of
    use or the model's answer binds only the field asked for: a
    message leaves the state
    [COLLECTING_INFO] unless, after the attempt, all five fields are
    present and truthy or the field cursor is past the last field;
    whenever the completeness check holds the state becomes
    [DISCUSSING_SOLUTIONS]; and every move to [DISCUSSING_SOLUTIONS]
    comes with the volume-tiered benefits message. *)
Theorem collecting_until_complete_or_cursor_exhausted
        (json_loads : string -> option pyval) (format_value : pyval -> string)
        (w : World) (user_message : string) (s : PharmacyChatbot) :
  current_state s = COLLECTING_INFO ->
  numeric_rx_volume (collected_info s) = true ->
  manual_only s
  \/ single_key (_get_next_missing_field s)
       (ai_answer json_loads w user_message (_get_next_missing_field s)) ->
  let s' := after_message json_loads format_value w user_message s in
  (current_state s' = COLLECTING_INFO
   \/ current_state s' = DISCUSSING_SOLUTIONS)
  /\ (_has_complete_info s' = true ->
      current_state s' = DISCUSSING_SOLUTIONS)
  /\ (current_state s' = DISCUSSING_SOLUTIONS ->
      (_has_complete_info s' = true
       \/ (length info_collection_fields <= current_info_field s')%nat)
      /\ reply_to json_loads format_value w user_message s
         = ResponseTemplates.get_solution_benefits (rx_volume_or_0 s')).
Proof.
  intros Hst Hnum Hsingle. unfold after_message, reply_to.
  rewrite process_message_eq.
  rewrite dispatch_collecting by exact Hst.
  pose proof (info_collection_outcome json_loads w user_message
                (with_user_message user_message s) Hnum Hsingle) as Hout.
  destruct (_handle_info_collection _ _ _ _) as [r s'].
  destruct Hout as [_ [(Hd & Hr & [text ->] & Hwhy)|(Hs & Hinc & [text ->])]];
    cbn in *.
  - rewrite Hd. repeat split; auto.
  - rewrite Hs, Hst. unfold _has_complete_info in *. cbn. rewrite Hinc.
    repeat split; auto; discriminate.
Qed.

(** The claim as the specification words it fails on the fifth answer
    of [blank_name_call]: the state leaves [COLLECTING_INFO] although
    the completeness check does not hold. *)
Lemma collecting_left_with_incomplete_info :
  current_state blank_name_call = COLLECTING_INFO
  /\ current_state (say llm_down "john@alpha.com" blank_name_call)
     = DISCUSSING_SOLUTIONS
  /\ _has_complete_info (say llm_down "john@alpha.com" blank_name_call)
     = false
  /\ reply_to sample_json_loads sample_format llm_down "john@alpha.com"
       blank_name_call
     = Ok ResponseTemplates.MEDIUM_VOLUME_BENEFITS.
Proof. vm_compute. auto. Qed.

Lemma single_key_name_answer (user_message : string) :
  single_key "pharmacy_name"
    (ai_answer sample_json_loads (llm_says "NAME") user_message
       "pharmacy_name").
Proof.
  unfold ai_answer. cbn. intros k [v Hv].
  apply map_lookup_filter_Some in Hv as [Hv _].
  apply lookup_singleton_Some in Hv as [Hk _]. congruence.
Qed.

Lemma collecting_until_complete_or_cursor_exhausted_witness :
  (let s' := say llm_down "john@alpha.com" blank_name_call in
   (current_state s' = COLLECTING_INFO
    \/ current_state s' = DISCUSSING_SOLUTIONS)
   /\ (_has_complete_info s' = true ->
       current_state s' = DISCUSSING_SOLUTIONS)
   /\ (current_state s' = DISCUSSING_SOLUTIONS ->
       (_has_complete_info s' = true
        \/ (length info_collection_fields <= current_info_field s')%nat)
       /\ reply_to sample_json_loads sample_format llm_down "john@alpha.com"
            blank_name_call
          = ResponseTemplates.get_solution_benefits (rx_volume_or_0 s')))
  /\ (let s' := name_by_ai in
      (current_state s' = COLLECTING_INFO
       \/ current_state s' = DISCUSSING_SOLUTIONS)
      /\ (_has_complete_info s' = true ->
          current_state s' = DISCUSSING_SOLUTIONS)
      /\ (current_state s' = DISCUSSING_SOLUTIONS ->
          (_has_complete_info s' = true
           \/ (length info_collection_fields <= current_info_field s')%nat)
          /\ reply_to sample_json_loads sample_format (llm_says "NAME")
               "We are Alpha Pharmacy of Orlando, Florida"
               (ai_call (llm_says "NAME"))
             = ResponseTemplates.get_solution_benefits (rx_volume_or_0 s'))).
Proof.
  split.
  - apply (collecting_until_complete_or_cursor_exhausted sample_json_loads
             sample_format llm_down "john@alpha.com" blank_name_call).
    + vm_compute. reflexivity.
    + vm_compute. reflexivity.
    + left. left. reflexivity.
  - apply (collecting_until_complete_or_cursor_exhausted sample_json_loads
             sample_format (llm_says "NAME")
             "We are Alpha Pharmacy of Orlando, Florida"
             (ai_call (llm_says "NAME"))).
    + vm_compute. reflexivity.
    + vm_compute. reflexivity.
    + right. apply single_key_name_answer.
Defined.

Lemma falsy_values_count_as_extracted_witness :
  (collected_info (say llm_down "" manual_call)
   = <["pharmacy_name" := VStr ""]> (collected_info manual_call)
   /\ current_info_field (say llm_down "" manual_call) = 1%nat)
  /\ (collected_info
        (say llm_down "about 0 a month"
           (say llm_down "Orlando" (say llm_down "" manual_call)))
      = <["rx_volume" := VInt 0]>
          (collected_info
             (say llm_down "Orlando" (say llm_down "" manual_call)))
      /\ current_info_field
           (say llm_down "about 0 a month"
              (say llm_down "Orlando" (say llm_down "" manual_call)))
         = 3%nat)
  /\ _has_complete_info blank_name_call = false
  /\ (_has_complete_info recovered_call = false
      /\ current_state (say llm_down "anything" recovered_call)
         = DISCUSSING_SOLUTIONS).
Proof.
  split; [|split; [|split; [|split]]].
  - destruct (falsy_values_count_as_extracted sample_json_loads sample_format
                llm_down manual_call eq_refl (or_introl eq_refl))
      as (Hblank & _).
    exact (Hblank "pharmacy_name" eq_refl (or_introl eq_refl)).
  - destruct (falsy_values_count_as_extracted sample_json_loads sample_format
                llm_down
                (say llm_down "Orlando" (say llm_down "" manual_call))
                eq_refl (or_introl eq_refl))
      as (_ & Hzero & _).
    exact (Hzero "about 0 a month" [] eq_refl eq_refl).
  - destruct (falsy_values_count_as_extracted sample_json_loads sample_format
                llm_down blank_name_call eq_refl (or_introl eq_refl))
      as (_ & _ & Hfalsy & _).
    apply (Hfalsy "pharmacy_name" (VStr "")).
    + cbn. auto.
    + reflexivity.
    + left. reflexivity.
  - reflexivity.
  - destruct (falsy_values_count_as_extracted sample_json_loads sample_format
                llm_down recovered_call eq_refl (or_introl eq_refl))
      as (_ & _ & _ & Hpast).
    apply Hpast. vm_compute. lia.
Defined.

Lemma ai_success_keeps_cursor_manual_overwrites_witness :
  (exists reply s1,
      process_message sample_json_loads sample_format (llm_says "NAME")
        "We are Alpha Pharmacy of Orlando, Florida" (ai_call (llm_says "NAME"))
      = (Ok reply, with_reply reply s1)
      /\ current_info_field s1
         = current_info_field (ai_call (llm_says "NAME"))
      /\ lookup_truthy (collected_info s1) "pharmacy_name" = true)
  /\ (collected_info name_by_ai !! "pharmacy_name"
      = Some (VStr "Alpha Pharmacy")
      /\ info_collection_fields !! current_info_field name_by_ai
         = Some "pharmacy_name"
      /\ collected_info
           (snd (_handle_manual_info_collection "Orlando" name_by_ai))
         !! "pharmacy_name" = Some (VStr "Orlando")).
Proof.
  split.
  - destruct (ai_tier sample_json_loads (llm_says "NAME")
                "We are Alpha Pharmacy of Orlando, Florida"
                (_get_next_missing_field (ai_call (llm_says "NAME")))
                (with_user_message "We are Alpha Pharmacy of Orlando, Florida"
                   (ai_call (llm_says "NAME"))))
      as [r s1] eqn:Hai.
    assert (exists reply, r = Ok (Some reply)) as [reply ->].
    { vm_compute in Hai. inversion Hai. eauto. }
    exists reply, s1.
    destruct (ai_success_keeps_cursor_manual_overwrites sample_json_loads
                sample_format (llm_says "NAME")
                "We are Alpha Pharmacy of Orlando, Florida"
                (ai_call (llm_says "NAME")) ltac:(reflexivity))
      as [Hai_tier _].
    destruct (Hai_tier reply s1 Hai) as (Hrun & Hcur & Htruthy & _).
    auto.
  - split; [reflexivity|]. split; [reflexivity|].
    apply (ai_success_keeps_cursor_manual_overwrites sample_json_loads
             sample_format llm_down "Orlando" name_by_ai
             ltac:(reflexivity)); reflexivity.
Defined.

Example manual_overwrites_ai_value :
  collected_info name_by_ai !! "pharmacy_name" = Some (VStr "Alpha Pharmacy")
  /\ current_info_field name_by_ai = 0%nat
  /\ collected_info (say llm_down "Orlando" name_by_ai) !! "pharmacy_name"
     = Some (VStr "Orlando")
  /\ current_info_field (say llm_down "Orlando" name_by_ai) = 1%nat.
Proof. vm_compute. auto. Qed.

(** ** Scenarios *)

(** "We process 1500 prescriptions" with the cursor on the volume and
    the AI tier off: the volume is stored and the cursor advances. *)
Example scenario_volume :
  let s := say llm_down "Orlando" (say llm_down "Alpha Pharmacy" manual_call) in
  let s' := say llm_down "We process 1500 prescriptions" s in
  info_collection_fields !! current_info_field s = Some "rx_volume"
  /\ collected_info s' !! "rx_volume" = Some (VInt 1500)
  /\ current_info_field s' = 3%nat.
Proof. vm_compute. auto. Qed.

(** Five short answers in the order of the fields fill the
    information; the fifth moves to [DISCUSSING_SOLUTIONS]. *)
Example scenario_five_answers :
  current_state
    (say llm_down "John Smith"
       (say llm_down "We process 1500 prescriptions"
          (say llm_down "Orlando"
             (say llm_down "Alpha Pharmacy" manual_call))))
  = COLLECTING_INFO
  /\ current_state five_answers = DISCUSSING_SOLUTIONS
  /\ _has_complete_info five_answers = true
  /\ current_info_field five_answers = 5%nat.
Proof. vm_compute. auto. Qed.

(** A caller found in the directory: the first reply names the
    account and the state is [DISCUSSING_SOLUTIONS]. *)
Example scenario_existing_customer :
  let '(reply, s) :=
    start_call sample_format (fun _ => PharmacyAPI.Found customer_record)
      "555-123-4567" (__init__ llm_down None None) in
  current_state s = DISCUSSING_SOLUTIONS
  /\ exists greeting,
      reply = Ok greeting /\ Str.contains "Test Pharmacy" greeting = true.
Proof. vm_compute. eauto. Qed.

(** The e-mail request of an existing customer: one record in the
    log, state [CLOSING]. *)
Example scenario_email_request :
  let s := say llm_down "Please send me information via email"
             customer_offered in
  length (sent_emails (follow_up_actions customer_offered)) = 0%nat
  /\ length (sent_emails (follow_up_actions s)) = 1%nat
  /\ current_state s = CLOSING.
Proof. vm_compute. auto. Qed.

(** * Further properties of the code *)

(** ** What a message can change *)

Lemma manual_keys (user_message : string) (s : PharmacyChatbot) (k : string) :
  is_Some (collected_info s !! k) ->
  is_Some (collected_info (snd (_handle_manual_info_collection user_message s))
           !! k).
Proof.
  intros Hk. run_manual r s'; auto;
    apply lookup_insert_is_Some'; auto.
Qed.

Lemma ai_tier_keys
      (json_loads : string -> option pyval) (w : World)
      (user_message field : string) (s : PharmacyChatbot) :
  let s1 := snd (ai_tier json_loads w user_message field s) in
  (forall k, is_Some (collected_info s !! k) ->
             is_Some (collected_info s1 !! k))
  /\ (ai_extraction_failures s1 <= ai_extraction_failures s + 1)%nat
  /\ (ai_extraction_failures s1 <> ai_extraction_failures s ->
      ai_available s = true /\ (ai_extraction_failures s < 3)%nat).
Proof.
  run_ai_tier r s1; (split; [|split]); try lia;
    try (intros Hne; exfalso; apply Hne; reflexivity);
    try (intros _;
         match goal with
         | H : _ && _ = true |- _ =>
             apply andb_true_iff in H as [Hon Hfew];
             apply Nat.ltb_lt in Hfew; split; [exact Hon|exact Hfew]
         end);
    intros k [v Hv]; try (eauto; fail);
    match goal with
    | |- is_Some ((?d ∪ _) !! _) =>
        destruct (d !! k) as [v'|] eqn:Hg;
        [ rewrite (lookup_union_Some_l _ _ _ _ Hg)
        | rewrite (lookup_union_r _ _ _ Hg), Hv ]; eauto
    end.
Qed.

(** The handler of [COLLECTING_INFO] touches the collected
    information, the cursor, the failure counter, the state and the
    request log, and nothing else. *)
Lemma info_collection_frame
      (json_loads : string -> option pyval) (w : World)
      (user_message : string) (s : PharmacyChatbot) :
  let s' := snd (_handle_info_collection json_loads w user_message s) in
  conversation_history s' = conversation_history s
  /\ pharmacy_data s' = pharmacy_data s
  /\ follow_up_actions s' = follow_up_actions s
  /\ ai_available s' = ai_available s
  /\ (ai_extraction_failures s <= ai_extraction_failures s'
      <= ai_extraction_failures s + 1)%nat
  /\ (ai_extraction_failures s' <> ai_extraction_failures s ->
      ai_available s = true /\ (ai_extraction_failures s < 3)%nat)
  /\ (forall k, is_Some (collected_info s !! k) ->
                is_Some (collected_info s' !! k))
  /\ (current_info_field s <= current_info_field s')%nat.
Proof.
  rewrite handle_info_collection_eq.
  pose proof (ai_tier_post json_loads w user_message
                (_get_next_missing_field s) s) as Hpost.
  pose proof (ai_tier_keys json_loads w user_message
                (_get_next_missing_field s) s) as Hkeys.
  destruct (ai_tier _ _ _ _ _) as [r1 s1]. cbn in Hkeys.
  destruct Hpost as (Hcur & Hai & Hfu & Hhist & Hpd & Hfail & _).
  destruct Hkeys as (Hk & Hup & Hwhy).
  assert (forall s2 : PharmacyChatbot,
             conversation_history s2 = conversation_history s ->
             pharmacy_data s2 = pharmacy_data s ->
             follow_up_actions s2 = follow_up_actions s ->
             ai_available s2 = ai_available s ->
             ai_extraction_failures s2 = ai_extraction_failures s1 ->
             (forall k, is_Some (collected_info s !! k) ->
                        is_Some (collected_info s2 !! k)) ->
             (current_info_field s <= current_info_field s2)%nat ->
             conversation_history s2 = conversation_history s
             /\ pharmacy_data s2 = pharmacy_data s
             /\ follow_up_actions s2 = follow_up_actions s
             /\ ai_available s2 = ai_available s
             /\ (ai_extraction_failures s <= ai_extraction_failures s2
                 <= ai_extraction_failures s + 1)%nat
             /\ (ai_extraction_failures s2 <> ai_extraction_failures s ->
                 ai_available s = true /\ (ai_extraction_failures s < 3)%nat)
             /\ (forall k, is_Some (collected_info s !! k) ->
                           is_Some (collected_info s2 !! k))
             /\ (current_info_field s <= current_info_field s2)%nat)
    as Hpack.
  { intros s2 H1 H2 H3 H4 H5 H6 H7. rewrite H5.
    split; [|split; [|split; [|split; [|split; [|split; [|split]]]]]];
      auto; lia. }
  assert (forall s2 : PharmacyChatbot,
             conversation_history s2 = conversation_history s ->
             pharmacy_data s2 = pharmacy_data s ->
             follow_up_actions s2 = follow_up_actions s ->
             ai_available s2 = ai_available s ->
             ai_extraction_failures s2 = ai_extraction_failures s1 ->
             (forall k, is_Some (collected_info s !! k) ->
                        is_Some (collected_info s2 !! k)) ->
             (current_info_field s <= current_info_field s2)%nat ->
             let s3 := snd (_handle_manual_info_collection user_message s2) in
             conversation_history s3 = conversation_history s
             /\ pharmacy_data s3 = pharmacy_data s
             /\ follow_up_actions s3 = follow_up_actions s
             /\ ai_available s3 = ai_available s
             /\ ai_extraction_failures s3 = ai_extraction_failures s1
             /\ (forall k, is_Some (collected_info s !! k) ->
                           is_Some (collected_info s3 !! k))
             /\ (current_info_field s <= current_info_field s3)%nat)
    as Hmanual.
  { intros s2 H1 H2 H3 H4 H5 H6 H7.
    pose proof (manual_frame user_message s2) as Hf.
    pose proof (manual_post user_message s2) as Hp.
    pose proof (manual_keys user_message s2) as Hmk.
    destruct (_handle_manual_info_collection user_message s2) as [r3 s3].
    cbn in *. destruct Hf as (F1 & F2 & F3 & F4 & F5 & F6).
    destruct Hp as [Hmono _].
    split; [|split; [|split; [|split; [|split; [|split]]]]];
      try congruence; try lia.
    intros k Hk0. apply Hmk, H6, Hk0. }
  destruct r1 as [[reply|]|e]; cbn.
  - apply Hpack; auto. lia.
  - pose proof (Hmanual s1 Hhist Hpd Hfu Hai eq_refl Hk ltac:(lia)) as Hm.
    destruct (_handle_manual_info_collection user_message s1)
      as [[reply|e] s2]; cbn in *.
    + destruct Hm as (M1 & M2 & M3 & M4 & M5 & M6 & M7). apply Hpack; auto.
    + destruct Hm as (M1 & M2 & M3 & M4 & M5 & M6 & M7).
      pose proof (Hmanual s2 M1 M2 M3 M4 M5 M6 M7) as Hm2.
      destruct (_handle_manual_info_collection user_message s2) as [r3 s3].
      cbn in *. destruct Hm2 as (N1 & N2 & N3 & N4 & N5 & N6 & N7).
      apply Hpack; auto.
  - pose proof (Hmanual s1 Hhist Hpd Hfu Hai eq_refl Hk ltac:(lia)) as Hm.
    destruct (_handle_manual_info_collection user_message s1) as [r2 s2].
    cbn in *. destruct Hm as (M1 & M2 & M3 & M4 & M5 & M6 & M7).
    apply Hpack; auto.
Qed.

(** The handlers of the other states: what they do to the AI flag, to
    the request log and to the two action logs. *)
Lemma dispatch_later_frame
      (json_loads : string -> option pyval) (format_value : pyval -> string)
      (w : World) (user_message : string) (s : PharmacyChatbot) :
  current_state s <> COLLECTING_INFO ->
  let s' := snd (dispatch json_loads format_value w user_message s) in
  (ai_available s' = true -> ai_available s = true)
  /\ (ai_available s = false -> llm_requests s' = llm_requests s)
  /\ (sent_emails (follow_up_actions s') = sent_emails (follow_up_actions s)
      \/ exists record,
          sent_emails (follow_up_actions s')
          = (sent_emails (follow_up_actions s) ++ [record])%list
          /\ ed_id record
             = (length (sent_emails (follow_up_actions s)) + 1)%nat
          /\ current_state s = OFFERING_FOLLOW_UP
          /\ truthy (_get_email_address s) = true
          /\ to_email (ed_request record) = _get_email_address s)
  /\ (scheduled_callbacks (follow_up_actions s')
      = scheduled_callbacks (follow_up_actions s)
      \/ exists record,
          scheduled_callbacks (follow_up_actions s')
          = (scheduled_callbacks (follow_up_actions s) ++ [record])%list
          /\ cd_id record
             = (length (scheduled_callbacks (follow_up_actions s)) + 1)%nat
          /\ current_state s = SCHEDULING).
Proof.
  intros Hst.
  destruct (dispatch _ _ _ _ _) as [r s'] eqn:E.
  unfold dispatch, _handle_solution_discussion, _handle_follow_up_offer,
    _handle_scheduling, _handle_closing, _handle_error_recovery,
    _generate_ai_response in E.
  unfold_monad. cbn in E.
  destruct (current_state s) eqn:Hc; try congruence; clear Hst;
    split_eq E; cbn;
    (split; [|split; [|split]]);
    try congruence; auto;
    try (right; eexists; repeat split; eauto; fail);
    right; eexists; repeat split; eauto; cbn;
    match goal with
    | H : truthy _ = true |- _ => rewrite H
    end; reflexivity.
Qed.

Lemma info_collection_no_ai
      (json_loads : string -> option pyval) (w : World)
      (user_message : string) (s : PharmacyChatbot) :
  ai_available s = false ->
  llm_requests (snd (_handle_info_collection json_loads w user_message s))
  = llm_requests s.
Proof.
  intros Hoff. rewrite info_collection_manual_only by (left; exact Hoff).
  pose proof (manual_frame user_message s) as Hf.
  destruct (_handle_manual_info_collection user_message s) as [[reply|e] s1];
    cbn in *; destruct Hf as (_ & _ & Hreq & _); [exact Hreq|].
  pose proof (manual_frame user_message s1) as Hf1.
  destruct (_handle_manual_info_collection user_message s1) as [r2 s2].
  cbn in *. destruct Hf1 as (_ & _ & Hreq1 & _). congruence.
Qed.

(** One message, whatever the state. *)
Lemma message_frame
      (json_loads : string -> option pyval) (format_value : pyval -> string)
      (w : World) (user_message : string) (s : PharmacyChatbot) :
  let s' := after_message json_loads format_value w user_message s in
  pharmacy_data s' = pharmacy_data s
  /\ (ai_available s' = true -> ai_available s = true)
  /\ (ai_available s = false -> llm_requests s' = llm_requests s)
  /\ (ai_extraction_failures s <= ai_extraction_failures s'
      <= ai_extraction_failures s + 1)%nat
  /\ (ai_extraction_failures s' <> ai_extraction_failures s ->
      ai_available s = true /\ (ai_extraction_failures s < 3)%nat
      /\ current_state s = COLLECTING_INFO)
  /\ (forall k, is_Some (collected_info s !! k) ->
                is_Some (collected_info s' !! k))
  /\ (current_info_field s <= current_info_field s')%nat.
Proof.
  unfold after_message. rewrite process_message_eq.
  destruct (decide (current_state s = COLLECTING_INFO)) as [Hst|Hst].
  - rewrite dispatch_collecting by exact Hst.
    pose proof (info_collection_frame json_loads w user_message
                  (with_user_message user_message s)) as Hf.
    pose proof (info_collection_no_ai json_loads w user_message
                  (with_user_message user_message s)) as Hn.
    destruct (_handle_info_collection _ _ _ _) as [[reply|e] s'];
      cbn in *;
      destruct Hf as (_ & Hpd & _ & Hai & Hfail & Hwhy & Hk & Hcur);
      (split; [|split; [|split; [|split; [|split; [|split]]]]]);
      auto; try congruence.
    + intros Hne. destruct (Hwhy Hne). auto.
    + intros Hne. destruct (Hwhy Hne). auto.
  - pose proof (dispatch_past_collection json_loads format_value w
                  user_message (with_user_message user_message s) Hst) as Hp.
    pose proof (dispatch_later_frame json_loads format_value w
                  user_message (with_user_message user_message s) Hst) as Hl.
    destruct (dispatch _ _ _ _ _) as [[reply|e] s'];
      cbn in *;
      destruct Hp as (_ & Hinfo & Hcur & Hfail & _ & _ & Hpd & _);
      destruct Hl as (Hai & Hreq & _);
      rewrite Hinfo, Hcur, Hfail;
      (split; [|split; [|split; [|split; [|split; [|split]]]]]);
      auto; try lia; intros Hne; exfalso; apply Hne; reflexivity.
Qed.

(** ** The AI tier over the life of an engine *)

Lemma start_call_frame
      (format_value : pyval -> string)
      (get_pharmacy_by_phone : string -> PharmacyAPI.lookup_outcome)
      (phone_number : string) (s : PharmacyChatbot) :
  let s' := snd (start_call format_value get_pharmacy_by_phone phone_number s)
  in
  ai_available s' = ai_available s
  /\ ai_extraction_failures s' = ai_extraction_failures s
  /\ llm_requests s' = llm_requests s
  /\ collected_info s' = collected_info s
  /\ follow_up_actions s' = follow_up_actions s.
Proof.
  unfold start_call. unfold_monad.
  destruct (get_pharmacy_by_phone phone_number); cbn; auto.
Qed.

Lemma event_frame
      (json_loads : string -> option pyval) (format_value : pyval -> string)
      (e : event) (s : PharmacyChatbot) :
  let s' := after_event json_loads format_value e s in
  (ai_available s' = true -> ai_available s = true)
  /\ (ai_available s = false -> llm_requests s' = llm_requests s)
  /\ (ai_extraction_failures s <= ai_extraction_failures s'
      <= ai_extraction_failures s + 1)%nat
  /\ (ai_extraction_failures s' <> ai_extraction_failures s ->
      (ai_extraction_failures s < 3)%nat).
Proof.
  destruct e as [w user_message | lookup phone | ]; cbn.
  - pose proof (message_frame json_loads format_value w user_message s)
      as (_ & Hai & Hreq & Hfail & Hwhy & _).
    split; [|split; [|split]]; auto.
    intros Hne. apply Hwhy in Hne. tauto.
  - pose proof (start_call_frame format_value lookup phone s)
      as (Hai & Hfail & Hreq & _).
    rewrite Hai, Hfail. split; [|split; [|split]]; auto; lia.
  - split; [|split; [|split]]; auto; lia.
Qed.

Lemma ai_off_events
      (json_loads : string -> option pyval) (format_value : pyval -> string)
      (events : list event) (s : PharmacyChatbot) :
  ai_available s = false ->
  llm_requests (after_events json_loads format_value events s)
  = llm_requests s.
Proof.
  revert s. induction events as [|e rest IH]; intros s Hoff; [auto|].
  cbn [after_events].
  pose proof (event_frame json_loads format_value e s) as (Hai & Hreq & _).
  rewrite IH; [apply Hreq, Hoff|].
  destruct (ai_available (after_event _ _ e s)) eqn:Hon; [|reflexivity].
  rewrite (Hai eq_refl) in Hoff. discriminate.
Qed.

(** X1. An engine whose AI flag is off never sends a request to the
    language model again, whatever messages, call starts and resets
    follow; the flag stays off and the failure counter stays where it
    is. *)
Theorem ai_off_engine_sends_nothing
        (json_loads : string -> option pyval) (format_value : pyval -> string)
        (events : list event) (s : PharmacyChatbot) :
  ai_available s = false ->
  llm_requests (after_events json_loads format_value events s)
  = llm_requests s
  /\ ai_available (after_events json_loads format_value events s) = false
  /\ ai_extraction_failures (after_events json_loads format_value events s)
     = ai_extraction_failures s.
Proof.
  revert s. induction events as [|e rest IH]; intros s Hoff; [auto|].
  cbn [after_events].
  pose proof (event_frame json_loads format_value e s)
    as (Hai & Hreq & Hfail & _).
  assert (ai_available (after_event json_loads format_value e s) = false)
    as Hoff'.
  { destruct (ai_available (after_event _ _ e s)) eqn:Hon; [|reflexivity].
    rewrite (Hai eq_refl) in Hoff. discriminate. }
  destruct (IH _ Hoff') as (Hlog & Hflag & Hcount).
  split; [|split; [exact Hflag|]].
  - rewrite Hlog. apply Hreq, Hoff.
  - rewrite Hcount.
    destruct e as [w user_message | lookup phone | ]; cbn.
    + pose proof (message_frame json_loads format_value w user_message s)
        as (_ & _ & _ & _ & Hwhy & _).
      destruct (decide (ai_extraction_failures
                          (after_message json_loads format_value w
                             user_message s)
                        = ai_extraction_failures s)) as [Heq|Hne];
        [exact Heq|].
      destruct (Hwhy Hne) as [Hon _]. congruence.
    + apply (start_call_frame format_value lookup phone s).
    + reflexivity.
Qed.

(** X2. The failure counter never decreases and never passes 3, over
    messages, call starts and resets: a reset does not bring it back
    to 0. *)
Theorem failure_counter_bounds
        (json_loads : string -> option pyval) (format_value : pyval -> string)
        (events : list event) (s : PharmacyChatbot) :
  (ai_extraction_failures s <= 3)%nat ->
  (ai_extraction_failures s
   <= ai_extraction_failures (after_events json_loads format_value events s)
   <= 3)%nat.
Proof.
  revert s. induction events as [|e rest IH]; intros s Hle; [cbn; lia|].
  cbn [after_events].
  pose proof (event_frame json_loads format_value e s)
    as (_ & _ & Hfail & Hwhy).
  assert (ai_extraction_failures (after_event json_loads format_value e s)
          <= 3)%nat as Hle'.
  { destruct (decide (ai_extraction_failures
                        (after_event json_loads format_value e s)
                      = ai_extraction_failures s)) as [Heq|Hne];
      [lia|]. specialize (Hwhy Hne). lia. }
  specialize (IH _ Hle'). lia.
Qed.

(** X3. Once the failure counter is at 3, no extraction request is
    sent for the rest of the engine's life: neither a new call nor
    [reset_conversation] switches the AI tier back on. *)
Theorem ai_tier_stays_off_across_calls
        (json_loads : string -> option pyval) (format_value : pyval -> string)
        (events : list event) (s : PharmacyChatbot) :
  (3 <= ai_extraction_failures s)%nat ->
  extraction_requests (after_events json_loads format_value events s)
  = extraction_requests s.
Proof.
  revert s. induction events as [|e rest IH]; intros s Hf; [reflexivity|].
  cbn [after_events].
  pose proof (event_frame json_loads format_value e s)
    as (_ & _ & Hfail & _).
  rewrite IH by lia.
  destruct e as [w user_message | lookup phone | ]; cbn.
  - apply (ai_off_step json_loads format_value w user_message s Hf).
  - pose proof (start_call_frame format_value lookup phone s)
      as (_ & _ & Hreq & _).
    unfold extraction_requests. rewrite Hreq. reflexivity.
  - reflexivity.
Qed.

(** X4. A message in [ERROR] puts the engine in [COLLECTING_INFO] with
    the AI flag off; from then on no request is sent to the language
    model. *)
Theorem error_recovery_is_manual_for_good
        (json_loads : string -> option pyval) (format_value : pyval -> string)
        (w : World) (user_message : string) (events : list event)
        (s : PharmacyChatbot) :
  current_state s = ERROR ->
  let s' := after_message json_loads format_value w user_message s in
  current_state s' = COLLECTING_INFO
  /\ ai_available s' = false
  /\ collected_info s' = collected_info s
  /\ current_info_field s' = current_info_field s
  /\ llm_requests (after_events json_loads format_value events s')
     = llm_requests s.
Proof.
  intros Hst. cbv zeta.
  assert (current_state s <> COLLECTING_INFO) as Hne by congruence.
  assert (after_message json_loads format_value w user_message s
          = with_reply
              "I'm back online now. Let me help you with your pharmacy management needs. Could you tell me about your pharmacy?"
              (set_current_state COLLECTING_INFO
                 (set_ai_available false (with_user_message user_message s))))
    as Hstep.
  { unfold after_message. rewrite process_message_eq.
    unfold dispatch, _handle_error_recovery. unfold_monad. cbn.
    rewrite Hst. reflexivity. }
  rewrite Hstep. cbn. repeat split; auto.
  rewrite (ai_off_events json_loads format_value events) by reflexivity.
  reflexivity.
Qed.

(** ** The transition table *)

Lemma info_collection_next_state
      (json_loads : string -> option pyval) (w : World)
      (user_message : string) (s : PharmacyChatbot) :
  let s' := snd (_handle_info_collection json_loads w user_message s) in
  current_state s' = DISCUSSING_SOLUTIONS
  \/ current_state s' = current_state s.
Proof.
  rewrite handle_info_collection_eq.
  pose proof (ai_tier_post json_loads w user_message
                (_get_next_missing_field s) s) as Hai.
  assert (forall s1 : PharmacyChatbot,
             current_state s1 = DISCUSSING_SOLUTIONS
             \/ current_state s1 = current_state s ->
             current_state
               (snd (_handle_manual_info_collection user_message s1))
             = DISCUSSING_SOLUTIONS
             \/ current_state
                  (snd (_handle_manual_info_collection user_message s1))
                = current_state s) as Hmanual.
  { intros s1 Hs1. pose proof (manual_post user_message s1) as Hp.
    destruct (_handle_manual_info_collection user_message s1) as [r2 s2].
    cbn. destruct Hp as (_ & [Hd|(Hsame & _)]); [auto|].
    rewrite Hsame. exact Hs1. }
  destruct (ai_tier _ _ _ _ _) as [[[reply|]|e] s1]; cbn.
  - destruct Hai as (_ & _ & _ & _ & _ & _ & [Hd|[Hsame _]]); auto.
  - destruct Hai as (_ & _ & _ & _ & _ & _ & Hsame & _).
    pose proof (Hmanual s1 (or_intror Hsame)) as Hm.
    destruct (_handle_manual_info_collection user_message s1)
      as [[reply|e] s2]; cbn in *; [exact Hm|].
    apply Hmanual, Hm.
  - destruct Hai as (_ & _ & _ & _ & _ & _ & Hd).
    destruct (Hmanual s1 (or_introl Hd)) as [H|H]; auto.
Qed.

(** X5. The state after a message, for each state before it: the
    table of the state machine. No message leads to [ERROR] or back
    to [GREETING], [ERROR] is left on the first message, and
    [CLOSING] is never left. *)
Theorem transition_table
        (json_loads : string -> option pyval) (format_value : pyval -> string)
        (w : World) (user_message : string) (s : PharmacyChatbot) :
  let next :=
    current_state (after_message json_loads format_value w user_message s) in
  match current_state s with
  | GREETING => next = GREETING
  | COLLECTING_INFO =>
      next = COLLECTING_INFO \/ next = DISCUSSING_SOLUTIONS
  | DISCUSSING_SOLUTIONS =>
      next = DISCUSSING_SOLUTIONS \/ next = OFFERING_FOLLOW_UP
  | OFFERING_FOLLOW_UP =>
      next = OFFERING_FOLLOW_UP \/ next = SCHEDULING \/ next = CLOSING
  | SCHEDULING => next = CLOSING
  | CLOSING => next = CLOSING
  | ERROR => next = COLLECTING_INFO
  end.
Proof.
  unfold after_message. rewrite process_message_eq.
  destruct (decide (current_state s = COLLECTING_INFO)) as [Hst|Hst].
  - rewrite Hst. rewrite dispatch_collecting by exact Hst.
    pose proof (info_collection_next_state json_loads w user_message
                  (with_user_message user_message s)) as Hn.
    destruct (_handle_info_collection _ _ _ _) as [[reply|e] s'];
      cbn in *; rewrite Hst in Hn; tauto.
  - pose proof (dispatch_past_collection json_loads format_value w
                  user_message (with_user_message user_message s) Hst) as Hp.
    destruct (dispatch _ _ _ _ _) as [[reply|e] s'];
      destruct Hp as (_ & _ & _ & _ & _ & _ & _ & Hnext);
      cbn in *; destruct (current_state s); tauto.
Qed.

(** ** The transcript *)

Lemma dispatch_history
      (json_loads : string -> option pyval) (format_value : pyval -> string)
      (w : World) (user_message : string) (s : PharmacyChatbot) :
  conversation_history
    (snd (dispatch json_loads format_value w user_message s))
  = conversation_history s.
Proof.
  destruct (decide (current_state s = COLLECTING_INFO)) as [Hst|Hst].
  - rewrite dispatch_collecting by exact Hst.
    apply (info_collection_frame json_loads w user_message s).
  - pose proof (dispatch_past_collection json_loads format_value w
                  user_message s Hst) as Hp.
    destruct (dispatch _ _ _ _ _) as [r s']. cbn. tauto.
Qed.

(** X6. Every message adds the user's message and then the reply to
    the conversation history, and removes nothing; only the apology
    returned for an exception is left out of the history. *)
Theorem transcript_only_grows
        (json_loads : string -> option pyval) (format_value : pyval -> string)
        (w : World) (user_message : string) (s : PharmacyChatbot) :
  let s' := after_message json_loads format_value w user_message s in
  exists reply,
    reply_to json_loads format_value w user_message s = Ok reply
    /\ (conversation_history s'
        = (conversation_history s
           ++ [(user, user_message); (assistant, reply)])%list
        \/ reply = TECHNICAL_DIFFICULTIES
           /\ conversation_history s'
              = (conversation_history s ++ [(user, user_message)])%list).
Proof.
  unfold after_message, reply_to. rewrite process_message_eq.
  pose proof (dispatch_history json_loads format_value w user_message
                (with_user_message user_message s)) as Hh.
  destruct (dispatch _ _ _ _ _) as [[reply|e] s']; cbn in *.
  - exists reply. split; [reflexivity|]. left. rewrite Hh.
    rewrite <- app_assoc. reflexivity.
  - exists TECHNICAL_DIFFICULTIES. split; [reflexivity|]. right.
    split; [reflexivity|exact Hh].
Qed.

(** ** The collected information *)

Lemma past_collection_step
      (json_loads : string -> option pyval) (format_value : pyval -> string)
      (w : World) (user_message : string) (s : PharmacyChatbot) :
  past_collection (current_state s) ->
  let s' := after_message json_loads format_value w user_message s in
  past_collection (current_state s')
  /\ collected_info s' = collected_info s
  /\ current_info_field s' = current_info_field s
  /\ pharmacy_data s' = pharmacy_data s.
Proof.
  intros Hpast. unfold after_message. rewrite process_message_eq.
  assert (current_state s <> COLLECTING_INFO) as Hst
      by (destruct Hpast as [?|[?|[?|?]]]; congruence).
  pose proof (dispatch_past_collection json_loads format_value w
                user_message (with_user_message user_message s) Hst) as Hp.
  destruct (dispatch _ _ _ _ _) as [[reply|e] s'];
    destruct Hp as (_ & Hinfo & Hcur & _ & _ & _ & Hpd & Hnext);
    cbn in *; unfold past_collection in *;
    (split; [destruct (current_state s); intuition congruence|auto]).
Qed.

(** X7. A key of [collected_info] is never removed by a message, and
    once the state is past the collection the dictionary is not
    touched at all. *)
Theorem collected_info_never_shrinks
        (json_loads : string -> option pyval) (format_value : pyval -> string)
        (steps : list (World * string)) (s : PharmacyChatbot) :
  (forall k,
      is_Some (collected_info s !! k) ->
      is_Some (collected_info (after_messages json_loads format_value steps s)
               !! k))
  /\ (past_collection (current_state s) ->
      collected_info (after_messages json_loads format_value steps s)
      = collected_info s).
Proof.
  revert s. induction steps as [|[w user_message] rest IH]; intros s.
  - split; [auto|reflexivity].
  - cbn [after_messages].
    pose proof (message_frame json_loads format_value w user_message s)
      as (_ & _ & _ & _ & _ & Hkeys & _).
    destruct (IH (after_message json_loads format_value w user_message s))
      as [Hrest Hsame].
    split; [intros k Hk; apply Hrest, Hkeys, Hk|]. intros Hpast.
    destruct (past_collection_step json_loads format_value w user_message
                s Hpast) as (Hnext & Hinfo & _).
    rewrite Hsame by exact Hnext. exact Hinfo.
Qed.

(** ** Caller record or collected information *)

(** X8. In a call started on an engine that holds neither a caller
    record nor collected information, the two never coexist: after a
    directory hit the caller record is kept and nothing is ever
    collected; otherwise there is no caller record. *)
Theorem caller_record_or_collected_info
        (json_loads : string -> option pyval) (format_value : pyval -> string)
        (get_pharmacy_by_phone : string -> PharmacyAPI.lookup_outcome)
        (phone_number : string) (steps : list (World * string))
        (s0 : PharmacyChatbot) :
  collected_info s0 = ∅ ->
  pharmacy_data s0 = None ->
  let s :=
    after_messages json_loads format_value steps
      (snd (start_call format_value get_pharmacy_by_phone phone_number s0)) in
  match get_pharmacy_by_phone phone_number with
  | PharmacyAPI.Found p =>
      pharmacy_data s = Some p /\ collected_info s = ∅
      /\ past_collection (current_state s)
  | _ => pharmacy_data s = None
  end.
Proof.
  intros Hinfo Hpd. cbv zeta.
  assert (forall (steps : list (World * string)) (s : PharmacyChatbot),
             pharmacy_data
               (after_messages json_loads format_value steps s)
             = pharmacy_data s) as Hdata.
  { clear. induction steps as [|[w user_message] rest IH]; intros s;
      [reflexivity|].
    cbn [after_messages]. rewrite IH.
    apply (message_frame json_loads format_value w user_message s). }
  assert (forall (steps : list (World * string)) (s : PharmacyChatbot),
             past_collection (current_state s) ->
             collected_info (after_messages json_loads format_value steps s)
             = collected_info s
             /\ past_collection
                  (current_state
                     (after_messages json_loads format_value steps s)))
    as Hpast.
  { clear. induction steps as [|[w user_message] rest IH]; intros s Hp;
      [auto|].
    cbn [after_messages].
    destruct (past_collection_step json_loads format_value w user_message
                s Hp) as (Hnext & Hsame & _).
    destruct (IH _ Hnext) as [Hrest Hlast]. split; [congruence|exact Hlast]. }
  rewrite Hdata.
  unfold start_call in *. unfold_monad.
  destruct (get_pharmacy_by_phone phone_number) as [p| |e]; cbn in *; auto.
  split; [reflexivity|].
  match goal with
  | |- context [after_messages _ _ steps ?s1] =>
      destruct (Hpast steps s1) as [Hsame Hlast];
      [left; reflexivity|]
  end.
  split; [rewrite Hsame; exact Hinfo|exact Hlast].
Qed.

(** ** Scheduling and closing *)

(** X9. In [SCHEDULING] every message, whatever it says, records
    exactly one callback and moves to [CLOSING]; the e-mail log is
    untouched; the callback carries the caller record's phone number,
    or the empty string when there is no caller record, and asks for
    "tomorrow at 2 PM" unless the message names one of the known
    times. *)
Theorem scheduling_records_one_callback
        (json_loads : string -> option pyval) (format_value : pyval -> string)
        (w : World) (user_message : string) (s : PharmacyChatbot) :
  current_state s = SCHEDULING ->
  let s' := after_message json_loads format_value w user_message s in
  current_state s' = CLOSING
  /\ sent_emails (follow_up_actions s') = sent_emails (follow_up_actions s)
  /\ exists record,
      scheduled_callbacks (follow_up_actions s')
      = (scheduled_callbacks (follow_up_actions s) ++ [record])%list
      /\ cd_id record
         = (length (scheduled_callbacks (follow_up_actions s)) + 1)%nat
      /\ phone_number (cd_request record)
         = match pharmacy_data s with
           | Some p => pd_phone p
           | None => VStr ""
           end
      /\ (existsb (fun keyword =>
                     Str.contains keyword (Str.lower user_message))
            time_keywords = false ->
          preferred_time (cd_request record) = "tomorrow at 2 PM").
Proof.
  intros Hst. unfold after_message. rewrite process_message_eq.
  unfold dispatch, _handle_scheduling. unfold_monad.
  cbn -[List.find existsb]. rewrite Hst. cbn -[List.find existsb].
  split; [reflexivity|]. split; [reflexivity|].
  eexists. split; [reflexivity|]. cbn -[List.find existsb].
  split; [reflexivity|]. split; [reflexivity|].
  intros Hnone.
  destruct (List.find _ time_keywords) as [keyword|] eqn:Hfind;
    [|reflexivity].
  apply List.find_some in Hfind as [Hin Hhit].
  assert (existsb (fun keyword =>
                     Str.contains keyword (Str.lower user_message))
            time_keywords = true) as Hsome
      by (apply existsb_exists; eauto).
  congruence.
Qed.

(** X10. [CLOSING] is final: a message there changes nothing but the
    history, and any number of messages later the state is still
    [CLOSING] with the same two action logs and the same collected
    information. *)
Theorem closing_is_final
        (json_loads : string -> option pyval) (format_value : pyval -> string)
        (steps : list (World * string)) (s : PharmacyChatbot) :
  current_state s = CLOSING ->
  let s' := after_messages json_loads format_value steps s in
  current_state s' = CLOSING
  /\ follow_up_actions s' = follow_up_actions s
  /\ collected_info s' = collected_info s
  /\ llm_requests s' = llm_requests s
  /\ ai_available s' = ai_available s.
Proof.
  revert s. induction steps as [|[w user_message] rest IH]; intros s Hst;
    [cbn; auto|].
  cbn [after_messages].
  assert (after_message json_loads format_value w user_message s
          = with_reply
              (if contains_any ["no"; "nothing"; "goodbye"; "bye"; "thanks"]
                    (Str.lower user_message)
               then PromptTemplates.GENERAL_CLOSING
               else "Is there anything else I can help you with today?")
              (with_user_message user_message s)) as Hstep.
  { unfold after_message. rewrite process_message_eq.
    unfold dispatch, _handle_closing. unfold_monad.
    cbn -[contains_any]. rewrite Hst.
    destruct (contains_any _ (Str.lower user_message)); reflexivity. }
  rewrite Hstep.
  match goal with
  | |- context [after_messages _ _ rest ?s1] =>
      destruct (IH s1 Hst) as (H1 & H2 & H3 & H4 & H5)
  end.
  cbv zeta. rewrite H1, H2, H3, H4, H5. cbn. auto.
Qed.

(** ** The action logs *)

(** What one message does to the two logs. *)
Lemma message_logs
      (json_loads : string -> option pyval) (format_value : pyval -> string)
      (w : World) (user_message : string) (s : PharmacyChatbot) :
  let s' := after_message json_loads format_value w user_message s in
  (sent_emails (follow_up_actions s') = sent_emails (follow_up_actions s)
   \/ exists record,
       sent_emails (follow_up_actions s')
       = (sent_emails (follow_up_actions s) ++ [record])%list
       /\ ed_id record = (length (sent_emails (follow_up_actions s)) + 1)%nat
       /\ current_state s = OFFERING_FOLLOW_UP
       /\ truthy (_get_email_address s) = true
       /\ to_email (ed_request record) = _get_email_address s)
  /\ (scheduled_callbacks (follow_up_actions s')
      = scheduled_callbacks (follow_up_actions s)
      \/ exists record,
          scheduled_callbacks (follow_up_actions s')
          = (scheduled_callbacks (follow_up_actions s) ++ [record])%list
          /\ cd_id record
             = (length (scheduled_callbacks (follow_up_actions s)) + 1)%nat
          /\ current_state s = SCHEDULING).
Proof.
  unfold after_message. rewrite process_message_eq.
  destruct (decide (current_state s = COLLECTING_INFO)) as [Hst|Hst].
  - rewrite dispatch_collecting by exact Hst.
    pose proof (info_collection_frame json_loads w user_message
                  (with_user_message user_message s)) as Hf.
    destruct (_handle_info_collection _ _ _ _) as [[reply|e] s'];
      cbn in *; destruct Hf as (_ & _ & Hfu & _); rewrite Hfu; auto.
  - pose proof (dispatch_later_frame json_loads format_value w
                  user_message (with_user_message user_message s) Hst) as Hl.
    destruct (dispatch _ _ _ _ _) as [[reply|e] s'];
      cbn in *; destruct Hl as (_ & _ & Hmail & Hcall);
      split; assumption.
Qed.

(** X11. When no e-mail address is known once the collection is over,
    no message ever sends an e-mail: the engine has no way left to
    learn the address. *)
Theorem no_known_address_no_email
        (json_loads : string -> option pyval) (format_value : pyval -> string)
        (steps : list (World * string)) (s : PharmacyChatbot) :
  past_collection (current_state s) ->
  truthy (_get_email_address s) = false ->
  sent_emails
    (follow_up_actions (after_messages json_loads format_value steps s))
  = sent_emails (follow_up_actions s).
Proof.
  revert s. induction steps as [|[w user_message] rest IH];
    intros s Hpast Hnone; [reflexivity|].
  cbn [after_messages].
  destruct (past_collection_step json_loads format_value w user_message
              s Hpast) as (Hnext & Hinfo & _ & Hpd).
  destruct (message_logs json_loads format_value w user_message s)
    as [[Hsame|(record & _ & _ & _ & Hknown & _)] _]; [|congruence].
  rewrite IH; [exact Hsame|exact Hnext|].
  unfold _get_email_address in *. rewrite Hinfo, Hpd. exact Hnone.
Qed.

Lemma ids_in_order_snoc_email (a : FollowUpActions) (record : email_data)
      (callbacks : list callback_data) :
  ids_in_order a ->
  ed_id record = (length (sent_emails a) + 1)%nat ->
  callbacks = scheduled_callbacks a ->
  ids_in_order
    {| sent_emails := sent_emails a ++ [record];
       scheduled_callbacks := callbacks |}.
Proof.
  intros [Hmail Hcall] Hid ->. split; cbn; [|exact Hcall].
  intros i r Hlook. apply lookup_app_Some in Hlook as [Hold|[Hge Hnew]].
  - apply Hmail, Hold.
  - apply list_lookup_singleton_Some in Hnew as [Hi ->]. rewrite Hid. lia.
Qed.

Lemma ids_in_order_snoc_callback (a : FollowUpActions)
      (record : callback_data) (emails : list email_data) :
  ids_in_order a ->
  cd_id record = (length (scheduled_callbacks a) + 1)%nat ->
  emails = sent_emails a ->
  ids_in_order
    {| sent_emails := emails;
       scheduled_callbacks := scheduled_callbacks a ++ [record] |}.
Proof.
  intros [Hmail Hcall] Hid ->. split; cbn; [exact Hmail|].
  intros i r Hlook. apply lookup_app_Some in Hlook as [Hold|[Hge Hnew]].
  - apply Hcall, Hold.
  - apply list_lookup_singleton_Some in Hnew as [Hi ->]. rewrite Hid. lia.
Qed.

Lemma ids_in_order_ext (a b : FollowUpActions) :
  sent_emails b = sent_emails a ->
  scheduled_callbacks b = scheduled_callbacks a ->
  ids_in_order a -> ids_in_order b.
Proof. unfold ids_in_order. intros -> ->. auto. Qed.

(** X12. In both action logs the id of a record is its position,
    counted from 1, and this survives every message, call start and
    reset (a reset empties the logs, so the ids start again at 1). *)
Theorem action_ids_are_positions
        (json_loads : string -> option pyval) (format_value : pyval -> string)
        (events : list event) (s : PharmacyChatbot) :
  ids_in_order (follow_up_actions s) ->
  ids_in_order
    (follow_up_actions (after_events json_loads format_value events s)).
Proof.
  revert s. induction events as [|e rest IH]; intros s Hids; [exact Hids|].
  cbn [after_events]. apply IH.
  destruct e as [w user_message | lookup phone | ]; cbn.
  - destruct (message_logs json_loads format_value w user_message s)
      as [Hmail Hcall].
    destruct Hmail as [Hmail|(record & Hmail & Hid & Hst & _)];
      destruct Hcall as [Hcall|(record' & Hcall & Hid' & Hst')].
    + apply (ids_in_order_ext (follow_up_actions s)); assumption.
    + apply (ids_in_order_ext
               {| sent_emails := sent_emails (follow_up_actions s);
                  scheduled_callbacks :=
                    scheduled_callbacks (follow_up_actions s) ++ [record'] |});
        [cbn; congruence|cbn; congruence|].
      apply ids_in_order_snoc_callback; auto.
    + apply (ids_in_order_ext
               {| sent_emails := sent_emails (follow_up_actions s) ++ [record];
                  scheduled_callbacks :=
                    scheduled_callbacks (follow_up_actions s) |});
        [cbn; congruence|cbn; congruence|].
      apply ids_in_order_snoc_email; auto.
    + congruence.
  - pose proof (start_call_frame format_value lookup phone s)
      as (_ & _ & _ & _ & Hfu).
    rewrite Hfu. exact Hids.
  - split; intros i record Hlook; cbn in Hlook;
      try rewrite lookup_nil in Hlook; discriminate.
Qed.

(** ** The generation request *)

Lemma last_messages_snoc (history : list message) (m : message) :
  drop (length (history ++ [m]) - 10) (history ++ [m])
  = (drop (length history - 9) history ++ [m])%list.
Proof.
  rewrite length_app. cbn [length].
  replace (length history + 1 - 10)%nat with (length history - 9)%nat by lia.
  rewrite drop_app_le by lia. reflexivity.
Qed.

(** X13. A message answered by the language model (in [GREETING], or
    in [DISCUSSING_SOLUTIONS] without a follow-up keyword, with the AI
    tier available) sends exactly one request: the system prompt, at
    most the last nine earlier messages of the transcript, and the
    user's message twice, since it is already the last entry of the
    transcript when the request is built. The reply is the model's
    text, or the fixed apology when the call raises; the state is
    kept. *)
Theorem generation_request_window
        (json_loads : string -> option pyval) (format_value : pyval -> string)
        (w : World) (user_message : string) (s : PharmacyChatbot) :
  current_state s = GREETING
  \/ (current_state s = DISCUSSING_SOLUTIONS
      /\ contains_any ["yes"; "interested"; "more"; "information"; "details"]
           (Str.lower user_message) = false) ->
  ai_available s = true ->
  let s' := after_message json_loads format_value w user_message s in
  let earlier :=
    drop (length (conversation_history s) - 9) (conversation_history s) in
  let request :=
    GenerationRequest
      ((system, PromptTemplates.SYSTEM_PROMPT)
         :: earlier ++ [(user, user_message); (user, user_message)]) in
  llm_requests s' = (llm_requests s ++ [request])%list
  /\ (length earlier <= 9)%nat
  /\ reply_to json_loads format_value w user_message s
     = Ok match llm w request with
          | LlmContent content => content
          | LlmRaises =>
              "I apologize, but I'm having trouble generating a response right now. Could you please try again?"
          end
  /\ current_state s' = current_state s.
Proof.
  intros Hst Hon. cbv zeta. unfold after_message, reply_to.
  rewrite process_message_eq.
  assert (length (drop (length (conversation_history s) - 9)
                    (conversation_history s)) <= 9)%nat as Hlen.
  { rewrite length_drop. lia. }
  unfold dispatch, _handle_solution_discussion, _generate_ai_response.
  unfold_monad.
  cbn -[contains_any PromptTemplates.SYSTEM_PROMPT].
  destruct Hst as [Hst|[Hst Hkey]]; rewrite Hst; [|rewrite Hkey];
    cbn -[contains_any PromptTemplates.SYSTEM_PROMPT];
    rewrite Hon; cbn -[contains_any PromptTemplates.SYSTEM_PROMPT];
    rewrite last_messages_snoc; rewrite <- app_assoc; cbn [app];
    destruct (llm w _) as [|content];
    cbn -[PromptTemplates.SYSTEM_PROMPT]; rewrite ?Hon;
    cbn -[PromptTemplates.SYSTEM_PROMPT]; auto.
Qed.

(** ** The AI tier's helpers *)

Lemma find_first {A : Type} (q : A -> bool) (l : list A) (x : A) :
  List.find (fun y => negb (q y)) l = Some x ->
  exists before after,
    l = (before ++ x :: after)%list
    /\ q x = false
    /\ forallb q before = true.
Proof.
  induction l as [|y rest IH]; cbn; [discriminate|].
  destruct (q y) eqn:Hy; cbn.
  - intros Hfind. destruct (IH Hfind) as (before & after & -> & Hx & Hall).
    exists (y :: before), after. cbn. rewrite Hy. auto.
  - intros [= <-]. exists [], rest. auto.
Qed.

Lemma find_none_forallb {A : Type} (q : A -> bool) (l : list A) :
  List.find (fun y => negb (q y)) l = None -> forallb q l = true.
Proof.
  induction l as [|y rest IH]; cbn; [reflexivity|].
  destruct (q y); cbn; [exact IH|discriminate].
Qed.

(** X14. While the information is incomplete, the field the AI tier
    asks for is the first required field, in the fixed order, that is
    absent or falsy in the collected information: every field before it
    is filled. When the information is complete the fallback
    [pharmacy_name] is returned, a field that is filled. *)
Theorem next_missing_field_is_first_gap (s : PharmacyChatbot) :
  if _has_complete_info s
  then _get_next_missing_field s = "pharmacy_name"
       /\ lookup_truthy (collected_info s) "pharmacy_name" = true
  else exists before after,
      required_fields
      = (before ++ _get_next_missing_field s :: after)%list
      /\ lookup_truthy (collected_info s) (_get_next_missing_field s) = false
      /\ forallb (lookup_truthy (collected_info s)) before = true.
Proof.
  unfold _has_complete_info, _get_next_missing_field, complete_info,
    next_missing_field.
  destruct (List.find _ required_fields) as [field|] eqn:Hfind.
  - destruct (find_first _ _ _ Hfind)
      as (before & after & Heq & Hx & Hfilled).
    rewrite Heq, forallb_app. cbn [forallb]. rewrite Hx, Hfilled. cbn.
    exists before, after. rewrite <- Heq. auto.
  - apply find_none_forallb in Hfind as Hfilled.
    rewrite Hfilled. split; [reflexivity|].
    cbn in Hfilled. apply andb_true_iff in Hfilled as [Hname _].
    exact Hname.
Qed.

(** X15. Whatever the AI tier stores as [rx_volume] is a number above
    zero: an integer greater than 0, the boolean [True], or a float
    that is not at most 0 (so a NaN passes). A string of digits is
    stored as its integer; other strings, zero, negative numbers,
    lists and dictionaries are rejected, and a rejected answer leaves
    the collected information as it was. *)
Theorem ai_tier_volume_is_positive
        (json_loads : string -> option pyval) (w : World)
        (user_message : string) (s s1 : PharmacyChatbot)
        (r : result (option string)) :
  ai_tier json_loads w user_message "rx_volume" s = (r, s1) ->
  match r with
  | Ok None => collected_info s1 = collected_info s
  | _ =>
      exists value,
        collected_info s1 !! "rx_volume" = Some value
        /\ match value with
           | VInt z => 0 < z
           | VBool b => b = true
           | VFloat f => float_le f 0 = false
           | _ => False
           end
  end.
Proof.
  rewrite ai_tier_eq. cbv zeta.
  destruct (ai_available s && _); [|intros [= <- <-]; reflexivity].
  destruct (accepted_answer _ _) as [d|] eqn:Hacc;
    [|intros [= <- <-]; reflexivity].
  assert (exists value,
             d !! "rx_volume" = Some value
             /\ match value with
                | VInt z => 0 < z
                | VBool b => b = true
                | VFloat f => float_le f 0 = false
                | _ => False
                end) as (value & Hlook & Hpos).
  { revert Hacc. unfold accepted_answer.
    set (d0 := ai_answer json_loads w user_message "rx_volume").
    destruct (negb (bool_decide (d0 = ∅))); cbn [andb]; [|discriminate].
    destruct (lookup_truthy d0 "rx_volume") eqn:Htruthy; [|discriminate].
    cbn [String.eqb Ascii.eqb Bool.eqb]. unfold check_rx_volume.
    unfold lookup_truthy in Htruthy.
    destruct (d0 !! "rx_volume") as [v|] eqn:Hv; [|discriminate].
    destruct v as [| b | z | f | text | l | m]; try discriminate.
    - destruct b; [|discriminate]. intros [= <-]. eauto.
    - destruct (z <=? 0) eqn:Hz; [discriminate|]. intros [= <-].
      apply Z.leb_gt in Hz. eauto.
    - destruct (float_le f 0) eqn:Hf; [discriminate|]. intros [= <-].
      eauto.
    - destruct (Str.isdigit text); [|discriminate].
      destruct (Str.int_of_digits text <=? 0) eqn:Hz; [discriminate|].
      intros [= <-]. apply Z.leb_gt in Hz.
      exists (VInt (Str.int_of_digits text)).
      rewrite lookup_insert_eq. auto. }
  assert ((d ∪ collected_info s) !! "rx_volume" = Some value) as Hstored.
  { apply lookup_union_Some_l. exact Hlook. }
  destruct (_has_complete_info _).
  - intros [= <- <-]. cbn.
    destruct (ResponseTemplates.get_solution_benefits _); eauto.
  - intros [= <- <-]. cbn. eauto.
Qed.

(** X16. The AI extraction of one field never raises and never
    returns a [None] value. With the AI tier unavailable it returns the
    empty dictionary without a request; otherwise it sends exactly one
    extraction request, and the result is empty when the call raises,
    when the answer is blank and when the answer is not valid JSON or
    not a JSON object. *)
Theorem field_extraction_is_parse_or_empty
        (json_loads : string -> option pyval) (w : World)
        (user_message field : string) (s : PharmacyChatbot) :
  let '(r, s') :=
    _extract_pharmacy_info_for_field json_loads w user_message field s in
  exists d,
    r = Ok d
    /\ (forall k, d !! k <> Some VNone)
    /\ (if ai_available s
        then s' = set_llm_requests
                    (llm_requests s ++ [ExtractionRequest field user_message])
                    s
        else s' = s /\ d = ∅)
    /\ match llm w (ExtractionRequest field user_message) with
       | LlmRaises => d = ∅
       | LlmContent content =>
           (Str.strip content = "" -> d = ∅)
           /\ (d <> ∅ -> exists text result,
                  json_loads text = Some (VDict result)
                  /\ forall k v, d !! k = Some v
                                 <-> result !! k = Some v /\ v <> VNone)
       end.
Proof.
  destruct (ai_available s) eqn:Hon.
  - rewrite (extract_eq json_loads w user_message field s Hon).
    exists (ai_answer json_loads w user_message field).
    split; [reflexivity|]. unfold ai_answer.
    destruct (llm w _) as [|content];
      [split; [intros k; rewrite lookup_empty; discriminate|auto]|].
    cbv zeta.
    destruct (String.eqb (Str.strip content) "") eqn:Hblank.
    { split; [intros k; rewrite lookup_empty; discriminate|].
      split; [reflexivity|]. split; [reflexivity|]. congruence. }
    apply String.eqb_neq in Hblank.
    destruct (json_loads _) as [[| | | | | |result]|] eqn:Hjson;
      try (split; [intros k; rewrite lookup_empty; discriminate|];
           split; [reflexivity|]; split; [congruence|congruence]).
    split; [|split; [reflexivity|split; [congruence|]]].
    + intros k Hk. apply map_lookup_filter_Some in Hk as [_ Hk].
      cbn in Hk. discriminate.
    + intros _. eexists _, result. split; [exact Hjson|].
      intros k v. rewrite map_lookup_filter_Some. cbn.
      split; intros [Hk Hv]; (split; [exact Hk|]).
      * intros ->. discriminate.
      * destruct v; try reflexivity. congruence.
  - unfold _extract_pharmacy_info_for_field. unfold_monad. rewrite Hon. cbn.
    exists ∅. split; [reflexivity|].
    split; [intros k; rewrite lookup_empty; discriminate|].
    split; [auto|].
    destruct (llm w _); [reflexivity|]. split; [reflexivity|congruence].
Qed.

(** ** Code fences around the AI answer *)

Lemma of_chars_chars (s : string) : Str.of_chars (Str.chars s) = s.
Proof. apply string_of_list_ascii_of_string. Qed.

Lemma chars_of_chars (l : list ascii) : Str.chars (Str.of_chars l) = l.
Proof. apply list_ascii_of_string_of_list_ascii. Qed.

Lemma chars_append (a b : string) :
  Str.chars (a ++ b) = (Str.chars a ++ Str.chars b)%list.
Proof.
  unfold Str.chars. induction a as [|c a IH]; [reflexivity|].
  change (String c a ++ b) with (String c (a ++ b)).
  cbn [list_ascii_of_string app]. rewrite IH. reflexivity.
Qed.

Lemma drop_while_split (p : ascii -> bool) (l : list ascii) :
  exists dropped,
    l = (dropped ++ Str.drop_while p l)%list
    /\ forallb p dropped = true.
Proof.
  induction l as [|c rest (dropped & Heq & Hall)]; [exists []; auto|].
  cbn. destruct (p c) eqn:Hc.
  - exists (c :: dropped). cbn. rewrite Hc, Hall. split; [|reflexivity].
    f_equal. exact Heq.
  - exists []. auto.
Qed.

Lemma drop_while_head (p : ascii -> bool) (l : list ascii) :
  match Str.drop_while p l with
  | [] => True
  | c :: _ => p c = false
  end.
Proof.
  induction l as [|c rest IH]; cbn; [exact I|].
  destruct (p c) eqn:Hc; [exact IH|exact Hc].
Qed.

Lemma drop_while_fixed (p : ascii -> bool) (l : list ascii) :
  match l with [] => True | c :: _ => p c = false end ->
  Str.drop_while p l = l.
Proof. destruct l as [|c rest]; cbn; [reflexivity|]. intros ->. reflexivity. Qed.

(** The characters [strip] keeps start and end with a character that
    is not white space. *)
Lemma strip_ends (l : list ascii) :
  let kept :=
    rev (Str.drop_while Str.isspace_char
           (rev (Str.drop_while Str.isspace_char l))) in
  match kept with [] => True | c :: _ => Str.isspace_char c = false end
  /\ match rev kept with
     | [] => True
     | c :: _ => Str.isspace_char c = false
     end.
Proof.
  cbv zeta. rewrite rev_involutive.
  split; [|apply drop_while_head].
  pose proof (drop_while_head Str.isspace_char l) as Hhead.
  set (l1 := Str.drop_while Str.isspace_char l) in *.
  destruct (drop_while_split Str.isspace_char (rev l1))
    as (dropped & Heq & _).
  set (l2 := Str.drop_while Str.isspace_char (rev l1)) in *.
  assert (l1 = (rev l2 ++ rev dropped)%list) as Hl1.
  { rewrite <- rev_app_distr, <- Heq, rev_involutive. reflexivity. }
  destruct (rev l2) as [|c rest]; [exact I|].
  rewrite Hl1 in Hhead. exact Hhead.
Qed.

Lemma strip_strip (s : string) : Str.strip (Str.strip s) = Str.strip s.
Proof.
  unfold Str.strip. rewrite chars_of_chars.
  destruct (strip_ends (Str.chars s)) as [Hfirst Hlast]. cbv zeta in *.
  set (kept := rev (Str.drop_while Str.isspace_char
                      (rev (Str.drop_while Str.isspace_char
                              (Str.chars s))))) in *.
  rewrite (drop_while_fixed _ kept Hfirst).
  rewrite (drop_while_fixed _ (rev kept) Hlast).
  rewrite rev_involutive. reflexivity.
Qed.

Lemma fence_opened (text : string) :
  Str.startswith "```json" ("```json" ++ text) = true
  /\ Str.drop_left 7 ("```json" ++ text) = text.
Proof.
  split.
  - unfold Str.startswith. cbn. destruct text; reflexivity.
  - unfold Str.drop_left. cbn -[Str.of_chars Str.chars].
    change (Str.of_chars (drop 7 (Str.chars ("```json" ++ text))))
      with (Str.of_chars (Str.chars text)).
    apply of_chars_chars.
Qed.

Lemma fence_closed (text : string) :
  Str.endswith "```" (text ++ "```") = true
  /\ Str.drop_right 3 (text ++ "```") = text.
Proof.
  unfold Str.endswith, Str.drop_right. rewrite chars_append, rev_app_distr.
  cbn [Str.chars list_ascii_of_string rev app]. split.
  - cbn. destruct (string_of_list_ascii _); reflexivity.
  - cbn [skipn]. rewrite drop_0, rev_involutive. apply of_chars_chars.
Qed.

Lemma strip_fenced (text : string) :
  Str.strip ("```json" ++ text ++ "```") = "```json" ++ text ++ "```".
Proof.
  unfold Str.strip.
  rewrite (drop_while_fixed _ (Str.chars ("```json" ++ text ++ "```")))
    by reflexivity.
  rewrite !chars_append, !rev_app_distr.
  rewrite drop_while_fixed by reflexivity.
  rewrite <- !rev_app_distr, rev_involutive, <- !chars_append.
  apply of_chars_chars.
Qed.

(** X17. An answer of the language model wrapped in a [```json] code
    fence is read exactly like the bare answer: for a text that is not
    blank and carries no fence of its own, the extraction returns the
    same dictionary for the fenced text and for the text alone. *)
Theorem fenced_answer_reads_like_bare
        (json_loads : string -> option pyval) (fenced bare : World)
        (user_message field text : string) :
  llm fenced (ExtractionRequest field user_message)
  = LlmContent ("```json" ++ text ++ "```") ->
  llm bare (ExtractionRequest field user_message) = LlmContent text ->
  Str.strip text <> "" ->
  Str.startswith "```json" (Str.strip text) = false ->
  Str.endswith "```" (Str.strip text) = false ->
  ai_answer json_loads fenced user_message field
  = ai_answer json_loads bare user_message field.
Proof.
  intros Hfenced Hbare Hblank Hopen Hclose. unfold ai_answer.
  rewrite Hfenced, Hbare. cbv zeta.
  rewrite strip_fenced.
  apply String.eqb_neq in Hblank. rewrite Hblank.
  replace (String.eqb ("```json" ++ text ++ "```") "") with false
    by reflexivity.
  destruct (fence_opened (text ++ "```")) as [-> ->].
  destruct (fence_closed text) as [-> ->].
  rewrite Hopen, Hclose, strip_strip. reflexivity.
Qed.

(** ** The requests of the directory client *)

Section Retries.
Import PharmacyAPIRequests.

Lemma with_retries_gives_up {A : Type} (body : pyval -> outcome A)
      (failed : A) (exchange : nat -> http_outcome) :
  gives_up (fun exchange => with_retries exchange body failed) failed
    exchange.
Proof.
  unfold gives_up, with_retries, max_retries, retry_delay, attempts.
  cbv [Nat.ltb Nat.leb Nat.sub Nat.add Nat.mul]. cbn.
  destruct (exchange 0%nat) as [| | | |payload0]; cbn;
    try (destruct (body payload0); cbn; auto; fail); auto;
    (destruct (exchange 1%nat) as [| | | |payload1]; cbn;
     try (destruct (body payload1); cbn; auto; fail); auto;
     (destruct (exchange 2%nat) as [| | | |payload2]; cbn;
      try (destruct (body payload2); cbn; auto; fail); auto)).
Qed.

(** X18. Each request method makes at most three attempts: it sleeps 1
    second after a first failed attempt and 2 seconds after a second
    one, never consults a fourth exchange, and after three attempts
    that end in a timeout, a connection error or a request error it
    returns its empty result ([None], or the empty list). *)
Theorem request_methods_give_up
        (py_str : pyval -> string) (int_of_str : string -> option Z)
        (dict_keys : gmap string pyval -> list string)
        (exchange : nat -> http_outcome) (phone_number pharmacy_id : string)
        (pharmacy_data updates : pyval) :
  gives_up (fun exchange =>
              get_pharmacy_by_phone py_str int_of_str dict_keys exchange
                phone_number) None exchange
  /\ gives_up (get_all_pharmacies py_str int_of_str dict_keys) [] exchange
  /\ gives_up (fun exchange =>
                 create_pharmacy py_str int_of_str (fun _ => exchange)
                   pharmacy_data) None exchange
  /\ gives_up (fun exchange =>
                 update_pharmacy py_str int_of_str (fun _ _ => exchange)
                   pharmacy_id updates) None exchange.
Proof.
  repeat split; apply with_retries_gives_up.
Qed.
End Retries.

Section Client.
Import PharmacyAPIRequests.
Variable py_str : pyval -> string.
Variable int_of_str : string -> option Z.
Variable dict_keys : gmap string pyval -> list string.

Lemma with_retries_obtained {A : Type} (body : pyval -> outcome A)
      (failed : A) (exchange : nat -> http_outcome) :
  fst (with_retries exchange body failed) = failed
  \/ exists attempt payload,
      (attempt < 3)%nat
      /\ (forall earlier, (earlier < attempt)%nat ->
                          retryable (exchange earlier) = true)
      /\ exchange attempt = Json payload
      /\ body payload = Return (fst (with_retries exchange body failed)).
Proof.
  unfold with_retries, max_retries, retry_delay, attempts.
  cbv [Nat.ltb Nat.leb Nat.sub Nat.add Nat.mul]. cbn.
  destruct (exchange 0%nat) as [| | | |payload0] eqn:E0; cbn; auto;
    try (destruct (body payload0) eqn:B0; cbn; auto; right;
         exists 0%nat, payload0; repeat split; auto; intros; lia);
    (destruct (exchange 1%nat) as [| | | |payload1] eqn:E1; cbn; auto;
     try (destruct (body payload1) eqn:B1; cbn; auto; right;
          exists 1%nat, payload1; repeat split; auto;
          intros earlier Hlt; assert (earlier = 0%nat) as -> by lia;
          rewrite E0; reflexivity);
     (destruct (exchange 2%nat) as [| | | |payload2] eqn:E2; cbn; auto;
      try (destruct (body payload2) eqn:B2; cbn; auto; right;
           exists 2%nat, payload2; repeat split; auto;
           intros earlier Hlt;
           assert (earlier = 0%nat \/ earlier = 1%nat) as [-> | ->] by lia;
           [rewrite E0|rewrite E1]; reflexivity))).
Qed.

Lemma first_match_found (cleaned_phone : string) (records : list pyval)
      (p : PharmacyData) :
  first_match py_str int_of_str dict_keys cleaned_phone records
  = Return (Some p) ->
  exists i d,
    records !! i = Some (VDict d)
    /\ clean_phone_value dict_keys (default (VStr "") (d !! "phone"))
       = Return cleaned_phone
    /\ _parse_pharmacy_data py_str int_of_str (VDict d) = Return p
    /\ forall j, (j < i)%nat ->
         exists d' cleaned,
           records !! j = Some (VDict d')
           /\ clean_phone_value dict_keys (default (VStr "") (d' !! "phone"))
              = Return cleaned
           /\ cleaned <> cleaned_phone.
Proof.
  induction records as [|record rest IH]; [discriminate|].
  cbn [first_match].
  destruct record as [| | | | | |d]; try discriminate.
  destruct (clean_phone_value _ _) as [cleaned|] eqn:Hclean;
    [|discriminate].
  destruct (String.eqb cleaned cleaned_phone) eqn:Heq.
  - apply String.eqb_eq in Heq. subst cleaned.
    destruct (_parse_pharmacy_data _ _ _) as [q|] eqn:Hparse;
      [|discriminate].
    intros [= ->]. exists 0%nat, d. repeat split; auto. intros j Hj. lia.
  - apply String.eqb_neq in Heq. intros Hrest.
    destruct (IH Hrest) as (i & d' & Hlook & Hphone & Hparse & Hbefore).
    exists (S i), d'. repeat split; auto.
    intros [|j] Hj; [exists d, cleaned; auto|].
    apply Hbefore. lia.
Qed.

(** X19. A record returned by [get_pharmacy_by_phone] comes from a
    list obtained at one of the three attempts, every earlier attempt
    having failed with a retryable error; it is the parse of the first
    record of that list whose phone has the digits of the number asked
    for, and every record before it is a dictionary with other
    digits. *)
Theorem lookup_returns_first_matching_record
        (exchange : nat -> http_outcome) (phone_number : string)
        (p : PharmacyData) :
  fst (get_pharmacy_by_phone py_str int_of_str dict_keys exchange
         phone_number) = Some p ->
  exists attempt records i d,
    (attempt < 3)%nat
    /\ (forall earlier, (earlier < attempt)%nat ->
                        retryable (exchange earlier) = true)
    /\ exchange attempt = Json (VList records)
    /\ records !! i = Some (VDict d)
    /\ clean_phone_value dict_keys (default (VStr "") (d !! "phone"))
       = Return (PharmacyAPI._clean_phone_number phone_number)
    /\ _parse_pharmacy_data py_str int_of_str (VDict d) = Return p
    /\ forall j, (j < i)%nat ->
         exists d' cleaned,
           records !! j = Some (VDict d')
           /\ clean_phone_value dict_keys (default (VStr "") (d' !! "phone"))
              = Return cleaned
           /\ cleaned <> PharmacyAPI._clean_phone_number phone_number.
Proof.
  unfold get_pharmacy_by_phone. intros Hfound.
  destruct (with_retries_obtained
              (scan py_str int_of_str dict_keys
                 (PharmacyAPI._clean_phone_number phone_number))
              None exchange)
    as [Hnone|(attempt & payload & Hlt & Hearlier & Hexchange & Hbody)];
    [congruence|].
  rewrite Hfound in Hbody. unfold scan in Hbody.
  destruct payload as [| | | | text |records|m]; try discriminate.
  - destruct (String.eqb text ""); discriminate.
  - destruct (first_match_found _ _ _ Hbody)
      as (i & d & Hlook & Hphone & Hparse & Hbefore).
    exists attempt, records, i, d. auto 10.
  - destruct (dict_keys m); discriminate.
Qed.

(** X20. A number without any digit is matched with the first record
    of the list when that record has no phone entry: the missing phone
    and the number both clean to the empty string. *)
Theorem digitless_number_matches_phoneless_record
        (exchange : nat -> http_outcome) (phone_number : string)
        (d : gmap string pyval) (rest : list pyval) (p : PharmacyData) :
  PharmacyAPI._clean_phone_number phone_number = "" ->
  exchange 0%nat = Json (VList (VDict d :: rest)) ->
  d !! "phone" = None ->
  _parse_pharmacy_data py_str int_of_str (VDict d) = Return p ->
  get_pharmacy_by_phone py_str int_of_str dict_keys exchange phone_number
  = (Some p, []).
Proof.
  intros Hclean Hexchange Hphone Hparse.
  unfold get_pharmacy_by_phone, with_retries, max_retries.
  cbn [attempts]. rewrite Hexchange, Hclean.
  cbn [scan first_match]. rewrite Hphone. cbn [default clean_phone_value].
  cbn [PharmacyAPI._clean_phone_number String.eqb].
  rewrite Hparse. reflexivity.
Qed.

End Client.

Section Records.
Import PharmacyAPIRequests.
Variable py_str : pyval -> string.
Variable int_of_str : string -> option Z.
Variable dict_keys : gmap string pyval -> list string.

Lemma parsed_volume_is_int (data : pyval) (p : PharmacyData) :
  _parse_pharmacy_data py_str int_of_str data = Return p ->
  exists z, pd_rx_volume p = VInt z.
Proof.
  unfold _parse_pharmacy_data. destruct data; try discriminate.
  destruct (py_int _ _) as [z|[]]; try discriminate;
    intros [= <-]; cbn; eauto.
Qed.

(** X22. Parsing a record never fails on a missing or unusable
    [rx_volume]: the parsed volume is always an integer, the value of
    [int] when the conversion works and 0 when it raises [ValueError]
    or [TypeError], and the [Unknown] defaults only fill entries that
    are absent. The one exception that escapes is the [OverflowError]
    of an infinite volume. *)
Theorem parsed_record_has_integer_volume (d : gmap string pyval) :
  match _parse_pharmacy_data py_str int_of_str (VDict d) with
  | Return p =>
      (match py_int int_of_str (default (VInt 0) (d !! "rx_volume")) with
       | Return z => pd_rx_volume p = VInt z
       | Throw _ => pd_rx_volume p = VInt 0
       end)
      /\ (forall name, d !! "name" = Some name -> pd_name p = name)
      /\ (forall location,
             d !! "location" = Some location -> pd_location p = location)
      /\ (forall person,
             d !! "contact_person" = Some person
             -> pd_contact_person p = person)
      /\ pd_email p = default VNone (d !! "email")
      /\ pd_phone p = default (VStr "") (d !! "phone")
  | Throw e =>
      e = OverflowError
      /\ (d !! "rx_volume" = Some (VFloat FPosInf)
          \/ d !! "rx_volume" = Some (VFloat FNegInf))
  end.
Proof.
  unfold _parse_pharmacy_data.
  destruct (d !! "rx_volume") as [[| b | z | [q| | |] | text | l | m]|]
    eqn:Hvolume; cbn;
    try destruct (int_of_str text); cbn;
    repeat split; auto;
    try (intros value ->; reflexivity).
Qed.

Lemma parse_each_volumes (records : list pyval) (parsed : list PharmacyData) :
  parse_each py_str int_of_str records = Return parsed ->
  Forall (fun p => exists z, pd_rx_volume p = VInt z) parsed.
Proof.
  revert parsed. induction records as [|record rest IH]; intros parsed.
  - intros [= <-]. constructor.
  - cbn [parse_each].
    destruct (_parse_pharmacy_data _ _ record) as [p|] eqn:Hparse;
      [|discriminate].
    destruct (parse_each _ _ rest) as [others|]; [|discriminate].
    intros [= <-]. constructor; [|apply IH; reflexivity].
    eapply parsed_volume_is_int, Hparse.
Qed.

Lemma all_pharmacies_volumes (exchange : nat -> http_outcome) :
  Forall (fun p => exists z, pd_rx_volume p = VInt z)
    (fst (get_all_pharmacies py_str int_of_str dict_keys exchange)).
Proof.
  unfold get_all_pharmacies.
  destruct (with_retries_obtained
              (parse_all py_str int_of_str dict_keys) [] exchange)
    as [->|(attempt & payload & _ & _ & _ & Hbody)]; [constructor|].
  revert Hbody.
  generalize (fst (with_retries exchange
                     (parse_all py_str int_of_str dict_keys) [])).
  intros parsed. unfold parse_all.
  destruct payload as [| | | | text |records|m]; try discriminate.
  - destruct (String.eqb text ""); [|discriminate].
    intros [= <-]. constructor.
  - apply parse_each_volumes.
  - destruct (dict_keys m); [|discriminate]. intros [= <-]. constructor.
Qed.

Lemma at_least_filter (threshold : Z) (pharmacies : list PharmacyData) :
  Forall (fun p => exists z, pd_rx_volume p = VInt z) pharmacies ->
  at_least threshold pharmacies
  = Ok (List.filter
          (fun p => match pd_rx_volume p with
                    | VInt z => threshold <=? z
                    | _ => false
                    end) pharmacies).
Proof.
  induction 1 as [|p rest [z Hz] _ IH]; [reflexivity|].
  cbn [at_least List.filter]. rewrite Hz, IH. cbn.
  rewrite Z.geb_leb. destruct (threshold <=? z); reflexivity.
Qed.

(** X23. [get_high_volume_pharmacies] returns, in their order, exactly
    the pharmacies of [get_all_pharmacies] whose volume is at least
    the threshold: every parsed volume is an integer, so the
    comparison never raises and nothing is lost to the handler that
    returns the empty list. *)
Theorem high_volume_is_the_filter
        (exchange : nat -> http_outcome) (threshold : Z) :
  get_high_volume_pharmacies py_str int_of_str dict_keys exchange threshold
  = List.filter
      (fun p => match pd_rx_volume p with
                | VInt z => threshold <=? z
                | _ => false
                end)
      (fst (get_all_pharmacies py_str int_of_str dict_keys exchange)).
Proof.
  unfold get_high_volume_pharmacies.
  rewrite at_least_filter by apply all_pharmacies_volumes. reflexivity.
Qed.

Lemma parse_each_bad_record (records : list pyval) (i : nat) (v : pyval) :
  records !! i = Some v ->
  (forall d, v <> VDict d) ->
  exists e, parse_each py_str int_of_str records = Throw e.
Proof.
  revert i. induction records as [|record rest IH]; intros i Hlook Hbad;
    [discriminate|].
  cbn [parse_each].
  destruct i as [|i]; cbn in Hlook.
  - injection Hlook as ->.
    destruct v; cbn; eauto. exfalso. eapply Hbad. reflexivity.
  - destruct (_parse_pharmacy_data _ _ record); [|eauto].
    destruct (IH i Hlook Hbad) as [e ->]. eauto.
Qed.

(** X24. [get_all_pharmacies] is all or nothing: when the list
    obtained at the first attempt holds one entry that is not a
    dictionary, the result is empty, the well-formed records of the
    list included, and no other attempt is made. *)
Theorem one_bad_record_empties_the_list
        (exchange : nat -> http_outcome) (records : list pyval)
        (i : nat) (v : pyval) :
  exchange 0%nat = Json (VList records) ->
  records !! i = Some v ->
  (forall d, v <> VDict d) ->
  get_all_pharmacies py_str int_of_str dict_keys exchange = ([], []).
Proof.
  intros Hexchange Hlook Hbad.
  unfold get_all_pharmacies, with_retries, max_retries.
  cbn [attempts]. rewrite Hexchange. cbn [parse_all].
  destruct (parse_each_bad_record records i v Hlook Hbad) as [e ->].
  reflexivity.
Qed.
End Records.

(** ** Addresses of the e-mails *)

(** X25. Every e-mail the engine logs has a truthy address: the
    property survives every message, call start and reset, because the
    follow-up handler sends only to a known address. *)
Theorem logged_emails_are_addressed
        (json_loads : string -> option pyval) (format_value : pyval -> string)
        (events : list event) (s : PharmacyChatbot) :
  all_addressed (follow_up_actions s) ->
  all_addressed
    (follow_up_actions (after_events json_loads format_value events s)).
Proof.
  revert s. induction events as [|e rest IH]; intros s Hall; [exact Hall|].
  cbn [after_events]. apply IH. unfold all_addressed in *.
  destruct e as [w user_message | lookup phone | ]; cbn.
  - destruct (message_logs json_loads format_value w user_message s)
      as [[->|(record & -> & _ & _ & Hknown & Hto)] _]; [exact Hall|].
    intros i r Hlook. apply lookup_app_Some in Hlook as [Hold|[_ Hnew]].
    + eapply Hall, Hold.
    + apply list_lookup_singleton_Some in Hnew as [_ <-].
      rewrite Hto. exact Hknown.
  - pose proof (start_call_frame format_value lookup phone s)
      as (_ & _ & _ & _ & Hfu).
    rewrite Hfu. exact Hall.
  - intros i record Hlook. cbn in Hlook.
    try rewrite lookup_nil in Hlook. discriminate.
Qed.

(** ** The manual reading of the volume *)





(** ** The manual reading of the e-mail address *)

Lemma rep_shape (cls : ascii -> bool) (its : list Regex.item)
      (l : list ascii) :
  forall (min : nat) (prev : option ascii) (m : list ascii),
    Regex.match_items (Regex.Rep min cls :: its) prev l = Some m ->
    exists xs m' prev',
      m = (xs ++ m')%list
      /\ forallb cls xs = true
      /\ (min <= length xs)%nat
      /\ Regex.match_items its prev' (drop (length xs) l) = Some m'.
Proof.
  induction l as [|x r IH]; intros min prev m Hm.
  - cbn in Hm. destruct min as [|min]; [|discriminate].
    exists [], m, prev. cbn. auto.
  - cbn in Hm.
    assert (match min with
            | O => Regex.match_items its prev (x :: r)
            | S _ => None
            end = Some m ->
            exists xs m' prev',
              m = (xs ++ m')%list
              /\ forallb cls xs = true
              /\ (min <= length xs)%nat
              /\ Regex.match_items its prev' (drop (length xs) (x :: r))
                 = Some m') as Hstop.
    { destruct min; [|discriminate]. intros Hrest.
      exists [], m, prev. cbn. auto. }
    destruct (cls x) eqn:Hx; [|exact (Hstop Hm)].
    match type of Hm with
    | match ?inner with _ => _ end = _ => destruct inner as [m0|] eqn:Hinner
    end; [|exact (Hstop Hm)].
    injection Hm as <-.
    destruct (IH (Nat.pred min) (Some x) m0 Hinner)
      as (xs & m' & prev' & -> & Hall & Hlen & Hrest).
    exists (x :: xs), m', prev'. cbn. rewrite Hx, Hall.
    repeat split; auto. lia.
Qed.

Lemma lit_shape (c : ascii) (its : list Regex.item) (prev : option ascii)
      (l m : list ascii) :
  Regex.match_items (Regex.Lit c :: its) prev l = Some m ->
  exists r m',
    l = c :: r /\ m = c :: m'
    /\ Regex.match_items its (Some c) r = Some m'.
Proof.
  cbn. destruct l as [|x r]; [discriminate|].
  destruct (Ascii.eqb x c) eqn:Hx; [|discriminate].
  apply Ascii.eqb_eq in Hx. subst x.
  destruct (Regex.match_items its (Some c) r) as [m'|] eqn:Hrest;
    [|discriminate].
  intros [= <-]. eauto.
Qed.

Lemma boundary_shape (its : list Regex.item) (prev : option ascii)
      (l m : list ascii) :
  Regex.match_items (Regex.Boundary :: its) prev l = Some m ->
  Regex.match_items its prev l = Some m.
Proof.
  change (Regex.match_items (Regex.Boundary :: its) prev l)
    with (if Regex.at_boundary prev l
          then Regex.match_items its prev l else None).
  destruct (Regex.at_boundary prev l); [auto|discriminate].
Qed.

Lemma email_pattern_shape (prev : option ascii) (l m : list ascii) :
  Regex.match_items Regex.email_pattern prev l = Some m ->
  exists name domain tld,
    m = (name ++ "@"%char :: domain ++ "."%char :: tld)%list
    /\ forallb Regex.email_local name = true /\ (1 <= length name)%nat
    /\ forallb Regex.email_domain domain = true /\ (1 <= length domain)%nat
    /\ forallb Regex.email_tld tld = true /\ (2 <= length tld)%nat.
Proof.
  unfold Regex.email_pattern. intros Hm.
  apply boundary_shape in Hm.
  apply rep_shape in Hm
    as (name & m1 & prev1 & -> & Hname & Hname_len & Hm).
  apply lit_shape in Hm as (r1 & m2 & _ & -> & Hm).
  apply rep_shape in Hm
    as (domain & m3 & prev3 & -> & Hdomain & Hdomain_len & Hm).
  apply lit_shape in Hm as (r3 & m4 & _ & -> & Hm).
  apply rep_shape in Hm
    as (tld & m5 & prev5 & -> & Htld & Htld_len & Hm).
  apply boundary_shape in Hm. injection Hm as <-. rewrite app_nil_r.
  exists name, domain, tld. auto 10.
Qed.

Lemma findall_go_matches (its : list Regex.item) (fuel : nat) :
  forall (prev : option ascii) (l : list ascii) (e : string),
    In e (Regex.findall_go its fuel prev l) ->
    exists prev' l' m,
      Regex.match_items its prev' l' = Some m /\ e = Str.of_chars m.
Proof.
  induction fuel as [|fuel IH]; intros prev l e Hin; [destruct Hin|].
  cbn [Regex.findall_go] in Hin.
  destruct (Regex.match_items its prev l) as [[|c m]|] eqn:Hm.
  - destruct l as [|x r]; [destruct Hin|]. eapply IH, Hin.
  - destruct Hin as [<-|Hin]; [eauto|]. eapply IH, Hin.
  - destruct l as [|x r]; [destruct Hin|]. eapply IH, Hin.
Qed.

(** X27. An e-mail address read by the manual tier has the shape
    [name@domain.tld]: a non-empty name of letters, digits and
    [._%+-], a non-empty domain of letters, digits, dots and hyphens,
    and an ending of at least two characters that are letters or the
    bar [|], which the class [[A-Z|a-z]] of the pattern admits. *)
Theorem manual_email_has_address_shape (user_message : string)
        (value : pyval) :
  manual_extract "email" user_message = Some value ->
  exists name domain tld,
    value = VStr (Str.of_chars
                    (name ++ "@"%char :: domain ++ "."%char :: tld)%list)
    /\ forallb Regex.email_local name = true /\ (1 <= length name)%nat
    /\ forallb Regex.email_domain domain = true /\ (1 <= length domain)%nat
    /\ forallb Regex.email_tld tld = true /\ (2 <= length tld)%nat.
Proof.
  change (manual_extract "email" user_message)
    with (extract_email user_message).
  unfold extract_email, Regex.findall.
  destruct (Regex.findall_go _ _ _ _) as [|first others] eqn:Hall;
    [discriminate|].
  intros [= <-].
  destruct (findall_go_matches Regex.email_pattern
              (S (String.length user_message)) None
              (Str.chars user_message) first)
    as (prev & l & m & Hm & ->).
  { rewrite Hall. left. reflexivity. }
  destruct (email_pattern_shape prev l m Hm)
    as (name & domain & tld & -> & Hshape).
  exists name, domain, tld. split; [reflexivity|exact Hshape].
Qed.

(** ** The properties at sample inputs *)

Lemma ai_off_engine_sends_nothing_witness :
  llm_requests (after_events sample_json_loads sample_format two_calls
                  manual_call)
  = llm_requests manual_call
  /\ ai_available (after_events sample_json_loads sample_format two_calls
                     manual_call) = false
  /\ ai_extraction_failures
       (after_events sample_json_loads sample_format two_calls manual_call)
     = ai_extraction_failures manual_call.
Proof.
  apply (ai_off_engine_sends_nothing sample_json_loads sample_format).
  vm_compute. reflexivity.
Defined.

Lemma failure_counter_bounds_witness :
  (ai_extraction_failures three_failures
   <= ai_extraction_failures
        (after_events sample_json_loads sample_format two_calls
           three_failures)
   <= 3)%nat.
Proof.
  apply (failure_counter_bounds sample_json_loads sample_format).
  vm_compute. lia.
Defined.

Lemma ai_tier_stays_off_across_calls_witness :
  extraction_requests
    (after_events sample_json_loads sample_format two_calls three_failures)
  = extraction_requests three_failures.
Proof.
  apply (ai_tier_stays_off_across_calls sample_json_loads sample_format).
  vm_compute. lia.
Defined.

Lemma error_recovery_is_manual_for_good_witness :
  let s' :=
    after_message sample_json_loads sample_format (llm_says "NAME") "hello"
      failed_lookup_call in
  current_state s' = COLLECTING_INFO
  /\ ai_available s' = false
  /\ collected_info s' = collected_info failed_lookup_call
  /\ current_info_field s' = current_info_field failed_lookup_call
  /\ llm_requests (after_events sample_json_loads sample_format two_calls s')
     = llm_requests failed_lookup_call.
Proof.
  apply (error_recovery_is_manual_for_good sample_json_loads sample_format).
  vm_compute. reflexivity.
Defined.

Lemma caller_record_or_collected_info_witness :
  let s :=
    after_messages sample_json_loads sample_format
      [(llm_down, "Yes, I would like more information")]
      (snd (start_call sample_format
              (fun _ => PharmacyAPI.Found customer_record) "555-123-4567"
              (__init__ llm_down None None))) in
  pharmacy_data s = Some customer_record /\ collected_info s = ∅
  /\ past_collection (current_state s).
Proof.
  apply (caller_record_or_collected_info sample_json_loads sample_format
           (fun _ => PharmacyAPI.Found customer_record) "555-123-4567"
           [(llm_down, "Yes, I would like more information")]
           (__init__ llm_down None None));
    reflexivity.
Defined.

Lemma scheduling_records_one_callback_witness :
  let s' :=
    after_message sample_json_loads sample_format llm_down
      "any time is fine" customer_scheduling in
  current_state s' = CLOSING
  /\ sent_emails (follow_up_actions s')
     = sent_emails (follow_up_actions customer_scheduling)
  /\ exists record,
      scheduled_callbacks (follow_up_actions s')
      = (scheduled_callbacks (follow_up_actions customer_scheduling)
         ++ [record])%list
      /\ cd_id record
         = (length (scheduled_callbacks
                      (follow_up_actions customer_scheduling)) + 1)%nat
      /\ phone_number (cd_request record)
         = match pharmacy_data customer_scheduling with
           | Some p => pd_phone p
           | None => VStr ""
           end
      /\ (existsb (fun keyword =>
                     Str.contains keyword (Str.lower "any time is fine"))
            time_keywords = false ->
          preferred_time (cd_request record) = "tomorrow at 2 PM").
Proof.
  apply (scheduling_records_one_callback sample_json_loads sample_format).
  vm_compute. reflexivity.
Defined.

Lemma closing_is_final_witness :
  let s' :=
    after_messages sample_json_loads sample_format
      [(llm_down, "one more thing"); (llm_says "NAME", "thanks, bye")]
      customer_closing in
  current_state s' = CLOSING
  /\ follow_up_actions s' = follow_up_actions customer_closing
  /\ collected_info s' = collected_info customer_closing
  /\ llm_requests s' = llm_requests customer_closing
  /\ ai_available s' = ai_available customer_closing.
Proof.
  apply (closing_is_final sample_json_loads sample_format).
  vm_compute. reflexivity.
Defined.

Lemma no_known_address_no_email_witness :
  sent_emails
    (follow_up_actions
       (after_messages sample_json_loads sample_format
          [(llm_down, "send it by email"); (llm_down, "email, please")]
          customer_without_email))
  = sent_emails (follow_up_actions customer_without_email).
Proof.
  apply (no_known_address_no_email sample_json_loads sample_format).
  - vm_compute. auto.
  - vm_compute. reflexivity.
Defined.

Lemma action_ids_are_positions_witness :
  ids_in_order
    (follow_up_actions
       (after_events sample_json_loads sample_format
          [Message llm_down "Please send me an email";
           StartCall directory_miss "555-999-9999"]
          customer_offered)).
Proof.
  apply (action_ids_are_positions sample_json_loads sample_format).
  split; intros i record Hlook; vm_compute in Hlook; discriminate.
Defined.

Lemma logged_emails_are_addressed_witness :
  all_addressed
    (follow_up_actions
       (after_events sample_json_loads sample_format
          [Message llm_down "Please send me an email";
           StartCall directory_miss "555-999-9999"]
          customer_offered)).
Proof.
  apply (logged_emails_are_addressed sample_json_loads sample_format).
  intros i record Hlook. vm_compute in Hlook. discriminate.
Defined.

Lemma generation_request_window_witness :
  let s' :=
    after_message sample_json_loads sample_format (llm_says "NAME")
      "what do you offer" idle_ai_engine in
  let request :=
    GenerationRequest
      [(system, PromptTemplates.SYSTEM_PROMPT);
       (user, "what do you offer"); (user, "what do you offer")] in
  llm_requests s' = (llm_requests idle_ai_engine ++ [request])%list
  /\ (0 <= 9)%nat
  /\ reply_to sample_json_loads sample_format (llm_says "NAME")
       "what do you offer" idle_ai_engine
     = Ok "NAME"
  /\ current_state s' = current_state idle_ai_engine.
Proof.
  apply (generation_request_window sample_json_loads sample_format
           (llm_says "NAME") "what do you offer" idle_ai_engine).
  - left. reflexivity.
  - reflexivity.
Defined.

Lemma ai_tier_volume_is_positive_witness :
  exists value,
    collected_info
      (snd (ai_tier volume_json_loads (llm_says "VOLUME") "about 1500"
              "rx_volume" (ai_call (llm_says "VOLUME"))))
    !! "rx_volume" = Some value
    /\ match value with
       | VInt z => 0 < z
       | VBool b => b = true
       | VFloat f => float_le f 0 = false
       | _ => False
       end.
Proof.
  apply (ai_tier_volume_is_positive volume_json_loads (llm_says "VOLUME")
           "about 1500" (ai_call (llm_says "VOLUME")) _
           (Ok (Some "What's the name of your pharmacy?"))).
  vm_compute. reflexivity.
Defined.

Lemma fenced_answer_reads_like_bare_witness :
  ai_answer sample_json_loads (llm_says "```json NAME ```")
    "We are Alpha Pharmacy" "pharmacy_name"
  = ai_answer sample_json_loads (llm_says " NAME ")
      "We are Alpha Pharmacy" "pharmacy_name".
Proof.
  apply (fenced_answer_reads_like_bare sample_json_loads
           (llm_says "```json NAME ```") (llm_says " NAME ")
           "We are Alpha Pharmacy" "pharmacy_name" " NAME ").
  - reflexivity.
  - reflexivity.
  - vm_compute. discriminate.
  - vm_compute. reflexivity.
  - vm_compute. reflexivity.
Defined.

Lemma lookup_returns_first_matching_record_witness :
  exists attempt records i d,
    (attempt < 3)%nat
    /\ (forall earlier, (earlier < attempt)%nat ->
          PharmacyAPIRequests.retryable (slow_directory earlier) = true)
    /\ slow_directory attempt = PharmacyAPIRequests.Json (VList records)
    /\ records !! i = Some (VDict d)
    /\ PharmacyAPIRequests.clean_phone_value sorted_keys
         (default (VStr "") (d !! "phone"))
       = PharmacyAPIRequests.Return
           (PharmacyAPI._clean_phone_number "+1 (555) 123-4567")
    /\ PharmacyAPIRequests._parse_pharmacy_data sample_format no_int (VDict d)
       = PharmacyAPIRequests.Return second_parsed
    /\ forall j, (j < i)%nat ->
         exists d' cleaned,
           records !! j = Some (VDict d')
           /\ PharmacyAPIRequests.clean_phone_value sorted_keys
                (default (VStr "") (d' !! "phone"))
              = PharmacyAPIRequests.Return cleaned
           /\ cleaned <> PharmacyAPI._clean_phone_number "+1 (555) 123-4567".
Proof.
  apply (lookup_returns_first_matching_record sample_format no_int
           sorted_keys slow_directory "+1 (555) 123-4567" second_parsed).
  vm_compute. reflexivity.
Defined.

Lemma digitless_number_matches_phoneless_record_witness :
  PharmacyAPIRequests.get_pharmacy_by_phone sample_format no_int sorted_keys
    phoneless_directory "unknown"
  = (Some ghost_parsed, []).
Proof.
  apply (digitless_number_matches_phoneless_record sample_format no_int
           sorted_keys phoneless_directory "unknown" phoneless_record
           [VDict first_record] ghost_parsed).
  - reflexivity.
  - reflexivity.
  - vm_compute. reflexivity.
  - vm_compute. reflexivity.
Defined.

Lemma one_bad_record_empties_the_list_witness :
  PharmacyAPIRequests.get_all_pharmacies sample_format no_int sorted_keys
    broken_directory
  = ([], []).
Proof.
  apply (one_bad_record_empties_the_list sample_format no_int sorted_keys
           broken_directory [VDict first_record; VStr "oops"] 1%nat
           (VStr "oops")).
  - reflexivity.
  - reflexivity.
  - intros d. discriminate.
Defined.

Lemma manual_email_has_address_shape_witness :
  exists name domain tld,
    VStr "john@alpha.com"
    = VStr (Str.of_chars
              (name ++ "@"%char :: domain ++ "."%char :: tld)%list)
    /\ forallb Regex.email_local name = true /\ (1 <= length name)%nat
    /\ forallb Regex.email_domain domain = true /\ (1 <= length domain)%nat
    /\ forallb Regex.email_tld tld = true /\ (2 <= length tld)%nat.
Proof.
  apply (manual_email_has_address_shape "you can write to john@alpha.com").
  vm_compute. reflexivity.
Defined.
